(** * Steam -> Discord notifier: a shallow embedding of [steam_to_discord.py]

    The development follows the source file top to bottom: the Python
    values the program handles ([Py]), the configuration globals, the
    status store, the Steam client, the transition detector
    [should_notify], the two notification back-ends and the supervisor
    loop of [main].

    Conventions.
    - A Python [str] is a [string]; one [ascii] stands for one code point
      in U+0000..U+00FF, the range on which [lower], [strip], [int] and
      the JSON escapes are written out below. The three characters of the
      source's literals that lie beyond it (an arrow, a dash and a check
      mark in printed or posted text) are kept as their UTF-8 bytes;
      nothing inspects them. The status file, where text of any script
      is escaped and read back, is modelled a second time over strings
      of arbitrary code points ([Wide]).
    - A Python [int] is a [Z]; the interpreter's cap on the number of
      digits converted between [int] and [str] is left out.
    - The values held by a player record or a snapshot ([Dict[str, Any]]
      in the source) are the scalars Steam sends: [None], booleans,
      integers and strings. Floats and nested values are left out, and
      with them a status file that holds anything but one object of
      scalars: [json.load] would hand such a document to the loop, the
      model cannot.
    - A raised exception is the [Raise] branch of [res]; the network, the
      clock and the disk are arguments of the functions that use them. *)

From Stdlib Require Import ZArith NArith String Ascii List Bool Lia.
From Stdlib Require Import Decimal DecimalString DecimalFacts DecimalPos DecimalZ.
Import ListNotations.

#[local] Open Scope string_scope.
#[local] Open Scope Z_scope.

(* ===================================================================== *)
(** * Python values, exceptions and the builtins the program calls       *)
(* ===================================================================== *)

Module Py.

(** Exceptions the program can meet. *)
Inductive exn : Type :=
| KeyError (key : string)
| TypeError
| ValueError
| AttributeError
| RuntimeError (msg : string)
| HTTPError (status : Z)
| RequestException.

(** Result of a computation that may raise. *)
Inductive res (A : Type) : Type :=
| Ok (a : A)
| Raise (e : exn).
Arguments Ok {A} a.
Arguments Raise {A} e.

Definition bind {A B : Type} (m : res A) (k : A -> res B) : res B :=
  match m with
  | Ok a => k a
  | Raise e => Raise e
  end.

(** Scalar values. *)
Inductive pyval : Type :=
| PNone
| PBool (b : bool)
| PInt (n : Z)
| PStr (s : string).

(** A [dict] keeps its items in insertion order; its keys are distinct. *)
Definition dict : Type := list (string * pyval).

Fixpoint lookup (d : dict) (k : string) : option pyval :=
  match d with
  | [] => None
  | (k', v) :: d' => if String.eqb k' k then Some v else lookup d' k
  end.

(** [d.get(k, default)] *)
Definition get (d : dict) (k : string) (default : pyval) : pyval :=
  match lookup d k with
  | Some v => v
  | None => default
  end.

(** [d[k]] *)
Definition subscript (d : dict) (k : string) : res pyval :=
  match lookup d k with
  | Some v => Ok v
  | None => Raise (KeyError k)
  end.

(** [k in d] *)
Definition contains (d : dict) (k : string) : bool :=
  match lookup d k with
  | Some _ => true
  | None => false
  end.

(** [d[k] = v]: an existing key keeps its place, a new one goes last. *)
Fixpoint setitem (d : dict) (k : string) (v : pyval) : dict :=
  match d with
  | [] => [(k, v)]
  | (k', v') :: d' =>
      if String.eqb k' k then (k', v) :: d' else (k', v') :: setitem d' k v
  end.

(** Truth value of a string, of a list and of a dict: non-empty. *)
Definition str_truthy (s : string) : bool :=
  match s with
  | EmptyString => false
  | String _ _ => true
  end.

Definition list_truthy {A : Type} (l : list A) : bool :=
  match l with
  | [] => false
  | _ :: _ => true
  end.

(** [bool(v)] *)
Definition truthy (v : pyval) : bool :=
  match v with
  | PNone => false
  | PBool b => b
  | PInt n => negb (n =? 0)
  | PStr s => str_truthy s
  end.

(** [a or b] *)
Definition or_else (a b : pyval) : pyval :=
  if truthy a then a else b.

(** ** Characters *)

Definition code (c : ascii) : N := N_of_ascii c.

(** [c.isspace()] on U+0000..U+00FF. *)
Definition is_space (c : ascii) : bool :=
  let n := code c in
  (((9 <=? n) && (n <=? 13)) || ((28 <=? n) && (n <=? 32))
   || (n =? 133) || (n =? 160))%N.

(** [c.lower()] on U+0000..U+00FF: A..Z and the capital letters
    U+00C0..U+00DE (all but the multiplication sign U+00D7) move up by 32. *)
Definition lower_char (c : ascii) : ascii :=
  let n := code c in
  if (((65 <=? n) && (n <=? 90))
      || ((192 <=? n) && (n <=? 222) && negb (n =? 215)))%N
  then ascii_of_N (n + 32)
  else c.

(** [s.lower()] *)
Fixpoint lower (s : string) : string :=
  match s with
  | EmptyString => EmptyString
  | String c s' => String (lower_char c) (lower s')
  end.

(** [v.lower()] on a value: only a [str] has the method. *)
Definition method_lower (v : pyval) : res string :=
  match v with
  | PStr s => Ok (lower s)
  | _ => Raise AttributeError
  end.

(** [s.strip()] *)
Fixpoint lstrip (s : string) : string :=
  match s with
  | EmptyString => EmptyString
  | String c s' => if is_space c then lstrip s' else s
  end.

Fixpoint rstrip (s : string) : string :=
  match s with
  | EmptyString => EmptyString
  | String c s' =>
      match rstrip s' with
      | EmptyString => if is_space c then EmptyString else String c EmptyString
      | r => String c r
      end
  end.

Definition strip (s : string) : string := rstrip (lstrip s).

(** [x in l] for a list of strings. *)
Fixpoint str_in (x : string) (l : list string) : bool :=
  match l with
  | [] => false
  | y :: l' => String.eqb x y || str_in x l'
  end.

(** ** Integers and text *)

Definition digit_val (c : ascii) : option Z :=
  let n := code c in
  if ((48 <=? n) && (n <=? 57))%N then Some (Z.of_N (n - 48)) else None.

(** The digits of [int(s)]: at least one, a single underscore allowed
    between two digits. [after_digit] tells whether the character before
    was a digit. *)
Fixpoint int_digits (s : string) (acc : Z) (after_digit : bool) : option Z :=
  match s with
  | EmptyString => if after_digit then Some acc else None
  | String c s' =>
      match digit_val c with
      | Some d => int_digits s' (10 * acc + d) true
      | None =>
          if Ascii.eqb c "_" && after_digit then int_digits s' acc false
          else None
      end
  end.

(** The white space [int] accepts around a number. The conversion first
    turns every white-space character from U+007F up into a blank and
    then skips the C white space U+0009..U+000D and U+0020; the
    separators U+001C..U+001F, which [strip] removes, are not skipped and
    make the text malformed. *)
Definition is_int_space (c : ascii) : bool :=
  let n := code c in
  (((9 <=? n) && (n <=? 13)) || (n =? 32) || (n =? 133) || (n =? 160))%N.

Fixpoint int_lstrip (s : string) : string :=
  match s with
  | EmptyString => EmptyString
  | String c s' => if is_int_space c then int_lstrip s' else s
  end.

Fixpoint int_rstrip (s : string) : string :=
  match s with
  | EmptyString => EmptyString
  | String c s' =>
      match int_rstrip s' with
      | EmptyString => if is_int_space c then EmptyString else String c EmptyString
      | r => String c r
      end
  end.

(** [int(s)] for a string: surrounding white space, an optional sign,
    decimal digits. *)
Definition int_of_str (s : string) : res Z :=
  let body := int_rstrip (int_lstrip s) in
  let signed :=
    match body with
    | String "-" r => option_map Z.opp (int_digits r 0 false)
    | String "+" r => int_digits r 0 false
    | _ => int_digits body 0 false
    end in
  match signed with
  | Some n => Ok n
  | None => Raise ValueError
  end.

(** [int(v)] *)
Definition int (v : pyval) : res Z :=
  match v with
  | PNone => Raise TypeError
  | PBool b => Ok (if b then 1 else 0)
  | PInt n => Ok n
  | PStr s => int_of_str s
  end.

(** [str(n)] for an integer. *)
Definition str_of_int (n : Z) : string :=
  NilZero.string_of_int (Z.to_int n).

(** [str(v)], which is what [f"{v}"] inserts. *)
Definition str (v : pyval) : string :=
  match v with
  | PNone => "None"
  | PBool true => "True"
  | PBool false => "False"
  | PInt n => str_of_int n
  | PStr s => s
  end.

End Py.

Import Py.

Notation "x <- m ;; k" := (bind m (fun x => k))
  (at level 61, m at next level, right associativity).


(* ===================================================================== *)
(** * JSON: request bodies, and the text of the status file              *)
(* ===================================================================== *)

Module Json.

(** A JSON document, as handed to [requests.post(..., json=...)]. *)
#[warnings="-register-all"]
Inductive json : Type :=
| JVal (v : pyval)
| JArr (items : list json)
| JObj (members : list (string * json)).

Definition dquote : ascii := "034"%char.
Definition backslash : ascii := "092"%char.

Definition esc (c : ascii) : string := String backslash (String c EmptyString).

Definition hex_digit (n : N) : ascii :=
  if (n <? 10)%N then ascii_of_N (48 + n) else ascii_of_N (87 + n).

(** One character of a string under [ensure_ascii]: the quote, the
    backslash and everything outside U+0020..U+007E are escaped. *)
Definition escape_char (c : ascii) : string :=
  let n := code c in
  if (n =? 34)%N then esc dquote
  else if (n =? 92)%N then esc backslash
  else if (n =? 8)%N then esc "b"
  else if (n =? 12)%N then esc "f"
  else if (n =? 10)%N then esc "n"
  else if (n =? 13)%N then esc "r"
  else if (n =? 9)%N then esc "t"
  else if ((32 <=? n) && (n <=? 126))%N then String c EmptyString
  else String backslash
         (String "u" (String "0" (String "0"
           (String (hex_digit (n / 16)) (String (hex_digit (n mod 16)) EmptyString))))).

Fixpoint escape (s : string) : string :=
  match s with
  | EmptyString => EmptyString
  | String c s' => escape_char c ++ escape s'
  end.

Definition dump_str (s : string) : string :=
  String dquote (escape s ++ String dquote EmptyString).

Definition dump_value (v : pyval) : string :=
  match v with
  | PNone => "null"
  | PBool true => "true"
  | PBool false => "false"
  | PInt n => str_of_int n
  | PStr s => dump_str s
  end.

Definition dump_item (kv : string * pyval) : string :=
  dump_str (fst kv) ++ ": " ++ dump_value (snd kv).

Fixpoint dump_items (d : dict) : string :=
  match d with
  | [] => EmptyString
  | [kv] => dump_item kv
  | kv :: d' => dump_item kv ++ ", " ++ dump_items d'
  end.

(** [json.dumps(d)] for a dict of scalars. *)
Definition dumps (d : dict) : string := "{" ++ dump_items d ++ "}".

(** ** Decoding *)

Definition is_ws (c : ascii) : bool :=
  let n := code c in ((n =? 32) || (n =? 9) || (n =? 10) || (n =? 13))%N.

Fixpoint skip_ws (s : string) : string :=
  match s with
  | EmptyString => EmptyString
  | String c s' => if is_ws c then skip_ws s' else s
  end.

Definition hex_val (c : ascii) : option N :=
  let n := code c in
  if ((48 <=? n) && (n <=? 57))%N then Some (n - 48)%N
  else if ((97 <=? n) && (n <=? 102))%N then Some (n - 87)%N
  else if ((65 <=? n) && (n <=? 70))%N then Some (n - 55)%N
  else None.

Definition hex4 (a b c d : ascii) : option N :=
  match hex_val a, hex_val b, hex_val c, hex_val d with
  | Some x, Some y, Some z, Some w => Some (((x * 16 + y) * 16 + z) * 16 + w)%N
  | _, _, _, _ => None
  end.

(** The character a one-letter escape stands for. *)
Definition unescape_simple (e : ascii) : option ascii :=
  let n := code e in
  if (n =? 34)%N then Some dquote
  else if (n =? 92)%N then Some backslash
  else if (n =? 47)%N then Some "/"%char
  else if (n =? 98)%N then Some "008"%char
  else if (n =? 102)%N then Some "012"%char
  else if (n =? 110)%N then Some "010"%char
  else if (n =? 114)%N then Some "013"%char
  else if (n =? 116)%N then Some "009"%char
  else None.

Definition push (c : ascii) (r : option (string * string)) : option (string * string) :=
  match r with
  | Some (t, rest) => Some (String c t, rest)
  | None => None
  end.

(** The body of a string literal, from just after its opening quote:
    the decoded text and what follows the closing quote. A raw control
    character, a bad escape or a missing closing quote is an error; so is
    an escape above U+00FF, which this model has no character for. *)
Fixpoint scan_string (s : string) : option (string * string) :=
  match s with
  | EmptyString => None
  | String c s1 =>
      if Ascii.eqb c dquote then Some (EmptyString, s1)
      else if Ascii.eqb c backslash then
        match s1 with
        | EmptyString => None
        | String e s2 =>
            if Ascii.eqb e "u" then
              match s2 with
              | String h1 (String h2 (String h3 (String h4 s3))) =>
                  match hex4 h1 h2 h3 h4 with
                  | Some n =>
                      if (n <? 256)%N then push (ascii_of_N n) (scan_string s3)
                      else None
                  | None => None
                  end
              | _ => None
              end
            else
              match unescape_simple e with
              | Some ch => push ch (scan_string s2)
              | None => None
              end
        end
      else if (code c <? 32)%N then None
      else push c (scan_string s1)
  end.

Definition digit_of_char (c : ascii) : option (uint -> uint) :=
  let n := code c in
  if (n =? 48)%N then Some D0 else if (n =? 49)%N then Some D1
  else if (n =? 50)%N then Some D2 else if (n =? 51)%N then Some D3
  else if (n =? 52)%N then Some D4 else if (n =? 53)%N then Some D5
  else if (n =? 54)%N then Some D6 else if (n =? 55)%N then Some D7
  else if (n =? 56)%N then Some D8 else if (n =? 57)%N then Some D9
  else None.

(** The longest run of decimal digits at the head of [s]. *)
Fixpoint scan_digits (s : string) : uint * string :=
  match s with
  | EmptyString => (Nil, EmptyString)
  | String c s' =>
      match digit_of_char c with
      | Some mk => let (d, rest) := scan_digits s' in (mk d, rest)
      | None => (Nil, s)
      end
  end.

(** A fraction or an exponent makes the number a float. *)
Definition starts_float_tail (s : string) : bool :=
  match s with
  | String c _ => Ascii.eqb c "." || Ascii.eqb c "e" || Ascii.eqb c "E"
  | EmptyString => false
  end.

(** An integer literal: an optional minus sign, then a lone 0 or a run of
    digits that does not start with 0. *)
Definition scan_number (s : string) : option (Z * string) :=
  let (negative, s1) :=
    match s with
    | String c r => if Ascii.eqb c "-" then (true, r) else (false, s)
    | EmptyString => (false, s)
    end in
  let (d, rest) :=
    match s1 with
    | String c r => if Ascii.eqb c "0" then (D0 Nil, r) else scan_digits s1
    | EmptyString => (Nil, s1)
    end in
  match d with
  | Nil => None
  | _ =>
      if starts_float_tail rest then None
      else Some (Z.of_int (if negative then Neg d else Pos d), rest)
  end.

Fixpoint strip_prefix (p s : string) : option string :=
  match p, s with
  | EmptyString, _ => Some s
  | String a p', String b s' => if Ascii.eqb a b then strip_prefix p' s' else None
  | String _ _, EmptyString => None
  end.

(** One scalar value. *)
Definition scan_value (s : string) : option (pyval * string) :=
  match s with
  | EmptyString => None
  | String c r =>
      if Ascii.eqb c dquote then
        match scan_string r with
        | Some (t, rest) => Some (PStr t, rest)
        | None => None
        end
      else
        match strip_prefix "null" s, strip_prefix "true" s, strip_prefix "false" s with
        | Some rest, _, _ => Some (PNone, rest)
        | _, Some rest, _ => Some (PBool true, rest)
        | _, _, Some rest => Some (PBool false, rest)
        | None, None, None =>
            match scan_number s with
            | Some (n, rest) => Some (PInt n, rest)
            | None => None
            end
        end
  end.

(** The members of an object, from the opening quote of a key; a key met
    twice keeps its first place and takes the last value. *)
Fixpoint scan_members (fuel : nat) (s : string) (acc : dict) : option (dict * string) :=
  match fuel with
  | O => None
  | S fuel' =>
      match s with
      | EmptyString => None
      | String c r =>
          if Ascii.eqb c dquote then
            match scan_string r with
            | None => None
            | Some (k, r1) =>
                match skip_ws r1 with
                | String c2 r2 =>
                    if Ascii.eqb c2 ":" then
                      match scan_value (skip_ws r2) with
                      | None => None
                      | Some (v, r3) =>
                          let acc' := setitem acc k v in
                          match skip_ws r3 with
                          | String c4 r4 =>
                              if Ascii.eqb c4 "," then scan_members fuel' (skip_ws r4) acc'
                              else if Ascii.eqb c4 "}" then Some (acc', r4)
                              else None
                          | EmptyString => None
                          end
                      end
                    else None
                | EmptyString => None
                end
            end
          else None
      end
  end.

Definition scan_object (s : string) : option (dict * string) :=
  match s with
  | String c r =>
      if Ascii.eqb c "{" then
        match skip_ws r with
        | String c1 r1 =>
            if Ascii.eqb c1 "}" then Some ([], r1)
            else scan_members (String.length r) (skip_ws r) []
        | EmptyString => None
        end
      else None
  | EmptyString => None
  end.

(** [json.loads(text)] where the text is one object of scalars; [None]
    when the decoder raises. [None] is also the answer for the documents
    the decoder accepts and this model has no value for: a document that
    is not an object, a float, a nested value, an escape above U+00FF
    (for the last see [Wide.loads]). *)
Definition loads (text : string) : option dict :=
  match scan_object (skip_ws text) with
  | Some (d, rest) =>
      match skip_ws rest with
      | EmptyString => Some d
      | String _ _ => None
      end
  | None => None
  end.

End Json.

Import Json.

(* ===================================================================== *)
(** * Config (source lines 45-68)                                        *)
(* ===================================================================== *)

Definition nl : string := String "010"%char EmptyString.

(** The module-level globals, read once from the environment. *)
Record Config : Type := {
  STEAM_API_KEY : string;
  STEAM_FRIEND_ID64 : string;
  DISCORD_WEBHOOK_URL : string;
  DISCORD_USER_ID : string;
  POLL_SECONDS : Z;
  BOT_MODE : bool;
  DISCORD_BOT_TOKEN : string;
  DISCORD_CHANNEL_ID : string;
  KEEPALIVE : bool;
  KEEPALIVE_PORT : Z;
  ONLY_ONLINE : bool;
  ONLY_GAMES : list string
}.

Definition KEEPALIVE_HOST : string := "0.0.0.0".
Definition STATUS_FILE : string := ".status.json".
Definition STEAM_SUMMARIES_URL : string :=
  "https://api.steampowered.com/ISteamUser/GetPlayerSummaries/v2/".
Definition PERSONA_MAP : list (Z * string) :=
  [(0, "offline"); (1, "online"); (2, "busy"); (3, "away"); (4, "snooze");
   (5, "looking to trade"); (6, "looking to play")].

(** The process environment: the variables that are set. *)
Definition environ : Type := list (string * string).

(** [os.getenv(name, default)] *)
Fixpoint getenv (env : environ) (name default : string) : string :=
  match env with
  | [] => default
  | (k, v) :: env' => if String.eqb k name then v else getenv env' name default
  end.

(** [s.split(",")] *)
Fixpoint split_comma (s : string) : list string :=
  match s with
  | EmptyString => [EmptyString]
  | String c s' =>
      if Ascii.eqb c "," then EmptyString :: split_comma s'
      else
        match split_comma s' with
        | h :: t => String c h :: t
        | [] => [String c EmptyString]
        end
  end.

(** [s.lower() in {"1", "true", "yes"}] *)
Definition flag (s : string) : bool := str_in (lower s) ["1"; "true"; "yes"].

(** [[g.strip().lower() for g in s.split(",") if g.strip()]] *)
Definition parse_only_games (s : string) : list string :=
  map (fun g => lower (strip g))
      (filter (fun g => str_truthy (strip g)) (split_comma s)).

(** The assignments of lines 45-64, in order; [int] raises on a
    malformed POLL_SECONDS or PORT. *)
Definition load_config (env : environ) : res Config :=
  poll <- int_of_str (getenv env "POLL_SECONDS" "60") ;;
  port <- int_of_str (getenv env "PORT" "3000") ;;
  Ok {| STEAM_API_KEY := strip (getenv env "STEAM_API_KEY" "");
        STEAM_FRIEND_ID64 := strip (getenv env "STEAM_FRIEND_ID64" "");
        DISCORD_WEBHOOK_URL := strip (getenv env "DISCORD_WEBHOOK_URL" "");
        DISCORD_USER_ID := strip (getenv env "DISCORD_USER_ID" "");
        POLL_SECONDS := Z.max 15 poll;
        BOT_MODE := flag (getenv env "BOT_MODE" "");
        DISCORD_BOT_TOKEN := strip (getenv env "DISCORD_BOT_TOKEN" "");
        DISCORD_CHANNEL_ID := strip (getenv env "DISCORD_CHANNEL_ID" "");
        KEEPALIVE := flag (getenv env "KEEPALIVE" "true");
        KEEPALIVE_PORT := port;
        ONLY_ONLINE := flag (getenv env "ONLY_ONLINE" "false");
        ONLY_GAMES := parse_only_games (getenv env "ONLY_GAMES" "") |}.

(* ===================================================================== *)
(** * Persistence (source lines 90-104)                                  *)
(* ===================================================================== *)

(** The disk is the content of [STATUS_FILE], [None] while the file does
    not exist. What a write does to it is the disk's answer. *)
Inductive disk_write : Type :=
| WriteDone
| OpenDenied
| WriteCut (written : nat).

(** [load_last_status()]: no file, an unreadable file or a decoding error
    all give the empty dict. The file is taken to hold what
    [save_last_status] writes, whole or in part, or text that is not
    JSON; for a document [loads] has no value for, where the source
    returns what [json.load] decoded, the model answers the empty dict
    and says nothing about the program. *)
Definition load_last_status (file : option string) (readable : bool) : dict :=
  match file with
  | None => []
  | Some text =>
      if readable then
        match loads text with
        | Some d => d
        | None => []
        end
      else []
  end.

(** [save_last_status(data)]: the file after the call. Opening for
    writing empties the file; an error at any point is swallowed. *)
Definition save_last_status (data : dict) (file : option string) (disk : disk_write)
  : option string :=
  match disk with
  | WriteDone => Some (dumps data)
  | OpenDenied => file
  | WriteCut n => Some (substring 0 n (dumps data))
  end.

(* ===================================================================== *)
(** * Persistence over text in any script (source lines 90-104)          *)
(* ===================================================================== *)

(** A persona name or a game title is text in any script, well beyond
    U+00FF. The program looks inside such text in one place only: the
    status file, where [json.dump] escapes every character outside
    U+0020..U+007E, as a surrogate pair from U+10000 up, and [json.load]
    reads the escapes back. [Wide] writes the two persistence functions
    out again over strings of arbitrary code points, with the same disk;
    on text within U+0000..U+00FF it writes the file [dumps] writes
    (lemma [wide_dumps_widen]). The file itself is text within
    U+0000..U+00FF; what [save_last_status] writes is ASCII. As in
    [Json], the values are scalars. *)
Module Wide.

(** A Python [str]: its code points. *)
Definition ustr : Type := list N.

Inductive uval : Type :=
| UNone
| UBool (b : bool)
| UInt (n : Z)
| UStr (s : ustr).

Definition udict : Type := list (ustr * uval).

Fixpoint ustr_eqb (a b : ustr) : bool :=
  match a, b with
  | [], [] => true
  | x :: a', y :: b' => (x =? y)%N && ustr_eqb a' b'
  | _, _ => false
  end.

(** [d[k] = v] *)
Fixpoint setitem (d : udict) (k : ustr) (v : uval) : udict :=
  match d with
  | [] => [(k, v)]
  | (k', v') :: d' =>
      if ustr_eqb k' k then (k', v) :: d' else (k', v') :: setitem d' k v
  end.

(** The two halves of a surrogate pair: U+D800..U+DBFF and
    U+DC00..U+DFFF. *)
Definition is_high (n : N) : bool := ((0xD800 <=? n) && (n <=? 0xDBFF))%N.
Definition is_low (n : N) : bool := ((0xDC00 <=? n) && (n <=? 0xDFFF))%N.

(** ** Encoding *)

(** [format(n, "04x")] for a number below 0x10000. *)
Definition hex4_text (n : N) : string :=
  String (hex_digit ((n / 4096) mod 16))
    (String (hex_digit ((n / 256) mod 16))
       (String (hex_digit ((n / 16) mod 16))
          (String (hex_digit (n mod 16)) EmptyString))).

Definition uescape (n : N) : string :=
  String backslash (String "u" (hex4_text n)).

(** One code point of a string under [ensure_ascii]. *)
Definition escape_cp (n : N) : string :=
  if (n =? 34)%N then esc dquote
  else if (n =? 92)%N then esc backslash
  else if (n =? 8)%N then esc "b"
  else if (n =? 12)%N then esc "f"
  else if (n =? 10)%N then esc "n"
  else if (n =? 13)%N then esc "r"
  else if (n =? 9)%N then esc "t"
  else if ((32 <=? n) && (n <=? 126))%N then String (ascii_of_N n) EmptyString
  else if (n <? 0x10000)%N then uescape n
  else
    let v := (n - 0x10000)%N in
    uescape (N.lor 0xD800 (N.land (N.shiftr v 10) 0x3FF))
    ++ uescape (N.lor 0xDC00 (N.land v 0x3FF)).

Fixpoint escape (s : ustr) : string :=
  match s with
  | [] => EmptyString
  | n :: s' => escape_cp n ++ escape s'
  end.

Definition dump_str (s : ustr) : string :=
  String dquote (escape s ++ String dquote EmptyString).

Definition dump_value (v : uval) : string :=
  match v with
  | UNone => "null"
  | UBool true => "true"
  | UBool false => "false"
  | UInt n => str_of_int n
  | UStr s => dump_str s
  end.

Definition dump_item (kv : ustr * uval) : string :=
  dump_str (fst kv) ++ ": " ++ dump_value (snd kv).

Fixpoint dump_items (d : udict) : string :=
  match d with
  | [] => EmptyString
  | [kv] => dump_item kv
  | kv :: d' => dump_item kv ++ ", " ++ dump_items d'
  end.

(** [json.dumps(d)] *)
Definition dumps (d : udict) : string := "{" ++ dump_items d ++ "}".

(** ** Decoding *)

Definition push (n : N) (r : option (ustr * string)) : option (ustr * string) :=
  match r with
  | Some (t, rest) => Some (n :: t, rest)
  | None => None
  end.

(** The code point a surrogate pair stands for. *)
Definition join (hi lo : N) : N :=
  (0x10000 + N.lor (N.shiftl (hi - 0xD800) 10) (lo - 0xDC00))%N.

(** The body of a string literal, from just after its opening quote. An
    escaped high surrogate that is directly followed by an escaped low
    surrogate is joined with it; followed by anything else it stands for
    itself. *)
Fixpoint scan_string (s : string) : option (ustr * string) :=
  match s with
  | EmptyString => None
  | String c s1 =>
      if Ascii.eqb c dquote then Some ([], s1)
      else if Ascii.eqb c backslash then
        match s1 with
        | EmptyString => None
        | String e s2 =>
            if Ascii.eqb e "u" then
              match s2 with
              | String h1 (String h2 (String h3 (String h4 s3))) =>
                  match hex4 h1 h2 h3 h4 with
                  | Some n =>
                      if is_high n then
                        match s3 with
                        | String b s4 =>
                            if Ascii.eqb b backslash then
                              match s4 with
                              | String u s5 =>
                                  if Ascii.eqb u "u" then
                                    match s5 with
                                    | String k1 (String k2 (String k3 (String k4 s6))) =>
                                        match hex4 k1 k2 k3 k4 with
                                        | Some m =>
                                            if is_low m
                                            then push (join n m) (scan_string s6)
                                            else push n (scan_string s3)
                                        | None => None
                                        end
                                    | _ => None
                                    end
                                  else push n (scan_string s3)
                              | EmptyString => push n (scan_string s3)
                              end
                            else push n (scan_string s3)
                        | EmptyString => push n (scan_string s3)
                        end
                      else push n (scan_string s3)
                  | None => None
                  end
              | _ => None
              end
            else
              match unescape_simple e with
              | Some ch => push (code ch) (scan_string s2)
              | None => None
              end
        end
      else if (code c <? 32)%N then None
      else push (code c) (scan_string s1)
  end.

(** One scalar value. *)
Definition scan_value (s : string) : option (uval * string) :=
  match s with
  | EmptyString => None
  | String c r =>
      if Ascii.eqb c dquote then
        match scan_string r with
        | Some (t, rest) => Some (UStr t, rest)
        | None => None
        end
      else
        match strip_prefix "null" s, strip_prefix "true" s, strip_prefix "false" s with
        | Some rest, _, _ => Some (UNone, rest)
        | _, Some rest, _ => Some (UBool true, rest)
        | _, _, Some rest => Some (UBool false, rest)
        | None, None, None =>
            match scan_number s with
            | Some (n, rest) => Some (UInt n, rest)
            | None => None
            end
        end
  end.

(** The members of an object, from the opening quote of a key. *)
Fixpoint scan_members (fuel : nat) (s : string) (acc : udict) : option (udict * string) :=
  match fuel with
  | O => None
  | S fuel' =>
      match s with
      | EmptyString => None
      | String c r =>
          if Ascii.eqb c dquote then
            match scan_string r with
            | None => None
            | Some (k, r1) =>
                match skip_ws r1 with
                | String c2 r2 =>
                    if Ascii.eqb c2 ":" then
                      match scan_value (skip_ws r2) with
                      | None => None
                      | Some (v, r3) =>
                          let acc' := setitem acc k v in
                          match skip_ws r3 with
                          | String c4 r4 =>
                              if Ascii.eqb c4 "," then scan_members fuel' (skip_ws r4) acc'
                              else if Ascii.eqb c4 "}" then Some (acc', r4)
                              else None
                          | EmptyString => None
                          end
                      end
                    else None
                | EmptyString => None
                end
            end
          else None
      end
  end.

Definition scan_object (s : string) : option (udict * string) :=
  match s with
  | String c r =>
      if Ascii.eqb c "{" then
        match skip_ws r with
        | String c1 r1 =>
            if Ascii.eqb c1 "}" then Some ([], r1)
            else scan_members (String.length r) (skip_ws r) []
        | EmptyString => None
        end
      else None
  | EmptyString => None
  end.

(** [json.loads(text)] where the text is one object of scalars. *)
Definition loads (text : string) : option udict :=
  match scan_object (skip_ws text) with
  | Some (d, rest) =>
      match skip_ws rest with
      | EmptyString => Some d
      | String _ _ => None
      end
  | None => None
  end.

(** ** The two functions *)

(** [load_last_status()] *)
Definition load_last_status (file : option string) (readable : bool) : udict :=
  match file with
  | None => []
  | Some text =>
      if readable then
        match loads text with
        | Some d => d
        | None => []
        end
      else []
  end.

(** [save_last_status(data)] *)
Definition save_last_status (data : udict) (file : option string) (disk : disk_write)
  : option string :=
  match disk with
  | WriteDone => Some (dumps data)
  | OpenDenied => file
  | WriteCut n => Some (substring 0 n (dumps data))
  end.

(** ** Views *)

(** The code points of a text within U+0000..U+00FF. *)
Fixpoint codes (s : string) : ustr :=
  match s with
  | EmptyString => []
  | String c s' => code c :: codes s'
  end.

Definition widen_value (v : pyval) : uval :=
  match v with
  | PNone => UNone
  | PBool b => UBool b
  | PInt n => UInt n
  | PStr s => UStr (codes s)
  end.

Definition widen (d : dict) : udict :=
  map (fun kv => (codes (fst kv), widen_value (snd kv))) d.

Definition distinct_keys (d : udict) : Prop := NoDup (map fst d).

(** Text as a JSON decoder yields it, and as [str] holds it: code points
    up to U+10FFFF, and no high surrogate directly before a low one (the
    decoder joins such a pair into one code point). *)
Fixpoint well_formed (s : ustr) : bool :=
  match s with
  | [] => true
  | n :: s' =>
      (n <? 0x110000)%N
      && match s' with
         | m :: _ => negb (is_high n && is_low m)
         | [] => true
         end
      && well_formed s'
  end.

Definition value_well_formed (v : uval) : bool :=
  match v with
  | UStr s => well_formed s
  | _ => true
  end.

(** Every key and every string value of the dict is such text. *)
Definition text_well_formed (d : udict) : bool :=
  forallb (fun kv => well_formed (fst kv) && value_well_formed (snd kv)) d.

(** A player whose name is in Cyrillic, with a trade mark sign and an
    emoji, in a game. *)
Definition named_snapshot : udict :=
  [(codes "name", UStr [0x418; 0x433; 0x440; 0x43E; 0x43A; 0x2122; 0x20; 0x1F600]%N);
   (codes "state", UStr (codes "online"));
   (codes "personastate", UInt 1);
   (codes "in_game", UBool true);
   (codes "game", UStr (codes "Dota 2"));
   (codes "avatar", UNone);
   (codes "profile_url", UStr (codes "https://steamcommunity.com/id/player/"));
   (codes "timestamp", UInt 1700000000)].

End Wide.

(** Linear arithmetic with division by a constant. *)
Ltac div_lia := zify; Z.to_euclidean_division_equations; lia.

(* ===================================================================== *)
(** * Steam (source lines 107-131)                                       *)
(* ===================================================================== *)

(** What the summaries endpoint answers, as far as [fetch_steam_status]
    looks at it: no answer at all ([requests.get] raises), or a status
    code with a body; the body is either not JSON or yields the list
    found under response.players (empty when a key is missing). *)
Inductive steam_reply : Type :=
| SteamNoResponse
| SteamResponse (status : Z) (players : option (list dict)).

Fixpoint persona_label (table : list (Z * string)) (n : Z) : string :=
  match table with
  | [] => "unknown(" ++ str_of_int n ++ ")"
  | (k, label) :: table' => if k =? n then label else persona_label table' n
  end.

Definition fetch_steam_status (reply : steam_reply) (now : Z) : res dict :=
  match reply with
  | SteamNoResponse => Raise RequestException
  | SteamResponse status body =>
      if (400 <=? status) && (status <? 600) then Raise (HTTPError status)
      else
        match body with
        | None => Raise ValueError
        | Some [] =>
            Raise (RuntimeError "No player data returned — check SteamID64 and API key.")
        | Some (p :: _) =>
            personastate <- int (get p "personastate" (PInt 0)) ;;
            let state_label := persona_label PERSONA_MAP personastate in
            let in_game := contains p "gameextrainfo" in
            let game := get p "gameextrainfo" PNone in
            let name := get p "personaname" (PStr "Friend") in
            let avatar := get p "avatarfull" PNone in
            let profile_url := get p "profileurl" PNone in
            Ok [("name", name);
                ("state", PStr state_label);
                ("personastate", PInt personastate);
                ("in_game", PBool in_game);
                ("game", game);
                ("avatar", avatar);
                ("profile_url", profile_url);
                ("timestamp", PInt now)]
        end
  end.

(* ===================================================================== *)
(** * Notify logic (source lines 134-169)                                *)
(* ===================================================================== *)

Definition should_notify (cfg : Config) (prev curr : dict) : res (bool * string) :=
  prev_state <- (if list_truthy prev then int (get prev "personastate" (PInt 0))
                 else Ok 0) ;;
  curr_state <- int (get curr "personastate" (PInt 0)) ;;
  let prev_in_game :=
    if list_truthy prev then truthy (get prev "in_game" PNone) else false in
  let curr_in_game := truthy (get curr "in_game" PNone) in
  (* Game filters (if set): the block computes game_name and then passes *)
  _ <- (if curr_in_game && list_truthy (ONLY_GAMES cfg) then
          game_name <- method_lower (or_else (get curr "game" PNone) (PStr "")) ;;
          if str_truthy game_name && negb (str_in game_name (ONLY_GAMES cfg))
          then Ok tt else Ok tt
        else Ok tt) ;;
  (* 1) Offline -> Online *)
  if (prev_state =? 0) && (curr_state >? 0) then
    if list_truthy (ONLY_GAMES cfg) && ONLY_ONLINE cfg then Ok (false, "")
    else Ok (true, "came online")
  (* 2) Started playing *)
  else if negb prev_in_game && curr_in_game then
    let after_games : res (bool * string) :=
      if ONLY_ONLINE cfg then Ok (false, "") else Ok (true, "started playing") in
    if list_truthy (ONLY_GAMES cfg) then
      game_name <- method_lower (or_else (get curr "game" PNone) (PStr "")) ;;
      if str_truthy game_name && negb (str_in game_name (ONLY_GAMES cfg))
      then Ok (false, "")
      else after_games
    else after_games
  else Ok (false, "").

(* ===================================================================== *)
(** * The two back-ends (source lines 171-212)                           *)
(* ===================================================================== *)

(** What one POST comes back with: no answer ([requests.post] raises) or
    a response with its status code and text. *)
Inductive http_reply : Type :=
| NoResponse
| Response (status : Z) (text : string).

(** What the process does to the outside, in order. *)
Inductive event : Type :=
| Print (line : string)
| PrintError (label : string) (e : exn)
| HttpGet (url : string) (params : list (string * string))
| HttpPost (url : string) (headers : list (string * string)) (body : json)
| KeepaliveThread (host : string) (port : Z)
| Sleep (seconds : Z).

Definition _mention_prefix (cfg : Config) : string :=
  if str_truthy (DISCORD_USER_ID cfg) then "<@" ++ DISCORD_USER_ID cfg ++ "> "
  else "".

(** Lines 178-188: title, description and payload of the webhook. *)
Definition webhook_payload (cfg : Config) (curr : dict) (reason : string) : res json :=
  name <- subscript curr "name" ;;
  let title := str name ++ " " ++ reason ++ "!" in
  state <- subscript curr "state" ;;
  in_game <- subscript curr "in_game" ;;
  game_line <- (if truthy in_game && truthy (get curr "game" PNone)
                then game <- subscript curr "game" ;;
                     Ok ("Game: **" ++ str game ++ "**" ++ nl)
                else Ok "") ;;
  profile_line <- (if truthy (get curr "profile_url" PNone)
                   then profile_url <- subscript curr "profile_url" ;;
                        Ok ("Profile: " ++ str profile_url ++ nl)
                   else Ok "") ;;
  let desc := ("Status: **" ++ str state ++ "**" ++ nl) ++ game_line ++ profile_line in
  Ok (JObj
        [("content", JVal (PStr (_mention_prefix cfg ++ "Steam update:")));
         ("embeds",
          JArr [JObj [("title", JVal (PStr title));
                      ("description", JVal (PStr desc));
                      ("thumbnail", JObj [("url", JVal (get curr "avatar" (PStr "")))])]]);
         ("allowed_mentions", JObj [("parse", JArr [JVal (PStr "users")])])]).

Definition send_discord_webhook (cfg : Config) (curr : dict) (reason : string)
    (reply : http_reply) : list event * res unit :=
  if negb (str_truthy (DISCORD_WEBHOOK_URL cfg)) then
    ([Print "[warn] No DISCORD_WEBHOOK_URL provided; skipping notify."], Ok tt)
  else
    match webhook_payload cfg curr reason with
    | Raise e => ([], Raise e)
    | Ok payload =>
        let post := HttpPost (DISCORD_WEBHOOK_URL cfg) [] payload in
        match reply with
        | NoResponse => ([post], Raise RequestException)
        | Response status text =>
            if status >=? 300 then
              ([post;
                Print ("[error] Webhook failed: " ++ str_of_int status ++ " " ++ text)],
               Ok tt)
            else ([post], Ok tt)
        end
    end.

(** Lines 198-208: title, description and payload of the bot. *)
Definition bot_payload (cfg : Config) (curr : dict) (reason : string) : res json :=
  name <- subscript curr "name" ;;
  let title := str name ++ " " ++ reason ++ "!" in
  state <- subscript curr "state" ;;
  in_game <- subscript curr "in_game" ;;
  game_line <- (if truthy in_game && truthy (get curr "game" PNone)
                then game <- subscript curr "game" ;;
                     Ok ("Game: **" ++ str game ++ "**" ++ nl)
                else Ok "") ;;
  profile_line <- (if truthy (get curr "profile_url" PNone)
                   then profile_url <- subscript curr "profile_url" ;;
                        Ok ("Profile: " ++ str profile_url ++ nl)
                   else Ok "") ;;
  let desc := ("Status: **" ++ str state ++ "**" ++ nl) ++ game_line ++ profile_line in
  Ok (JObj
        [("content", JVal (PStr (_mention_prefix cfg ++ "Steam update:")));
         ("embeds",
          JArr [JObj [("title", JVal (PStr title));
                      ("description", JVal (PStr desc));
                      ("thumbnail", JObj [("url", JVal (get curr "avatar" (PStr "")))])]]);
         ("allowed_mentions", JObj [("parse", JArr [JVal (PStr "users")])])]).

Definition send_discord_bot (cfg : Config) (curr : dict) (reason : string)
    (reply : http_reply) : list event * res unit :=
  if negb (str_truthy (DISCORD_BOT_TOKEN cfg) && str_truthy (DISCORD_CHANNEL_ID cfg)) then
    ([Print "[warn] BOT_MODE enabled but token/channel missing; skipping notify."], Ok tt)
  else
    let url := "https://discord.com/api/v10/channels/" ++ DISCORD_CHANNEL_ID cfg
               ++ "/messages" in
    match bot_payload cfg curr reason with
    | Raise e => ([], Raise e)
    | Ok json_payload =>
        let headers := [("Authorization", "Bot " ++ DISCORD_BOT_TOKEN cfg)] in
        let post := HttpPost url headers json_payload in
        match reply with
        | NoResponse => ([post], Raise RequestException)
        | Response status text =>
            if status >=? 300 then
              ([post;
                Print ("[error] Bot send failed: " ++ str_of_int status ++ " " ++ text)],
               Ok tt)
            else ([post], Ok tt)
        end
    end.

(** The body a run of a back-end posted, if it posted. *)
Fixpoint posted_body (evs : list event) : option json :=
  match evs with
  | [] => None
  | HttpPost _ _ body :: _ => Some body
  | _ :: evs' => posted_body evs'
  end.

(** The message of section 4.3 of the specification, written from its
    words: the content line, one embed with its title, the description
    lines that apply, the thumbnail, and mentions of users only. A field
    counts as present when it holds a non-empty value. *)
Definition described_message (user_id : string) (name state_label : pyval)
    (in_game : bool) (game profile_url avatar_url : pyval) (reason : string) : json :=
  let content :=
    if str_truthy user_id then "<@" ++ user_id ++ "> Steam update:" else "Steam update:" in
  let status_line := "Status: **" ++ str state_label ++ "**" ++ nl in
  let game_line :=
    if in_game && truthy game then "Game: **" ++ str game ++ "**" ++ nl else "" in
  let profile_line :=
    if truthy profile_url then "Profile: " ++ str profile_url ++ nl else "" in
  JObj [("content", JVal (PStr content));
        ("embeds",
         JArr [JObj [("title", JVal (PStr (str name ++ " " ++ reason ++ "!")));
                     ("description", JVal (PStr (status_line ++ game_line ++ profile_line)));
                     ("thumbnail", JObj [("url", JVal avatar_url)])]]);
        ("allowed_mentions", JObj [("parse", JArr [JVal (PStr "users")])])].

(* ===================================================================== *)
(** * Main loop (source lines 221-265)                                   *)
(* ===================================================================== *)

(** What the supervisor carries from one tick to the next: the variable
    [state] of [main] and the status file. *)
Record world : Type := {
  state : dict;
  status_file : option string
}.

(** What the outside answers during one tick. *)
Record tick_env : Type := {
  steam : steam_reply;
  clock : Z;
  discord : http_reply;
  disk : disk_write
}.

(** The two [except] clauses of the loop. *)
Definition handler (e : exn) : event :=
  match e with
  | HTTPError _ => PrintError "[error] HTTP:" e
  | _ => PrintError "[error]" e
  end.

(** The back-end [BOT_MODE] selects. *)
Definition send (cfg : Config) (curr : dict) (reason : string) (reply : http_reply)
  : list event * res unit :=
  if BOT_MODE cfg then send_discord_bot cfg curr reason reply
  else send_discord_webhook cfg curr reason reply.

(** The decision of a tick: what [should_notify] answers on what was
    fetched, when both return. *)
Definition decision (cfg : Config) (env : tick_env) (w : world)
  : option (dict * (bool * string)) :=
  match fetch_steam_status (steam env) (clock env) with
  | Ok curr =>
      match should_notify cfg (state w) curr with
      | Ok d => Some (curr, d)
      | Raise _ => None
      end
  | Raise _ => None
  end.

(** The body of the [try] of lines 251-264. *)
Definition tick (cfg : Config) (env : tick_env) (w : world) : world * list event :=
  let request :=
    HttpGet STEAM_SUMMARIES_URL
            [("key", STEAM_API_KEY cfg); ("steamids", STEAM_FRIEND_ID64 cfg)] in
  match fetch_steam_status (steam env) (clock env) with
  | Raise e => (w, [request; handler e])
  | Ok curr =>
      match should_notify cfg (state w) curr with
      | Raise e => (w, [request; handler e])
      | Ok (notify, reason) =>
          if notify then
            match send cfg curr reason (discord env) with
            | (evs, Raise e) => (w, request :: (evs ++ [handler e])%list)
            | (evs, Ok _) =>
                ({| state := curr;
                    status_file := save_last_status curr (status_file w) (disk env) |},
                 request :: evs)
            end
          else (w, [request])
      end
  end.

(** The [while] loop, one [tick_env] per iteration; the shutdown flag is
    found set when the list is used up. *)
Fixpoint run (cfg : Config) (envs : list tick_env) (w : world) : world * list event :=
  match envs with
  | [] => (w, [])
  | env :: envs' =>
      let (w1, evs1) := tick cfg env w in
      let (w2, evs2) := run cfg envs' w1 in
      (w2, (evs1 ++ Sleep (POLL_SECONDS cfg) :: evs2)%list)
  end.

(** How [main] leaves its start-up phase. *)
Inductive startup : Type :=
| SystemExit (msg : string)
| Crashed (evs : list event) (e : exn)
| Running (evs : list event) (w : world).

Definition startup_message (now : Z) : dict :=
  [("name", PStr "Bot");
   ("state", PStr "startup");
   ("personastate", PInt 1);
   ("in_game", PBool false);
   ("game", PNone);
   ("avatar", PStr "");
   ("profile_url", PStr "");
   ("timestamp", PInt now)].

(** Lines 222-248: validation, keep-alive, start-up notification, load. *)
Definition main_startup (cfg : Config) (now : Z) (reply : http_reply)
    (file : option string) (readable : bool) : startup :=
  if negb (str_truthy (STEAM_API_KEY cfg) && str_truthy (STEAM_FRIEND_ID64 cfg)) then
    SystemExit
      "Please set STEAM_API_KEY and STEAM_FRIEND_ID64 as env vars (or in .env locally)."
  else if negb (BOT_MODE cfg) && negb (str_truthy (DISCORD_WEBHOOK_URL cfg)) then
    SystemExit
      "Provide DISCORD_WEBHOOK_URL (webhook mode) or set BOT_MODE=true with bot token+channel."
  else
    let keepalive :=
      if KEEPALIVE cfg then
        [KeepaliveThread KEEPALIVE_HOST (KEEPALIVE_PORT cfg);
         Print ("[keepalive] HTTP server on http://" ++ KEEPALIVE_HOST ++ ":"
                ++ str_of_int (KEEPALIVE_PORT cfg) ++ "/")]
      else [] in
    match send cfg (startup_message now) "is now online ✅" reply with
    | (evs, Raise e) => Crashed (keepalive ++ evs)%list e
    | (evs, Ok _) =>
        Running
          (keepalive ++ evs
           ++ [Print ("Steam → Discord notifier running. Poll interval: "
                      ++ str_of_int (POLL_SECONDS cfg) ++ " seconds")%string])%list
          {| state := load_last_status file readable; status_file := file |}
    end.

(** [main()]: start-up, then the loop. *)
Definition main (cfg : Config) (now : Z) (reply : http_reply)
    (file : option string) (readable : bool) (envs : list tick_env) : startup :=
  match main_startup cfg now reply file readable with
  | Running evs w => let (w', evs') := run cfg envs w in Running (evs ++ evs')%list w'
  | other => other
  end.

(** ** Views used by the statements *)

(** [int(d.get("personastate", 0))] and [bool(d.get("in_game"))]. *)
Definition persona_state (d : dict) : res Z := int (get d "personastate" (PInt 0)).
Definition in_game (d : dict) : bool := truthy (get d "in_game" PNone).

(** The game title of a snapshot is a string, or missing. *)
Definition game_is_text (d : dict) : bool :=
  match get d "game" PNone with
  | PNone | PStr _ => true
  | PBool _ | PInt _ => false
  end.

(** [(curr.get("game") or "")] as text, for a snapshot whose title is
    text. *)
Definition game_title (d : dict) : string :=
  match get d "game" PNone with
  | PStr s => s
  | _ => ""
  end.

(** Python dicts have distinct keys. *)
Definition distinct_keys (d : dict) : Prop := NoDup (map fst d).

(** The selected transport has what it needs to post. *)
Definition transport_ready (cfg : Config) : bool :=
  if BOT_MODE cfg
  then str_truthy (DISCORD_BOT_TOKEN cfg) && str_truthy (DISCORD_CHANNEL_ID cfg)
  else str_truthy (DISCORD_WEBHOOK_URL cfg).

(** The line a back-end prints for a response it counts as failed. *)
Definition failure_line (cfg : Config) (status : Z) (text : string) : string :=
  (if BOT_MODE cfg then "[error] Bot send failed: " else "[error] Webhook failed: ")
  ++ str_of_int status ++ " " ++ text.

(** The world after a tick that saved [curr]. *)
Definition advanced (curr : dict) (env : tick_env) (w : world) : world :=
  {| state := curr;
     status_file := save_last_status curr (status_file w) (disk env) |}.

(** Inside an object a value is followed by a comma or by the closing
    brace. *)
Definition closes (s : string) : bool :=
  match s with
  | String c _ => Ascii.eqb c "," || Ascii.eqb c "}"
  | EmptyString => false
  end.

(** The characters an integer literal can start with. *)
Definition number_head (c : ascii) : bool :=
  match digit_of_char c with
  | Some _ => true
  | None => Ascii.eqb c "-"
  end.

(* ===================================================================== *)
(** * Sample data                                                        *)
(* ===================================================================== *)

Module Sample.

(** Webhook mode, no filter. *)
Definition webhook_cfg : Config :=
  {| STEAM_API_KEY := "key"; STEAM_FRIEND_ID64 := "76561198000000000";
     DISCORD_WEBHOOK_URL := "https://discord.com/api/webhooks/1/abc";
     DISCORD_USER_ID := ""; POLL_SECONDS := 60; BOT_MODE := false;
     DISCORD_BOT_TOKEN := ""; DISCORD_CHANNEL_ID := "";
     KEEPALIVE := true; KEEPALIVE_PORT := 3000;
     ONLY_ONLINE := false; ONLY_GAMES := [] |}.

(** Webhook mode, alerts for one title only. *)
Definition csgo_cfg : Config :=
  {| STEAM_API_KEY := "key"; STEAM_FRIEND_ID64 := "76561198000000000";
     DISCORD_WEBHOOK_URL := "https://discord.com/api/webhooks/1/abc";
     DISCORD_USER_ID := "42"; POLL_SECONDS := 60; BOT_MODE := false;
     DISCORD_BOT_TOKEN := ""; DISCORD_CHANNEL_ID := "";
     KEEPALIVE := true; KEEPALIVE_PORT := 3000;
     ONLY_ONLINE := false; ONLY_GAMES := ["csgo"] |}.

(** Webhook mode with the given filters. *)
Definition filtered_cfg (only_online : bool) (only_games : list string) : Config :=
  {| STEAM_API_KEY := "key"; STEAM_FRIEND_ID64 := "76561198000000000";
     DISCORD_WEBHOOK_URL := "https://discord.com/api/webhooks/1/abc";
     DISCORD_USER_ID := ""; POLL_SECONDS := 60; BOT_MODE := false;
     DISCORD_BOT_TOKEN := ""; DISCORD_CHANNEL_ID := "";
     KEEPALIVE := true; KEEPALIVE_PORT := 3000;
     ONLY_ONLINE := only_online; ONLY_GAMES := only_games |}.

(** Both transports filled in. *)
Definition both_cfg : Config :=
  {| STEAM_API_KEY := "key"; STEAM_FRIEND_ID64 := "76561198000000000";
     DISCORD_WEBHOOK_URL := "https://discord.com/api/webhooks/1/abc";
     DISCORD_USER_ID := "42"; POLL_SECONDS := 60; BOT_MODE := true;
     DISCORD_BOT_TOKEN := "token"; DISCORD_CHANNEL_ID := "99";
     KEEPALIVE := false; KEEPALIVE_PORT := 3000;
     ONLY_ONLINE := false; ONLY_GAMES := [] |}.

(** An environment that selects the bot and gives it neither token nor
    channel. *)
Definition bot_env : environ :=
  [("STEAM_API_KEY", "key"); ("STEAM_FRIEND_ID64", "76561198000000000");
   ("BOT_MODE", "true")].

Definition bot_cfg : Config :=
  {| STEAM_API_KEY := "key"; STEAM_FRIEND_ID64 := "76561198000000000";
     DISCORD_WEBHOOK_URL := ""; DISCORD_USER_ID := ""; POLL_SECONDS := 60;
     BOT_MODE := true; DISCORD_BOT_TOKEN := ""; DISCORD_CHANNEL_ID := "";
     KEEPALIVE := true; KEEPALIVE_PORT := 3000;
     ONLY_ONLINE := false; ONLY_GAMES := [] |}.

(** The same environment in webhook mode, without a webhook URL. *)
Definition webhook_env : environ :=
  [("STEAM_API_KEY", "key"); ("STEAM_FRIEND_ID64", "76561198000000000")].

(** Player records as Steam sends them. *)
Definition player_away : dict :=
  [("personaname", PStr "A"); ("personastate", PInt 3);
   ("avatarfull", PStr "https://avatars/a.jpg");
   ("profileurl", PStr "https://steamcommunity.com/id/a/")].

Definition player_online_dota : dict :=
  [("personaname", PStr "A"); ("personastate", PInt 1);
   ("gameextrainfo", PStr "Dota 2")].

Definition player_offline_dota : dict :=
  [("personaname", PStr "A"); ("personastate", PInt 0);
   ("gameextrainfo", PStr "Dota 2")].

Definition player_untitled_game : dict :=
  [("personaname", PStr "A"); ("personastate", PInt 1);
   ("gameextrainfo", PStr "")].

(** The snapshot [fetch_steam_status] makes of a player at time 1000. *)
Definition snapshot_of (p : dict) : dict :=
  match fetch_steam_status (SteamResponse 200 (Some [p])) 1000 with
  | Ok s => s
  | Raise _ => []
  end.

Definition away : dict := Eval cbv in snapshot_of player_away.
Definition online_dota : dict := Eval cbv in snapshot_of player_online_dota.
Definition offline_dota : dict := Eval cbv in snapshot_of player_offline_dota.
Definition untitled_game : dict := Eval cbv in snapshot_of player_untitled_game.

(** A previous snapshot: offline, not in a game. *)
Definition offline : dict :=
  [("name", PStr "A"); ("state", PStr "offline"); ("personastate", PInt 0);
   ("in_game", PBool false); ("game", PNone); ("avatar", PNone);
   ("profile_url", PNone); ("timestamp", PInt 900)].

(** A previous snapshot: online, not in a game. *)
Definition online : dict :=
  [("name", PStr "A"); ("state", PStr "online"); ("personastate", PInt 1);
   ("in_game", PBool false); ("game", PNone); ("avatar", PNone);
   ("profile_url", PNone); ("timestamp", PInt 900)].

(** Two snapshots in different games. *)
Definition playing (title : string) : dict :=
  [("name", PStr "A"); ("state", PStr "online"); ("personastate", PInt 1);
   ("in_game", PBool true); ("game", PStr title); ("avatar", PNone);
   ("profile_url", PNone); ("timestamp", PInt 900)].

(** A tick on which Steam shows the player away and Discord answers with
    the given reply. *)
Definition away_tick (reply : http_reply) : tick_env :=
  {| steam := SteamResponse 200 (Some [player_away]); clock := 1000;
     discord := reply; disk := WriteDone |}.

Definition fresh : world := {| state := []; status_file := None |}.

(** A tick on which Steam shows the player online in Dota 2, for a
    supervisor that last notified when the player came online. *)
Definition dota_tick : tick_env :=
  {| steam := SteamResponse 200 (Some [player_online_dota]); clock := 1000;
     discord := Response 204 ""; disk := WriteDone |}.

Definition online_world : world :=
  {| state := online; status_file := Some (dumps online) |}.

End Sample.

(* ===================================================================== *)
(** * Views used by the further statements                              *)
(* ===================================================================== *)

(** The filters taken off, the rest of the configuration kept. *)
Definition without_filters (cfg : Config) : Config :=
  {| STEAM_API_KEY := STEAM_API_KEY cfg;
     STEAM_FRIEND_ID64 := STEAM_FRIEND_ID64 cfg;
     DISCORD_WEBHOOK_URL := DISCORD_WEBHOOK_URL cfg;
     DISCORD_USER_ID := DISCORD_USER_ID cfg;
     POLL_SECONDS := POLL_SECONDS cfg;
     BOT_MODE := BOT_MODE cfg;
     DISCORD_BOT_TOKEN := DISCORD_BOT_TOKEN cfg;
     DISCORD_CHANNEL_ID := DISCORD_CHANNEL_ID cfg;
     KEEPALIVE := KEEPALIVE cfg;
     KEEPALIVE_PORT := KEEPALIVE_PORT cfg;
     ONLY_ONLINE := false;
     ONLY_GAMES := [] |}.

(** Other filters put in, the rest of the configuration kept. *)
Definition with_filters (cfg : Config) (only_online : bool) (only_games : list string)
  : Config :=
  {| STEAM_API_KEY := STEAM_API_KEY cfg;
     STEAM_FRIEND_ID64 := STEAM_FRIEND_ID64 cfg;
     DISCORD_WEBHOOK_URL := DISCORD_WEBHOOK_URL cfg;
     DISCORD_USER_ID := DISCORD_USER_ID cfg;
     POLL_SECONDS := POLL_SECONDS cfg;
     BOT_MODE := BOT_MODE cfg;
     DISCORD_BOT_TOKEN := DISCORD_BOT_TOKEN cfg;
     DISCORD_CHANNEL_ID := DISCORD_CHANNEL_ID cfg;
     KEEPALIVE := KEEPALIVE cfg;
     KEEPALIVE_PORT := KEEPALIVE_PORT cfg;
     ONLY_ONLINE := only_online;
     ONLY_GAMES := only_games |}.

(** [(curr.get("game") or "")] has the method [lower]: the title is a
    string, or a value that counts as false. *)
Definition title_lowers (d : dict) : bool :=
  match or_else (get d "game" PNone) (PStr "") with
  | PStr _ => true
  | _ => false
  end.

(** Every character of the text is white space. *)
Fixpoint blank (s : string) : bool :=
  match s with
  | EmptyString => true
  | String c s' => is_space c && blank s'
  end.

Definition is_post (ev : event) : bool :=
  match ev with
  | HttpPost _ _ _ => true
  | _ => false
  end.

Definition is_get (ev : event) : bool :=
  match ev with
  | HttpGet _ _ => true
  | _ => false
  end.

Definition is_sleep (ev : event) : bool :=
  match ev with
  | Sleep _ => true
  | _ => false
  end.

(** The one request a ready transport makes for a body. *)
Definition request_for (cfg : Config) (body : json) : event :=
  if BOT_MODE cfg then
    HttpPost ("https://discord.com/api/v10/channels/" ++ DISCORD_CHANNEL_ID cfg
              ++ "/messages")
             [("Authorization", "Bot " ++ DISCORD_BOT_TOKEN cfg)] body
  else HttpPost (DISCORD_WEBHOOK_URL cfg) [] body.

(** ** Shutdown (source lines 70, 215-219, 250) *)

(** [_handle_sigterm]: the new value of the flag [_shutdown], whatever
    the signal and the old value. *)
Definition _handle_sigterm (_shutdown : bool) : bool := true.

(** The [while not _shutdown] loop. Each iteration comes with what the
    outside answers and with whether SIGTERM or SIGINT arrives while it
    runs (during the tick or during the sleep); the flag is read only at
    the head of the loop. *)
Fixpoint supervise (cfg : Config) (_shutdown : bool)
    (iterations : list (tick_env * bool)) (w : world) : world * list event :=
  match iterations with
  | [] => (w, [])
  | (env, signalled) :: iterations' =>
      if _shutdown then (w, [])
      else
        let (w1, evs1) := tick cfg env w in
        let flag := if signalled then _handle_sigterm _shutdown else _shutdown in
        let (w2, evs2) := supervise cfg flag iterations' w1 in
        (w2, (evs1 ++ Sleep (POLL_SECONDS cfg) :: evs2)%list)
  end.

(** The iterations up to and with the first one a signal arrives in. *)
Fixpoint until_signal (iterations : list (tick_env * bool)) : list tick_env :=
  match iterations with
  | [] => []
  | (env, signalled) :: iterations' =>
      if signalled then [env] else env :: until_signal iterations'
  end.

(* ===================================================================== *)
(** * Facts about the builtins                                           *)
(* ===================================================================== *)

Example int_of_text : int (PStr " -1_000 ") = Ok (-1000).
Proof. reflexivity. Qed.

Example int_of_bad_text :
  int (PStr "1__0") = Raise ValueError /\ int (PStr "") = Raise ValueError
  /\ int (PStr "- 1") = Raise ValueError /\ int PNone = Raise TypeError.
Proof. repeat split. Qed.

(** A unit separator before the digits is removed by [strip] and refused
    by [int]; a no-break space is removed by both. *)
Example int_of_separated_text :
  strip (String "031" "1") = "1"
  /\ int (PStr (String "031" "1")) = Raise ValueError
  /\ int (PStr (String "160" "1")) = Ok 1
  /\ int (PStr (String "009" (String "133" "12"))) = Ok 12.
Proof. repeat split. Qed.

Example lower_title : lower "Dota 2" = "dota 2".
Proof. reflexivity. Qed.

Example str_of_values :
  str (PInt (-42)) = "-42" /\ str (PInt 0) = "0" /\ str PNone = "None"
  /\ str (PBool true) = "True".
Proof. repeat split. Qed.

Example persona_labels :
  persona_label PERSONA_MAP 4 = "snooze" /\ persona_label PERSONA_MAP 9 = "unknown(9)".
Proof. split; reflexivity. Qed.

Lemma str_in_In (x : string) (l : list string) : str_in x l = true <-> In x l.
Proof.
  induction l as [|y l IH]; simpl.
  - split; [discriminate | tauto].
  - rewrite orb_true_iff, IH, String.eqb_eq. split; intros [H|H]; auto.
Qed.

Lemma str_in_not_In (x : string) (l : list string) : str_in x l = false <-> ~ In x l.
Proof.
  rewrite <- str_in_In. destruct (str_in x l); split; congruence.
Qed.

Lemma str_truthy_true (s : string) : str_truthy s = true <-> s <> "".
Proof. destruct s; simpl; split; congruence. Qed.

Lemma list_truthy_false {A : Type} (l : list A) : list_truthy l = false <-> l = [].
Proof. destruct l; simpl; split; congruence. Qed.

Lemma lower_truthy (s : string) : str_truthy (lower s) = str_truthy s.
Proof. destruct s; reflexivity. Qed.

(** The guard [... if prev else ...] changes nothing: an empty dict has
    neither key, and the defaults give the same values. *)
Lemma prev_state_view (prev : dict) :
  (if list_truthy prev then int (get prev "personastate" (PInt 0)) else Ok 0)
  = persona_state prev.
Proof. destruct prev; reflexivity. Qed.

Lemma prev_in_game_view (prev : dict) :
  (if list_truthy prev then truthy (get prev "in_game" PNone) else false)
  = in_game prev.
Proof. destruct prev; reflexivity. Qed.

(** With a title that is text, [.lower()] does not raise. *)
Lemma game_name_text (curr : dict) :
  game_is_text curr = true ->
  method_lower (or_else (get curr "game" PNone) (PStr "")) = Ok (lower (game_title curr)).
Proof.
  unfold game_is_text, game_title, or_else.
  destruct (get curr "game" PNone) as [|b|n|s]; try discriminate; intros _.
  - reflexivity.
  - simpl. destruct s; reflexivity.
Qed.

(** ** Config *)

(** The poll interval has a floor of 15 seconds. *)
Lemma poll_seconds_floor (env : environ) (cfg : Config) :
  load_config env = Ok cfg -> 15 <= POLL_SECONDS cfg.
Proof.
  unfold load_config.
  destruct (int_of_str (getenv env "POLL_SECONDS" "60")) as [poll|e]; [| discriminate].
  destruct (int_of_str (getenv env "PORT" "3000")) as [port|e]; [| discriminate].
  simpl. intros [= <-]. simpl. lia.
Qed.

(** ONLY_GAMES never holds the empty string. *)
Lemma only_games_entries (env : environ) (cfg : Config) :
  load_config env = Ok cfg -> ~ In "" (ONLY_GAMES cfg).
Proof.
  unfold load_config.
  destruct (int_of_str (getenv env "POLL_SECONDS" "60")) as [poll|e]; [| discriminate].
  destruct (int_of_str (getenv env "PORT" "3000")) as [port|e]; [| discriminate].
  simpl. intros [= <-]. simpl. unfold parse_only_games.
  intros Hin. apply in_map_iff in Hin as (g & Hg & Hin).
  apply filter_In in Hin as [_ Hkeep].
  rewrite <- lower_truthy, Hg in Hkeep. discriminate Hkeep.
Qed.

Example load_config_sample :
  load_config [("STEAM_API_KEY", " key "); ("STEAM_FRIEND_ID64", "7656");
               ("DISCORD_WEBHOOK_URL", "https://h"); ("POLL_SECONDS", "5");
               ("ONLY_ONLINE", "Yes"); ("ONLY_GAMES", " Dota 2, ,CSGO,")]
  = Ok {| STEAM_API_KEY := "key"; STEAM_FRIEND_ID64 := "7656";
          DISCORD_WEBHOOK_URL := "https://h"; DISCORD_USER_ID := "";
          POLL_SECONDS := 15; BOT_MODE := false;
          DISCORD_BOT_TOKEN := ""; DISCORD_CHANNEL_ID := "";
          KEEPALIVE := true; KEEPALIVE_PORT := 3000;
          ONLY_ONLINE := true; ONLY_GAMES := ["dota 2"; "csgo"] |}.
Proof. reflexivity. Qed.

Example load_config_bad_poll :
  load_config [("POLL_SECONDS", "soon")] = Raise ValueError.
Proof. reflexivity. Qed.

(* ===================================================================== *)
(** * The transition detector                                            *)
(* ===================================================================== *)

(** [should_notify] on snapshots whose persona states are integers and
    whose title is text: the two rules, in order. *)
Lemma should_notify_rules (cfg : Config) (prev curr : dict) (ps cs : Z) :
  persona_state prev = Ok ps ->
  persona_state curr = Ok cs ->
  game_is_text curr = true ->
  should_notify cfg prev curr =
  Ok (if (ps =? 0) && (cs >? 0) then
        if list_truthy (ONLY_GAMES cfg) && ONLY_ONLINE cfg then (false, "")
        else (true, "came online")
      else if negb (in_game prev) && in_game curr then
        if (list_truthy (ONLY_GAMES cfg)
            && str_truthy (lower (game_title curr))
            && negb (str_in (lower (game_title curr)) (ONLY_GAMES cfg)))
           || ONLY_ONLINE cfg
        then (false, "")
        else (true, "started playing")
      else (false, "")).
Proof.
  intros Hp Hc Hg. unfold should_notify.
  rewrite prev_state_view, prev_in_game_view, Hp.
  fold (persona_state curr). rewrite Hc. fold (in_game curr).
  rewrite (game_name_text curr Hg). simpl.
  destruct (in_game curr), (in_game prev), (list_truthy (ONLY_GAMES cfg)),
    (ONLY_ONLINE cfg), ((ps =? 0) && (cs >? 0)),
    (str_truthy (lower (game_title curr))),
    (str_in (lower (game_title curr)) (ONLY_GAMES cfg)); reflexivity.
Qed.

(** The scenarios of section 8 of the specification. *)
Example scenario_came_online :
  should_notify (Sample.filtered_cfg false []) Sample.offline Sample.online
  = Ok (true, "came online").
Proof. reflexivity. Qed.

Example scenario_started_playing :
  should_notify (Sample.filtered_cfg false []) Sample.online Sample.online_dota
  = Ok (true, "started playing").
Proof. reflexivity. Qed.

Example scenario_only_online :
  should_notify (Sample.filtered_cfg true []) Sample.online Sample.online_dota
  = Ok (false, "").
Proof. reflexivity. Qed.

Example scenario_only_games :
  should_notify (Sample.filtered_cfg false ["csgo"]) Sample.online Sample.online_dota
  = Ok (false, "")
  /\ should_notify (Sample.filtered_cfg false ["dota 2"]) Sample.online Sample.online_dota
     = Ok (true, "started playing").
Proof. split; reflexivity. Qed.

Example scenario_game_switch :
  should_notify (Sample.filtered_cfg false []) (Sample.playing "A") (Sample.playing "B")
  = Ok (false, "").
Proof. reflexivity. Qed.

Example scenario_first_observation :
  should_notify (Sample.filtered_cfg false []) [] Sample.away = Ok (true, "came online").
Proof. reflexivity. Qed.

Example scenario_online_suppressed :
  should_notify (Sample.filtered_cfg true ["x"]) Sample.offline Sample.online
  = Ok (false, "").
Proof. reflexivity. Qed.

(** A title that is not text makes the detector raise when a game filter
    is set and the snapshot is in a game. *)
Example title_not_text_raises :
  should_notify (Sample.filtered_cfg false ["csgo"]) Sample.offline
    [("personastate", PInt 1); ("in_game", PBool true); ("game", PInt 7)]
  = Raise AttributeError.
Proof. reflexivity. Qed.

(** C1, as stated, fails: a snapshot with persona state 0 that carries a
    game title is notified as "started playing". Here the previous
    snapshot is absent and no filter is set. *)
Lemma C1_offline_in_game_notifies :
  persona_state Sample.offline_dota = Ok 0
  /\ should_notify Sample.webhook_cfg [] Sample.offline_dota
     = Ok (true, "started playing").
Proof. split; reflexivity. Qed.

(** C1, amended: for a current snapshot whose persona state is 0 the
    detector never answers "came online". It answers (false, "") when the
    current snapshot is not in a game or the previous one already was;
    when the user was not in a game and now is, rule 2 decides alone:
    (true, "started playing") unless only_online is set or the title is
    filtered out by only_games. *)
Theorem C1_offline_snapshot (cfg : Config) (prev curr : dict) (ps : Z) :
  persona_state curr = Ok 0 ->
  persona_state prev = Ok ps ->
  game_is_text curr = true ->
  should_notify cfg prev curr =
  Ok (if negb (in_game prev) && in_game curr then
        if (list_truthy (ONLY_GAMES cfg)
            && str_truthy (lower (game_title curr))
            && negb (str_in (lower (game_title curr)) (ONLY_GAMES cfg)))
           || ONLY_ONLINE cfg
        then (false, "")
        else (true, "started playing")
      else (false, "")).
Proof.
  intros Hc Hp Hg.
  rewrite (should_notify_rules cfg prev curr ps 0 Hp Hc Hg).
  replace (0 >? 0) with false by reflexivity.
  rewrite andb_false_r. reflexivity.
Qed.

Lemma C1_offline_snapshot_witness :
  persona_state Sample.offline = Ok 0
  /\ persona_state Sample.online_dota = Ok 1
  /\ game_is_text Sample.offline = true
  /\ should_notify Sample.csgo_cfg Sample.online_dota Sample.offline = Ok (false, "").
Proof.
  do 3 (split; [reflexivity |]).
  exact (C1_offline_snapshot Sample.csgo_cfg Sample.online_dota Sample.offline 1
           eq_refl eq_refl eq_refl).
Defined.

(** C4: from persona state 0 to a positive one the detector answers
    (true, "came online"), unless only_online is set and only_games is
    non-empty, where it answers (false, ""); whether the current snapshot
    is in a game plays no part. *)
Theorem C4_came_online (cfg : Config) (prev curr : dict) (cs : Z) :
  persona_state prev = Ok 0 ->
  persona_state curr = Ok cs ->
  cs > 0 ->
  game_is_text curr = true ->
  should_notify cfg prev curr =
  Ok (if ONLY_ONLINE cfg && list_truthy (ONLY_GAMES cfg) then (false, "")
      else (true, "came online")).
Proof.
  intros Hp Hc Hpos Hg.
  rewrite (should_notify_rules cfg prev curr 0 cs Hp Hc Hg).
  replace (cs >? 0) with true by (symmetry; apply Z.gtb_lt; lia).
  simpl. rewrite andb_comm. reflexivity.
Qed.

Lemma C4_came_online_witness :
  persona_state Sample.offline = Ok 0
  /\ persona_state Sample.online_dota = Ok 1
  /\ 1 > 0
  /\ game_is_text Sample.online_dota = true
  /\ in_game Sample.online_dota = true
  /\ should_notify Sample.csgo_cfg Sample.offline Sample.online_dota
     = Ok (true, "came online").
Proof.
  do 5 (split; [reflexivity |]).
  exact (C4_came_online Sample.csgo_cfg Sample.offline Sample.online_dota 1
           eq_refl eq_refl eq_refl eq_refl).
Defined.

(** C5: when rule 1 does not apply, the previous snapshot is not in a game
    and the current one is, with a non-empty title, the detector answers
    (true, "started playing") exactly when only_online is off and
    only_games is empty or holds the lowercased title; otherwise it
    answers (false, ""). *)
Theorem C5_started_playing (cfg : Config) (prev curr : dict) (ps cs : Z) (title : string) :
  persona_state prev = Ok ps ->
  persona_state curr = Ok cs ->
  ~ (ps = 0 /\ cs > 0) ->
  in_game prev = false ->
  in_game curr = true ->
  get curr "game" PNone = PStr title ->
  title <> "" ->
  let passes :=
    ONLY_ONLINE cfg = false
    /\ (ONLY_GAMES cfg = [] \/ In (lower title) (ONLY_GAMES cfg)) in
  (passes -> should_notify cfg prev curr = Ok (true, "started playing"))
  /\ (~ passes -> should_notify cfg prev curr = Ok (false, "")).
Proof.
  intros Hp Hc Hrule1 Hpg Hcg Hgame Htitle passes.
  assert (Hg : game_is_text curr = true) by (unfold game_is_text; now rewrite Hgame).
  assert (Ht : game_title curr = title) by (unfold game_title; now rewrite Hgame).
  rewrite (should_notify_rules cfg prev curr ps cs Hp Hc Hg), Hpg, Hcg, Ht.
  assert (H1 : (ps =? 0) && (cs >? 0) = false).
  { apply andb_false_iff.
    destruct (Z.eqb_spec ps 0) as [E|E]; [right | now left].
    destruct (Z.gtb_spec cs 0); [exfalso; apply Hrule1; split; lia | reflexivity]. }
  rewrite H1, lower_truthy. simpl.
  apply str_truthy_true in Htitle. rewrite Htitle, andb_true_r.
  subst passes. split.
  - intros [Hoff [Hempty | Hin]]; rewrite Hoff.
    + now rewrite Hempty.
    + apply str_in_In in Hin. rewrite Hin. simpl. now rewrite andb_false_r.
  - intros Hno. destruct (ONLY_ONLINE cfg); [now rewrite orb_true_r |].
    destruct (ONLY_GAMES cfg) as [|g gs] eqn:Eg; [exfalso; apply Hno; auto |].
    destruct (str_in (lower title) (g :: gs)) eqn:Ein; [| reflexivity].
    exfalso. apply Hno. split; [reflexivity | right]. now apply str_in_In.
Qed.

Lemma C5_started_playing_witness :
  (should_notify Sample.webhook_cfg Sample.online Sample.online_dota
   = Ok (true, "started playing"))
  /\ (should_notify Sample.csgo_cfg Sample.online Sample.online_dota = Ok (false, "")).
Proof.
  split.
  - apply (C5_started_playing Sample.webhook_cfg Sample.online Sample.online_dota
             1 1 "Dota 2"); try reflexivity; try discriminate.
    + intros [H _]; discriminate H.
    + split; [reflexivity | left; reflexivity].
  - apply (C5_started_playing Sample.csgo_cfg Sample.online Sample.online_dota
             1 1 "Dota 2"); try reflexivity; try discriminate.
    + intros [H _]; discriminate H.
    + intros [_ [H | [H | []]]]; discriminate H.
Defined.

(** C7: an absent previous snapshot is judged like one with persona state
    0 that is not in a game; a first snapshot that is online, whatever
    its persona state above 0 (3 for one), gives (true, "came online")
    when no game filter is set. *)
Theorem C7_absent_prev (cfg : Config) (prev0 curr : dict) :
  persona_state prev0 = Ok 0 ->
  in_game prev0 = false ->
  should_notify cfg [] curr = should_notify cfg prev0 curr
  /\ (forall cs : Z,
        persona_state curr = Ok cs -> cs > 0 -> ONLY_GAMES cfg = [] ->
        should_notify cfg [] curr = Ok (true, "came online")).
Proof.
  intros Hp Hg. split.
  - unfold should_notify.
    rewrite (prev_state_view prev0), (prev_in_game_view prev0), Hp, Hg.
    reflexivity.
  - intros cs Hc Hpos Hnone. unfold should_notify. simpl.
    fold (persona_state curr). rewrite Hc, Hnone. simpl.
    rewrite andb_false_r. simpl.
    assert (Hgt : (cs >? 0) = true) by (apply Z.gtb_lt; lia).
    rewrite Hgt. reflexivity.
Qed.

Lemma C7_absent_prev_witness :
  persona_state Sample.offline = Ok 0
  /\ in_game Sample.offline = false
  /\ should_notify Sample.webhook_cfg [] Sample.away
     = should_notify Sample.webhook_cfg Sample.offline Sample.away
  /\ persona_state Sample.away = Ok 3
  /\ should_notify Sample.webhook_cfg [] Sample.away = Ok (true, "came online").
Proof.
  destruct (C7_absent_prev Sample.webhook_cfg Sample.offline Sample.away
              eq_refl eq_refl) as [Hsame Hfirst].
  do 2 (split; [reflexivity |]). split.
  - exact Hsame.
  - split; [reflexivity |]. exact (Hfirst 3 eq_refl eq_refl eq_refl).
Defined.

(** C10: a current snapshot that is in a game but has no title, or an
    empty one, passes the only_games filter: with the same persona state
    as a previous snapshot that is not in a game, and only_online off, the
    detector answers (true, "started playing") whatever only_games
    holds. *)
Theorem C10_untitled_game_bypasses_filter (cfg : Config) (prev curr : dict) (n : Z) :
  in_game curr = true ->
  get curr "game" PNone = PNone \/ get curr "game" PNone = PStr "" ->
  in_game prev = false ->
  persona_state prev = Ok n ->
  persona_state curr = Ok n ->
  ONLY_ONLINE cfg = false ->
  should_notify cfg prev curr = Ok (true, "started playing").
Proof.
  intros Hcg Hgame Hpg Hp Hc Hoff.
  assert (Hg : game_is_text curr = true)
    by (unfold game_is_text; destruct Hgame as [-> | ->]; reflexivity).
  assert (Ht : game_title curr = "")
    by (unfold game_title; destruct Hgame as [-> | ->]; reflexivity).
  rewrite (should_notify_rules cfg prev curr n n Hp Hc Hg), Hpg, Hcg, Ht, Hoff.
  assert (H1 : (n =? 0) && (n >? 0) = false).
  { destruct (Z.eqb_spec n 0) as [-> | _]; reflexivity. }
  rewrite H1. simpl. now rewrite andb_false_r.
Qed.

Lemma C10_untitled_game_bypasses_filter_witness :
  in_game Sample.untitled_game = true
  /\ get Sample.untitled_game "game" PNone = PStr ""
  /\ ONLY_GAMES Sample.csgo_cfg = ["csgo"]
  /\ should_notify Sample.csgo_cfg Sample.online Sample.untitled_game
     = Ok (true, "started playing").
Proof.
  do 3 (split; [reflexivity |]).
  apply (C10_untitled_game_bypasses_filter Sample.csgo_cfg Sample.online
           Sample.untitled_game 1); try reflexivity.
  right; reflexivity.
Defined.

(* ===================================================================== *)
(** * The back-ends                                                      *)
(* ===================================================================== *)

Lemma append_assoc (a b c : string) : ((a ++ b) ++ c = a ++ (b ++ c))%string.
Proof. induction a as [|x a IH]; simpl; [reflexivity | now rewrite IH]. Qed.

Lemma length_append (a b : string) :
  String.length (a ++ b) = (String.length a + String.length b)%nat.
Proof. induction a as [|x a IH]; simpl; [reflexivity | now rewrite IH]. Qed.

(** A value found truthy under [get] is the value [subscript] returns. *)
Lemma subscript_truthy (d : dict) (k : string) :
  truthy (get d k PNone) = true -> subscript d k = Ok (get d k PNone).
Proof.
  unfold get, subscript. destruct (lookup d k); [reflexivity | discriminate].
Qed.

(** The webhook payload is the message the specification describes. *)
Lemma webhook_payload_described (cfg : Config) (curr : dict) (reason : string)
    (name state_label flag : pyval) :
  lookup curr "name" = Some name ->
  lookup curr "state" = Some state_label ->
  lookup curr "in_game" = Some flag ->
  webhook_payload cfg curr reason =
  Ok (described_message (DISCORD_USER_ID cfg) name state_label (truthy flag)
        (get curr "game" PNone) (get curr "profile_url" PNone)
        (get curr "avatar" (PStr "")) reason).
Proof.
  intros Hn Hs Hi. unfold webhook_payload, described_message, subscript at 1 2 3.
  rewrite Hn, Hs, Hi. simpl.
  assert (Hcontent :
    (_mention_prefix cfg ++ "Steam update:")%string =
    if str_truthy (DISCORD_USER_ID cfg)
    then ("<@" ++ DISCORD_USER_ID cfg ++ "> Steam update:")%string
    else "Steam update:").
  { unfold _mention_prefix. destruct (str_truthy (DISCORD_USER_ID cfg)); [| reflexivity].
    simpl. now rewrite append_assoc. }
  rewrite Hcontent.
  destruct (truthy flag && truthy (get curr "game" PNone)) eqn:Eg.
  - apply andb_true_iff in Eg as [_ Eg]. rewrite (subscript_truthy _ _ Eg). simpl.
    destruct (truthy (get curr "profile_url" PNone)) eqn:Ep; [| reflexivity].
    rewrite (subscript_truthy _ _ Ep). reflexivity.
  - simpl.
    destruct (truthy (get curr "profile_url" PNone)) eqn:Ep; [| reflexivity].
    rewrite (subscript_truthy _ _ Ep). reflexivity.
Qed.

(** What the webhook posts is its payload. *)
Lemma webhook_posts_payload (cfg : Config) (curr : dict) (reason : string)
    (reply : http_reply) :
  DISCORD_WEBHOOK_URL cfg <> "" ->
  posted_body (fst (send_discord_webhook cfg curr reason reply))
  = match webhook_payload cfg curr reason with Ok body => Some body | Raise _ => None end.
Proof.
  intros Hurl. apply str_truthy_true in Hurl.
  unfold send_discord_webhook. rewrite Hurl. simpl.
  destruct (webhook_payload cfg curr reason); [| reflexivity].
  destruct reply as [|status text]; [reflexivity |].
  destruct (status >=? 300); reflexivity.
Qed.

(** What the bot posts is its payload. *)
Lemma bot_posts_payload (cfg : Config) (curr : dict) (reason : string)
    (reply : http_reply) :
  DISCORD_BOT_TOKEN cfg <> "" ->
  DISCORD_CHANNEL_ID cfg <> "" ->
  posted_body (fst (send_discord_bot cfg curr reason reply))
  = match bot_payload cfg curr reason with Ok body => Some body | Raise _ => None end.
Proof.
  intros Htok Hchan. apply str_truthy_true in Htok, Hchan.
  unfold send_discord_bot. rewrite Htok, Hchan. simpl.
  destruct (bot_payload cfg curr reason); [| reflexivity].
  destruct reply as [|status text]; [reflexivity |].
  destruct (status >=? 300); reflexivity.
Qed.

(** C9: for every snapshot and reason the webhook back-end and the bot
    back-end build the same JSON body, and post the same body when both
    are configured; on a snapshot with a name, a state label and an
    in-game flag that body is the message of section 4.3: content with the
    mention prefix, one embed with title, description lines and
    thumbnail, mentions of users only. *)
Theorem C9_same_body (cfg : Config) (curr : dict) (reason : string)
    (reply_webhook reply_bot : http_reply) :
  DISCORD_WEBHOOK_URL cfg <> "" ->
  DISCORD_BOT_TOKEN cfg <> "" ->
  DISCORD_CHANNEL_ID cfg <> "" ->
  webhook_payload cfg curr reason = bot_payload cfg curr reason
  /\ posted_body (fst (send_discord_webhook cfg curr reason reply_webhook))
     = posted_body (fst (send_discord_bot cfg curr reason reply_bot))
  /\ (forall name state_label flag,
        lookup curr "name" = Some name ->
        lookup curr "state" = Some state_label ->
        lookup curr "in_game" = Some flag ->
        posted_body (fst (send_discord_bot cfg curr reason reply_bot))
        = Some (described_message (DISCORD_USER_ID cfg) name state_label (truthy flag)
                  (get curr "game" PNone) (get curr "profile_url" PNone)
                  (get curr "avatar" (PStr "")) reason)).
Proof.
  intros Hurl Htok Hchan.
  assert (Hsame : webhook_payload cfg curr reason = bot_payload cfg curr reason)
    by reflexivity.
  split; [exact Hsame |]. split.
  - rewrite (webhook_posts_payload _ _ _ _ Hurl), (bot_posts_payload _ _ _ _ Htok Hchan).
    now rewrite Hsame.
  - intros name state_label flag Hn Hs Hi.
    rewrite (bot_posts_payload _ _ _ _ Htok Hchan), <- Hsame.
    now rewrite (webhook_payload_described cfg curr reason name state_label flag Hn Hs Hi).
Qed.

Lemma C9_same_body_witness :
  posted_body (fst (send_discord_webhook Sample.both_cfg Sample.online_dota
                      "started playing" (Response 204 "")))
  = posted_body (fst (send_discord_bot Sample.both_cfg Sample.online_dota
                        "started playing" (Response 200 "{}")))
  /\ posted_body (fst (send_discord_bot Sample.both_cfg Sample.online_dota
                         "started playing" (Response 200 "{}")))
     = Some (JObj
        [("content", JVal (PStr "<@42> Steam update:"));
         ("embeds",
          JArr [JObj [("title", JVal (PStr "A started playing!"));
                      ("description",
                       JVal (PStr ("Status: **online**" ++ nl
                                   ++ "Game: **Dota 2**" ++ nl)));
                      ("thumbnail", JObj [("url", JVal PNone)])]]);
         ("allowed_mentions", JObj [("parse", JArr [JVal (PStr "users")])])]).
Proof.
  assert (Hurl : DISCORD_WEBHOOK_URL Sample.both_cfg <> "") by discriminate.
  assert (Htok : DISCORD_BOT_TOKEN Sample.both_cfg <> "") by discriminate.
  assert (Hchan : DISCORD_CHANNEL_ID Sample.both_cfg <> "") by discriminate.
  destruct (C9_same_body Sample.both_cfg Sample.online_dota "started playing"
              (Response 204 "") (Response 200 "{}") Hurl Htok Hchan)
    as [_ [Hposted Hshape]].
  split.
  - exact Hposted.
  - exact (Hshape (PStr "A") (PStr "online") (PBool true) eq_refl eq_refl eq_refl).
Defined.

(* ===================================================================== *)
(** * The supervisor loop                                                *)
(* ===================================================================== *)

(** A fetched snapshot has the eight keys of the dict literal. *)
Lemma fetch_shape (reply : steam_reply) (now : Z) (curr : dict) :
  fetch_steam_status reply now = Ok curr ->
  exists name label ps flag game avatar profile_url,
    curr = [("name", name); ("state", PStr label); ("personastate", PInt ps);
            ("in_game", PBool flag); ("game", game); ("avatar", avatar);
            ("profile_url", profile_url); ("timestamp", PInt now)].
Proof.
  unfold fetch_steam_status. destruct reply as [|status body]; [discriminate |].
  destruct ((400 <=? status) && (status <? 600)); [discriminate |].
  destruct body as [[|p players]|]; try discriminate.
  destruct (int (get p "personastate" (PInt 0))) as [ps|e]; simpl; [| discriminate].
  intros [= <-]. repeat eexists.
Qed.

(** Building the payload of a fetched snapshot does not raise. *)
Lemma fetched_payload (cfg : Config) (reply : steam_reply) (now : Z) (curr : dict)
    (reason : string) :
  fetch_steam_status reply now = Ok curr ->
  exists body, webhook_payload cfg curr reason = Ok body
               /\ bot_payload cfg curr reason = Ok body.
Proof.
  intros Hf.
  destruct (fetch_shape reply now curr Hf)
    as (name & label & ps & flag & game & avatar & profile_url & ->).
  eexists. split.
  - apply (webhook_payload_described cfg _ reason name (PStr label) (PBool flag));
      reflexivity.
  - change (bot_payload cfg ?c reason) with (webhook_payload cfg c reason).
    apply (webhook_payload_described cfg _ reason name (PStr label) (PBool flag));
      reflexivity.
Qed.

(** With a response in hand, whatever its status, sending a fetched
    snapshot returns. *)
Lemma send_response_returns (cfg : Config) (reply : steam_reply) (now : Z)
    (curr : dict) (reason : string) (status : Z) (text : string) :
  fetch_steam_status reply now = Ok curr ->
  snd (send cfg curr reason (Response status text)) = Ok tt.
Proof.
  intros Hf.
  destruct (fetched_payload cfg reply now curr reason Hf) as (body & Hw & Hb).
  unfold send, send_discord_bot, send_discord_webhook. rewrite Hw, Hb.
  destruct (BOT_MODE cfg).
  - destruct (negb _); [reflexivity |]. destruct (status >=? 300); reflexivity.
  - destruct (negb _); [reflexivity |]. destruct (status >=? 300); reflexivity.
Qed.

(** A response with status 300 or more makes a ready transport print its
    failure line. *)
Lemma send_failure_logged (cfg : Config) (reply : steam_reply) (now : Z)
    (curr : dict) (reason : string) (status : Z) (text : string) :
  fetch_steam_status reply now = Ok curr ->
  transport_ready cfg = true ->
  status >= 300 ->
  In (Print (failure_line cfg status text))
     (fst (send cfg curr reason (Response status text))).
Proof.
  intros Hf Hready Hstatus.
  destruct (fetched_payload cfg reply now curr reason Hf) as (body & Hw & Hb).
  assert (Hs : (status >=? 300) = true) by (apply Z.geb_le; lia).
  unfold transport_ready in Hready.
  unfold send, failure_line, send_discord_bot, send_discord_webhook.
  rewrite Hw, Hb, Hs. destruct (BOT_MODE cfg); rewrite Hready; simpl; auto.
Qed.

(** Without a response a ready transport raises. *)
Lemma send_no_response_raises (cfg : Config) (reply : steam_reply) (now : Z)
    (curr : dict) (reason : string) :
  fetch_steam_status reply now = Ok curr ->
  transport_ready cfg = true ->
  snd (send cfg curr reason NoResponse) = Raise RequestException.
Proof.
  intros Hf Hready.
  destruct (fetched_payload cfg reply now curr reason Hf) as (body & Hw & Hb).
  unfold transport_ready in Hready.
  unfold send, send_discord_bot, send_discord_webhook.
  rewrite Hw, Hb. destruct (BOT_MODE cfg); rewrite Hready; reflexivity.
Qed.

(** The world after a tick, by the decision and by how the send ends. *)
Lemma tick_world (cfg : Config) (env : tick_env) (w : world) :
  fst (tick cfg env w) =
  match decision cfg env w with
  | Some (curr, (true, reason)) =>
      match snd (send cfg curr reason (discord env)) with
      | Ok _ => advanced curr env w
      | Raise _ => w
      end
  | _ => w
  end.
Proof.
  unfold tick, decision.
  destruct (fetch_steam_status (steam env) (clock env)) as [curr|e]; [| reflexivity].
  destruct (should_notify cfg (state w) curr) as [[[|] reason]|e]; try reflexivity.
  destruct (send cfg curr reason (discord env)) as [evs [u|e]]; reflexivity.
Qed.

(** The events of a tick that sends. *)
Lemma tick_events (cfg : Config) (env : tick_env) (w : world) (curr : dict)
    (reason : string) (ev : event) :
  decision cfg env w = Some (curr, (true, reason)) ->
  In ev (fst (send cfg curr reason (discord env))) ->
  In ev (snd (tick cfg env w)).
Proof.
  unfold tick, decision.
  destruct (fetch_steam_status (steam env) (clock env)) as [c|e]; [| discriminate].
  destruct (should_notify cfg (state w) c) as [[notify r]|e]; [| discriminate].
  intros [= -> -> ->].
  destruct (send cfg curr reason (discord env)) as [evs [u|e]]; simpl; intros Hin.
  - now right.
  - right. apply in_or_app. now left.
Qed.

Lemma decision_fetched (cfg : Config) (env : tick_env) (w : world) (curr : dict)
    (d : bool * string) :
  decision cfg env w = Some (curr, d) ->
  fetch_steam_status (steam env) (clock env) = Ok curr.
Proof.
  unfold decision.
  destruct (fetch_steam_status (steam env) (clock env)) as [c|e]; [| discriminate].
  destruct (should_notify cfg (state w) c); [| discriminate].
  now intros [= -> _].
Qed.

(** C2 on the code: the webhook answers 500 to the "came online" message
    of the first tick. [send_discord_webhook] prints its failure line and
    returns, and the tick goes on to [state = curr] and
    [save_last_status]: the stored snapshot is the new one and the status
    file holds it, where the claim wants both left as they were. The
    next tick, with the same player and a webhook that now answers 204,
    finds nothing to report and posts nothing, so the lost message is
    not sent again. When the same POST gets no response at all, the
    tick does leave the state as it was. *)
Theorem C2_failed_send_advances :
  decision Sample.webhook_cfg (Sample.away_tick (Response 500 "Internal Server Error"))
    Sample.fresh
  = Some (Sample.away, (true, "came online"))
  /\ In (Print "[error] Webhook failed: 500 Internal Server Error")
        (snd (tick Sample.webhook_cfg
                (Sample.away_tick (Response 500 "Internal Server Error")) Sample.fresh))
  /\ state (fst (tick Sample.webhook_cfg
                   (Sample.away_tick (Response 500 "Internal Server Error")) Sample.fresh))
     = Sample.away
  /\ state (fst (tick Sample.webhook_cfg
                   (Sample.away_tick (Response 500 "Internal Server Error")) Sample.fresh))
     <> state Sample.fresh
  /\ status_file (fst (tick Sample.webhook_cfg
                         (Sample.away_tick (Response 500 "Internal Server Error"))
                         Sample.fresh))
     = Some (dumps Sample.away)
  /\ status_file (fst (tick Sample.webhook_cfg
                         (Sample.away_tick (Response 500 "Internal Server Error"))
                         Sample.fresh))
     <> status_file Sample.fresh
  /\ filter is_post
       (snd (tick Sample.webhook_cfg (Sample.away_tick (Response 204 ""))
               (fst (tick Sample.webhook_cfg
                       (Sample.away_tick (Response 500 "Internal Server Error"))
                       Sample.fresh))))
     = []
  /\ fst (tick Sample.webhook_cfg (Sample.away_tick NoResponse) Sample.fresh)
     = Sample.fresh.
Proof.
  split; [reflexivity |]. split; [simpl; auto |].
  split; [reflexivity |]. split; [discriminate |].
  split; [reflexivity |]. split; [discriminate |].
  split; reflexivity.
Qed.

(** The same for every configuration and every answer: a send that is
    answered, with status 300 or more or with any other status, does not
    hold the state back. After a tick that decided to notify and got a
    response, the stored snapshot is the current one and the status file
    is what [save_last_status] leaves; for a status of 300 or more a
    ready transport also prints its failure line. *)
Theorem C2_answered_send_advances (cfg : Config) (env : tick_env) (w : world)
    (curr : dict) (reason : string) (status : Z) (text : string) :
  decision cfg env w = Some (curr, (true, reason)) ->
  discord env = Response status text ->
  fst (tick cfg env w) = advanced curr env w
  /\ (status >= 300 -> transport_ready cfg = true ->
      In (Print (failure_line cfg status text)) (snd (tick cfg env w))).
Proof.
  intros Hd Hr. pose proof (decision_fetched _ _ _ _ _ Hd) as Hf. split.
  - rewrite tick_world, Hd, Hr.
    now rewrite (send_response_returns cfg _ _ curr reason status text Hf).
  - intros Hstatus Hready. apply (tick_events cfg env w curr reason _ Hd).
    rewrite Hr. exact (send_failure_logged cfg _ _ curr reason status text Hf Hready Hstatus).
Qed.

Lemma C2_answered_send_advances_witness :
  fst (tick Sample.both_cfg (Sample.away_tick (Response 403 "Forbidden")) Sample.fresh)
  = {| state := Sample.away; status_file := Some (dumps Sample.away) |}
  /\ In (Print "[error] Bot send failed: 403 Forbidden")
        (snd (tick Sample.both_cfg (Sample.away_tick (Response 403 "Forbidden"))
                Sample.fresh)).
Proof.
  destruct (C2_answered_send_advances Sample.both_cfg
              (Sample.away_tick (Response 403 "Forbidden")) Sample.fresh
              Sample.away "came online" 403 "Forbidden" eq_refl eq_refl)
    as [Hworld Hlog].
  split.
  - exact Hworld.
  - apply Hlog; [discriminate | reflexivity].
Defined.

(** C3, as stated, fails on a tick whose send raises: the detector
    answers true, no response comes from Discord, and the stored snapshot
    stays the old one instead of becoming the current one. *)
Lemma C3_unanswered_send_keeps_prev :
  decision Sample.webhook_cfg (Sample.away_tick NoResponse) Sample.fresh
  = Some (Sample.away, (true, "came online"))
  /\ fst (tick Sample.webhook_cfg (Sample.away_tick NoResponse) Sample.fresh)
     = Sample.fresh
  /\ state (fst (tick Sample.webhook_cfg (Sample.away_tick NoResponse) Sample.fresh))
     <> Sample.away.
Proof.
  split; [reflexivity |]. split; [reflexivity | discriminate].
Qed.

(** C3, amended: across a tick the stored snapshot and the status file
    change only if the detector answered true, and then the snapshot
    becomes exactly the current one and the file what [save_last_status]
    leaves. A false answer, or a fetch or a detector that raises, leaves
    both unchanged. On a true answer the snapshot becomes the current one
    when the send returns, and stays unchanged when the send raises. *)
Theorem C3_prev_changes_only_on_notify (cfg : Config) (env : tick_env) (w : world) :
  (forall curr reason,
      decision cfg env w = Some (curr, (false, reason)) -> fst (tick cfg env w) = w)
  /\ (decision cfg env w = None -> fst (tick cfg env w) = w)
  /\ (fst (tick cfg env w) <> w ->
      exists curr reason,
        decision cfg env w = Some (curr, (true, reason))
        /\ fst (tick cfg env w) = advanced curr env w)
  /\ (forall curr reason,
        decision cfg env w = Some (curr, (true, reason)) ->
        (snd (send cfg curr reason (discord env)) = Ok tt
         /\ fst (tick cfg env w) = advanced curr env w)
        \/ (exists e, snd (send cfg curr reason (discord env)) = Raise e
                      /\ fst (tick cfg env w) = w)).
Proof.
  rewrite tick_world. repeat split.
  - intros curr reason ->. reflexivity.
  - intros ->. reflexivity.
  - destruct (decision cfg env w) as [[curr [[|] reason]]|]; try congruence.
    destruct (snd (send cfg curr reason (discord env))); [| congruence].
    intros _. exists curr, reason. split; reflexivity.
  - intros curr reason ->.
    destruct (snd (send cfg curr reason (discord env))) as [[]|e].
    + left. split; reflexivity.
    + right. exists e. split; reflexivity.
Qed.

Lemma C3_prev_changes_only_on_notify_witness :
  fst (tick Sample.csgo_cfg Sample.dota_tick Sample.online_world) = Sample.online_world
  /\ fst (tick Sample.webhook_cfg (Sample.away_tick (Response 204 "")) Sample.fresh)
     = {| state := Sample.away; status_file := Some (dumps Sample.away) |}.
Proof.
  split.
  - exact (proj1 (C3_prev_changes_only_on_notify Sample.csgo_cfg Sample.dota_tick
                    Sample.online_world)
             Sample.online_dota "" eq_refl).
  - destruct (proj2 (proj2 (proj2 (C3_prev_changes_only_on_notify Sample.webhook_cfg
                (Sample.away_tick (Response 204 "")) Sample.fresh)))
                Sample.away "came online" eq_refl) as [[_ H] | [e [H _]]].
    + exact H.
    + discriminate H.
Defined.

(** Along a run the state moves only at ticks that notify: if the
    detector answers true at no tick, the world at the end is the world
    at the start. *)
Lemma run_without_notification (cfg : Config) (envs : list tick_env) (w : world) :
  (forall env w0 curr reason,
      In env envs -> decision cfg env w0 <> Some (curr, (true, reason))) ->
  fst (run cfg envs w) = w.
Proof.
  induction envs as [|env envs IH]; intros Hquiet; simpl; [reflexivity |].
  assert (Hstep : fst (tick cfg env w) = w).
  { rewrite tick_world.
    destruct (decision cfg env w) as [[curr [[|] reason]]|] eqn:Hd; try reflexivity.
    exfalso. exact (Hquiet env w curr reason (or_introl eq_refl) Hd). }
  destruct (tick cfg env w) as [w1 evs1]. simpl in Hstep. subst w1.
  assert (Hrest : fst (run cfg envs w) = w).
  { apply IH. intros env0 w0 curr reason Hin. apply Hquiet. now right. }
  destruct (run cfg envs w) as [w2 evs2]. exact Hrest.
Qed.

(* ===================================================================== *)
(** * Start-up                                                           *)
(* ===================================================================== *)

(** Start-up stops with [SystemExit] exactly when a Steam setting is
    missing, or when webhook mode has no URL. *)
Lemma startup_exits (cfg : Config) (now : Z) (reply : http_reply)
    (file : option string) (readable : bool) :
  (exists msg, main_startup cfg now reply file readable = SystemExit msg)
  <-> (STEAM_API_KEY cfg = "" \/ STEAM_FRIEND_ID64 cfg = ""
       \/ (BOT_MODE cfg = false /\ DISCORD_WEBHOOK_URL cfg = "")).
Proof.
  unfold main_startup.
  destruct (STEAM_API_KEY cfg) as [|a key]; simpl.
  { split; [auto | intros _; eexists; reflexivity]. }
  destruct (STEAM_FRIEND_ID64 cfg) as [|b id]; simpl.
  { split; [auto | intros _; eexists; reflexivity]. }
  destruct (BOT_MODE cfg); simpl.
  - destruct (send cfg (startup_message now) "is now online ✅" reply) as [evs [u|e]];
      split; try (intros [msg H]; discriminate H);
      intros [H | [H | [H _]]]; discriminate H.
  - destruct (DISCORD_WEBHOOK_URL cfg) as [|c url]; simpl.
    + split; [auto | intros _; eexists; reflexivity].
    + destruct (send cfg (startup_message now) "is now online ✅" reply) as [evs [u|e]];
        split; try (intros [msg H]; discriminate H);
        intros [H | [H | [_ H]]]; discriminate H.
Qed.

(** C6 on the code: with BOT_MODE=true and neither DISCORD_BOT_TOKEN nor
    DISCORD_CHANNEL_ID set, start-up does not exit. It prints the
    warning of [send_discord_bot] in place of the start-up notification
    and enters the loop, where a tick that decides to notify posts
    nothing. The same environment in webhook mode, with no
    DISCORD_WEBHOOK_URL, exits with the diagnostic. *)
Theorem C6_bot_mode_starts_without_token :
  load_config Sample.bot_env = Ok Sample.bot_cfg
  /\ (forall now reply file readable,
        main_startup Sample.bot_cfg now reply file readable
        = Running
            [KeepaliveThread "0.0.0.0" 3000;
             Print "[keepalive] HTTP server on http://0.0.0.0:3000/";
             Print "[warn] BOT_MODE enabled but token/channel missing; skipping notify.";
             Print "Steam → Discord notifier running. Poll interval: 60 seconds"]
            {| state := load_last_status file readable; status_file := file |})
  /\ (forall reply,
        tick Sample.bot_cfg (Sample.away_tick reply) Sample.fresh
        = ({| state := Sample.away; status_file := Some (dumps Sample.away) |},
           [HttpGet STEAM_SUMMARIES_URL
              [("key", "key"); ("steamids", "76561198000000000")];
            Print "[warn] BOT_MODE enabled but token/channel missing; skipping notify."]))
  /\ (exists cfg,
        load_config Sample.webhook_env = Ok cfg
        /\ forall now reply file readable,
            main_startup cfg now reply file readable
            = SystemExit
                "Provide DISCORD_WEBHOOK_URL (webhook mode) or set BOT_MODE=true with bot token+channel.").
Proof.
  split; [reflexivity |]. split; [reflexivity |]. split; [reflexivity |].
  eexists. split; reflexivity.
Qed.

(* ===================================================================== *)
(** * The status file                                                    *)
(* ===================================================================== *)

(** ** Strings *)

(** An escaped character reads back as the character. *)
Lemma scan_string_escape_char (c : ascii) (t : string) :
  scan_string (escape_char c ++ t) = push c (scan_string t).
Proof.
  destruct c as [[] [] [] [] [] [] [] []]; reflexivity.
Qed.

Lemma scan_string_escape (s rest : string) :
  scan_string (escape s ++ String dquote rest) = Some (s, rest).
Proof.
  induction s as [|c s IH]; simpl.
  - reflexivity.
  - rewrite append_assoc, scan_string_escape_char, IH. reflexivity.
Qed.


Lemma closes_cases (rest : string) :
  closes rest = true ->
  exists t, rest = String "," t \/ rest = String "}" t.
Proof.
  destruct rest as [|c t]; [discriminate |]. simpl. intros H. exists t.
  apply orb_true_iff in H as [H|H]; apply Ascii.eqb_eq in H; subst; auto.
Qed.

Lemma nzhead_not_D0 (d u : uint) : nzhead d <> D0 u.
Proof. induction d; simpl; try discriminate. exact IHd. Qed.

Lemma to_uint_not_D0 (p : positive) (u : uint) : Pos.to_uint p <> D0 u.
Proof.
  intros E.
  assert (Hn : unorm (Pos.to_uint p) = Pos.to_uint p).
  { rewrite <- Unsigned.to_of, Unsigned.of_to. reflexivity. }
  rewrite E in Hn. unfold unorm in Hn. simpl in Hn.
  destruct (nzhead u) eqn:Hu; try discriminate.
  - injection Hn as <-. apply (Unsigned.to_uint_nonzero p). exact E.
  - rewrite <- Hu in Hn. exact (nzhead_not_D0 u u Hn).
Qed.

Lemma scan_digits_uint (d : uint) (rest : string) :
  closes rest = true ->
  scan_digits (NilEmpty.string_of_uint d ++ rest) = (d, rest).
Proof.
  intros Hc. induction d; simpl; try (rewrite IHd; reflexivity).
  destruct (closes_cases rest Hc) as [t [-> | ->]]; reflexivity.
Qed.

Lemma starts_float_tail_closes (rest : string) :
  closes rest = true -> starts_float_tail rest = false.
Proof. intros Hc. destruct (closes_cases rest Hc) as [t [-> | ->]]; reflexivity. Qed.

Lemma scan_number_pos (negative : bool) (p : positive) (rest : string) :
  closes rest = true ->
  let s1 := NilEmpty.string_of_uint (Pos.to_uint p) ++ rest in
  (let (d, r) :=
    match s1 with
    | String c r => if Ascii.eqb c "0" then (D0 Nil, r) else scan_digits s1
    | EmptyString => (Nil, s1)
    end in
  match d with
  | Nil => None
  | _ =>
      if starts_float_tail r then None
      else Some (Z.of_int (if negative then Neg d else Pos d), r)
  end) = Some (if negative then Z.neg p else Z.pos p, rest).
Proof.
  intros Hc s1.
  assert (Hz : Z.of_int (if negative then Neg (Pos.to_uint p) else Pos (Pos.to_uint p))
               = if negative then Z.neg p else Z.pos p).
  { destruct negative.
    - exact (DecimalZ.of_to (Z.neg p)).
    - exact (DecimalZ.of_to (Z.pos p)). }
  assert (Hscan : scan_digits s1 = (Pos.to_uint p, rest))
    by (apply scan_digits_uint; exact Hc).
  pose proof (Unsigned.to_uint_nonnil p) as Hnil.
  pose proof (to_uint_not_D0 p) as Hzero.
  subst s1. revert Hz Hscan Hnil Hzero.
  generalize (Pos.to_uint p) as d. intros d Hz Hscan Hnil Hzero.
  destruct d; try (exfalso; apply Hnil; reflexivity);
    try (exfalso; apply (Hzero d); reflexivity);
    simpl NilEmpty.string_of_uint in *; simpl append in *; cbv iota;
    (match goal with |- context [Ascii.eqb ?c "0"] => change (Ascii.eqb c "0") with false end);
    cbv iota; rewrite Hscan; rewrite (starts_float_tail_closes rest Hc), Hz; reflexivity.
Qed.

Lemma scan_number_str_of_int (n : Z) (rest : string) :
  closes rest = true ->
  scan_number (str_of_int n ++ rest) = Some (n, rest).
Proof.
  intros Hc. destruct n as [|p|p].
  - simpl. unfold scan_number. simpl. now rewrite (starts_float_tail_closes rest Hc).
  - unfold str_of_int. simpl Z.to_int. unfold NilZero.string_of_int, NilZero.string_of_uint.
    pose proof (scan_number_pos false p rest Hc) as H. simpl in H.
    pose proof (Unsigned.to_uint_nonnil p) as Hnil.
    pose proof (to_uint_not_D0 p) as Hzero.
    unfold scan_number.
    destruct (Pos.to_uint p) eqn:E; try (exfalso; apply Hnil; reflexivity);
      try (exfalso; apply (Hzero u); reflexivity); simpl in *; exact H.
  - unfold str_of_int. simpl Z.to_int. unfold NilZero.string_of_int, NilZero.string_of_uint.
    pose proof (scan_number_pos true p rest Hc) as H. simpl in H.
    pose proof (Unsigned.to_uint_nonnil p) as Hnil.
    unfold scan_number.
    destruct (Pos.to_uint p) eqn:E; try (exfalso; apply Hnil; reflexivity);
      simpl in *; exact H.
Qed.


(** The first character of an integer's text is a minus sign or a digit. *)
Lemma str_of_int_head (n : Z) :
  exists c t, str_of_int n = String c t /\ number_head c = true.
Proof.
  destruct n as [|p|p].
  - exists "0"%char, EmptyString. split; reflexivity.
  - unfold str_of_int. simpl Z.to_int.
    unfold NilZero.string_of_int, NilZero.string_of_uint.
    pose proof (Unsigned.to_uint_nonnil p) as Hnil.
    destruct (Pos.to_uint p); try (exfalso; apply Hnil; reflexivity);
      simpl; eexists; eexists; split; reflexivity.
  - unfold str_of_int. simpl Z.to_int. unfold NilZero.string_of_int.
    eexists; eexists. split; reflexivity.
Qed.

(** A text that starts like a number is read as a number, and has no
    white space in front. *)
Lemma scan_value_number (c : ascii) (t : string) :
  number_head c = true ->
  scan_value (String c t)
  = match scan_number (String c t) with
    | Some (n, rest) => Some (PInt n, rest)
    | None => None
    end
  /\ skip_ws (String c t) = String c t.
Proof.
  destruct c as [[] [] [] [] [] [] [] []]; intros H; try discriminate H;
    split; reflexivity.
Qed.

Lemma scan_value_dump (v : pyval) (rest : string) :
  closes rest = true ->
  scan_value (dump_value v ++ rest) = Some (v, rest).
Proof.
  intros Hc. destruct v as [|[|]|n|s]; try reflexivity.
  - simpl dump_value.
    pose proof (scan_number_str_of_int n rest Hc) as Hnum.
    destruct (str_of_int_head n) as (c & t & Hs & Hhead).
    rewrite Hs in *. simpl append in *.
    rewrite (proj1 (scan_value_number c _ Hhead)), Hnum. reflexivity.
  - simpl. rewrite append_assoc. simpl. now rewrite scan_string_escape.
Qed.

(** No value starts with white space. *)
Lemma skip_ws_dump_value (v : pyval) (rest : string) :
  skip_ws (dump_value v ++ rest) = dump_value v ++ rest.
Proof.
  destruct v as [|[|]|n|s]; try reflexivity.
  simpl dump_value. destruct (str_of_int_head n) as (c & t & -> & Hhead).
  simpl append. exact (proj2 (scan_value_number c _ Hhead)).
Qed.

(** ** Objects *)

Lemma lookup_none_setitem (acc : dict) (k : string) (v : pyval) :
  ~ In k (map fst acc) -> setitem acc k v = (acc ++ [(k, v)])%list.
Proof.
  induction acc as [|[k' v'] acc IH]; simpl; intros Hnot; [reflexivity |].
  destruct (String.eqb_spec k' k) as [-> | Hne]; [exfalso; auto |].
  rewrite IH; [reflexivity | auto].
Qed.


Lemma skip_ws_closes (s : string) : closes s = true -> skip_ws s = s.
Proof. intros Hc. destruct (closes_cases s Hc) as [t [-> | ->]]; reflexivity. Qed.

Lemma skip_ws_space (s : string) : skip_ws (String " " s) = skip_ws s.
Proof. reflexivity. Qed.

Lemma skip_ws_dump_items (kv : string * pyval) (d : dict) (rest : string) :
  skip_ws (dump_items (kv :: d) ++ rest) = dump_items (kv :: d) ++ rest.
Proof. destruct d; reflexivity. Qed.

(** Reading one member [dump_item] wrote, up to the comma or the brace
    that follows it. *)
Lemma scan_member (k : string) (v : pyval) (acc : dict) (fuel : nat)
    (c : ascii) (r : string) :
  closes (String c r) = true ->
  scan_members (S fuel) (dump_item (k, v) ++ String c r) acc
  = if Ascii.eqb c "," then scan_members fuel (skip_ws r) (setitem acc k v)
    else Some (setitem acc k v, r).
Proof.
  intros Hc. unfold dump_item, dump_str. cbn [fst snd].
  cbn [append scan_members]. rewrite !append_assoc. cbn [append].
  rewrite Ascii.eqb_refl, scan_string_escape.
  change (skip_ws (String ":" ?x)) with (String ":" x). cbv iota.
  rewrite Ascii.eqb_refl, skip_ws_space, skip_ws_dump_value.
  rewrite (scan_value_dump v _ Hc), (skip_ws_closes _ Hc).
  destruct (closes_cases _ Hc) as [t [[= -> ->] | [= -> ->]]]; reflexivity.
Qed.

(** Reading the members [dump_items] wrote, after the items already
    read. *)
Lemma scan_members_dump (d : dict) :
  forall (kv : string * pyval) (acc : dict) (rest : string) (fuel : nat),
    (length d < fuel)%nat ->
    NoDup (map fst (acc ++ kv :: d)%list) ->
    scan_members fuel (dump_items (kv :: d) ++ String "}" rest) acc
    = Some ((acc ++ kv :: d)%list, rest).
Proof.
  induction d as [|kv' d IH]; intros [k v] acc rest fuel Hfuel Hnd;
    (destruct fuel as [|fuel]; [inversion Hfuel |]);
    assert (Hfresh : ~ In k (map fst acc))
      by (rewrite map_app in Hnd; apply NoDup_remove_2 in Hnd;
          intros Hin; apply Hnd; apply in_or_app; now left).
  - change (dump_items [(k, v)]) with (dump_item (k, v)).
    rewrite (scan_member k v acc fuel "}" rest eq_refl).
    change (Ascii.eqb "}" ",") with false. cbv iota.
    now rewrite (lookup_none_setitem acc k v Hfresh).
  - change (dump_items ((k, v) :: kv' :: d))
      with (dump_item (k, v) ++ ", " ++ dump_items (kv' :: d)).
    rewrite !append_assoc. cbn [append].
    rewrite (scan_member k v acc fuel "," _ eq_refl).
    rewrite Ascii.eqb_refl, skip_ws_space, skip_ws_dump_items.
    rewrite (lookup_none_setitem acc k v Hfresh).
    rewrite (IH kv' (acc ++ [(k, v)])%list rest fuel).
    + now rewrite <- app_assoc.
    + simpl in Hfuel. lia.
    + now rewrite <- app_assoc.
Qed.

Lemma dump_items_length (d : dict) : (length d <= String.length (dump_items d))%nat.
Proof.
  induction d as [|kv d IH]; [apply le_n |].
  destruct d as [|kv' d].
  - simpl. unfold dump_item, dump_str. simpl. lia.
  - change (dump_items (kv :: kv' :: d))
      with (dump_item kv ++ ", " ++ dump_items (kv' :: d)).
    rewrite !length_append. unfold dump_item, dump_str. simpl String.length.
    simpl in IH. simpl length. lia.
Qed.

(** Decoding what [dumps] wrote gives the dict back. *)
Lemma loads_dumps (d : dict) : distinct_keys d -> loads (dumps d) = Some d.
Proof.
  intros Hnd. destruct d as [|kv d]; [reflexivity |].
  unfold loads, dumps. cbn [append].
  change (skip_ws (String "{" ?x)) with (String "{" x).
  unfold scan_object. rewrite Ascii.eqb_refl.
  rewrite (skip_ws_dump_items kv d (String "}" EmptyString)).
  assert (Hhead : exists t, dump_items (kv :: d) ++ "}" = String dquote t).
  { destruct kv as [k v]. destruct d; eexists; reflexivity. }
  destruct Hhead as [t Ht]. rewrite Ht.
  change (Ascii.eqb dquote "}") with false. cbv iota. rewrite <- Ht.
  rewrite (scan_members_dump d kv [] EmptyString).
  - reflexivity.
  - rewrite length_append. pose proof (dump_items_length (kv :: d)) as Hl.
    change (length (kv :: d)) with (S (length d)) in Hl.
    change (String.length "}") with 1%nat. lia.
  - exact Hnd.
Qed.

(** ** The fuel of [scan_members] *)

Lemma skip_ws_shorter (s : string) : (String.length (skip_ws s) <= String.length s)%nat.
Proof.
  induction s as [|c s IH]; simpl; [lia |]. destruct (is_ws c); simpl; lia.
Qed.

Lemma push_shorter (c : ascii) (o : option (string * string)) (n : nat) :
  (forall t r, o = Some (t, r) -> (String.length r < n)%nat) ->
  forall t r, push c o = Some (t, r) -> (String.length r < n)%nat.
Proof.
  intros H t r. destruct o as [[t0 r0]|]; simpl; [| discriminate].
  intros [= <- <-]. now apply (H t0).
Qed.

Lemma scan_string_shorter (s : string) :
  forall t r, scan_string s = Some (t, r) -> (String.length r < String.length s)%nat.
Proof.
  remember (String.length s) as n eqn:Hn. revert s Hn.
  induction n as [n IH] using lt_wf_ind. intros s Hn t r.
  destruct s as [|c s1]; [discriminate |]. simpl in Hn. simpl scan_string.
  destruct (Ascii.eqb c dquote).
  { intros [= <- <-]. lia. }
  destruct (Ascii.eqb c backslash).
  - destruct s1 as [|e s2]; [discriminate |].
    destruct (Ascii.eqb e "u").
    + destruct s2 as [|h1 [|h2 [|h3 [|h4 s3]]]]; try discriminate.
      destruct (hex4 h1 h2 h3 h4) as [m|]; [| discriminate].
      destruct (m <? 256)%N; [| discriminate].
      apply push_shorter. intros t0 r0 H0.
      pose proof (IH (String.length s3) ltac:(simpl in Hn; lia) s3 eq_refl t0 r0 H0).
      simpl in Hn. lia.
    + destruct (unescape_simple e); [| discriminate].
      apply push_shorter. intros t0 r0 H0.
      pose proof (IH (String.length s2) ltac:(simpl in Hn; lia) s2 eq_refl t0 r0 H0).
      simpl in Hn. lia.
  - destruct (code c <? 32)%N; [discriminate |].
    apply push_shorter. intros t0 r0 H0.
    pose proof (IH (String.length s1) ltac:(lia) s1 eq_refl t0 r0 H0). lia.
Qed.

Lemma scan_digits_shorter (s : string) :
  (String.length (snd (scan_digits s)) <= String.length s)%nat.
Proof.
  induction s as [|c s IH]; simpl; [lia |].
  destruct (digit_of_char c); [| simpl; lia].
  destruct (scan_digits s); simpl in *. lia.
Qed.

Lemma strip_prefix_shorter (p s r : string) :
  strip_prefix p s = Some r -> (String.length r <= String.length s)%nat.
Proof.
  revert s. induction p as [|a p IH]; intros s; simpl.
  - intros [= <-]. lia.
  - destruct s as [|b s]; [discriminate |].
    destruct (Ascii.eqb a b); [| discriminate]. intros H. apply IH in H. simpl. lia.
Qed.

Lemma scan_number_shorter (s : string) (n : Z) (r : string) :
  scan_number s = Some (n, r) -> (String.length r <= String.length s)%nat.
Proof.
  unfold scan_number.
  assert (Hs1 : forall s1 d rest,
             match s1 with
             | String c r0 => if Ascii.eqb c "0" then (D0 Nil, r0) else scan_digits s1
             | EmptyString => (Nil, s1)
             end = (d, rest) -> (String.length rest <= String.length s1)%nat).
  { intros s1 d rest. destruct s1 as [|c r0]; [intros [= _ <-]; lia |].
    destruct (Ascii.eqb c "0"); [intros [= _ <-]; simpl; lia |].
    intros H. pose proof (scan_digits_shorter (String c r0)) as Hd.
    rewrite H in Hd. exact Hd. }
  destruct s as [|c r0]; [discriminate |].
  destruct (Ascii.eqb c "-").
  - destruct (match r0 with
              | String c0 r1 => if Ascii.eqb c0 "0" then (D0 Nil, r1) else scan_digits r0
              | EmptyString => (Nil, r0)
              end) as [d rest] eqn:E.
    apply Hs1 in E. destruct d; try discriminate;
      (destruct (starts_float_tail rest); [discriminate |]);
      intros [= _ <-]; simpl; lia.
  - destruct (if Ascii.eqb c "0" then (D0 Nil, r0) else scan_digits (String c r0))
      as [d rest] eqn:E.
    apply (Hs1 (String c r0)) in E. destruct d; try discriminate;
      (destruct (starts_float_tail rest); [discriminate |]);
      intros [= _ <-]; exact E.
Qed.

Lemma scan_value_shorter (s : string) (v : pyval) (r : string) :
  scan_value s = Some (v, r) -> (String.length r <= String.length s)%nat.
Proof.
  unfold scan_value. destruct s as [|c s1]; [discriminate |].
  destruct (Ascii.eqb c dquote).
  - destruct (scan_string s1) as [[t rest]|] eqn:E; [| discriminate].
    intros [= _ <-]. apply scan_string_shorter in E. simpl. lia.
  - destruct (strip_prefix "null" (String c s1)) eqn:E1.
    { intros [= _ <-]. now apply strip_prefix_shorter in E1. }
    destruct (strip_prefix "true" (String c s1)) eqn:E2.
    { intros [= _ <-]. now apply strip_prefix_shorter in E2. }
    destruct (strip_prefix "false" (String c s1)) eqn:E3.
    { intros [= _ <-]. now apply strip_prefix_shorter in E3. }
    destruct (scan_number (String c s1)) as [[n rest]|] eqn:E4; [| discriminate].
    intros [= _ <-]. now apply scan_number_shorter in E4.
Qed.

(** One more unit of fuel changes nothing once the fuel covers the
    length of the text: no answer of [scan_members] is due to the fuel. *)
Lemma scan_members_fuel (fuel : nat) :
  forall (s : string) (acc : dict),
    (String.length s <= fuel)%nat ->
    scan_members fuel s acc = scan_members (S fuel) s acc.
Proof.
  induction fuel as [|fuel IH]; intros s acc Hlen.
  - destruct s; [reflexivity | simpl in Hlen; lia].
  - change (scan_members (S (S fuel)) s acc) with
      (match s with
       | EmptyString => None
       | String c r =>
           if Ascii.eqb c dquote then
             match scan_string r with
             | None => None
             | Some (k, r1) =>
                 match skip_ws r1 with
                 | String c2 r2 =>
                     if Ascii.eqb c2 ":" then
                       match scan_value (skip_ws r2) with
                       | None => None
                       | Some (v, r3) =>
                           let acc' := setitem acc k v in
                           match skip_ws r3 with
                           | String c4 r4 =>
                               if Ascii.eqb c4 "," then scan_members (S fuel) (skip_ws r4) acc'
                               else if Ascii.eqb c4 "}" then Some (acc', r4)
                               else None
                           | EmptyString => None
                           end
                       end
                     else None
                 | EmptyString => None
                 end
             end
           else None
       end).
    cbn [scan_members].
    destruct s as [|c r]; [reflexivity |].
    destruct (Ascii.eqb c dquote); [| reflexivity].
    destruct (scan_string r) as [[k r1]|] eqn:Ek; [| reflexivity].
    destruct (skip_ws r1) as [|c2 r2] eqn:E1; [reflexivity |].
    destruct (Ascii.eqb c2 ":"); [| reflexivity].
    destruct (scan_value (skip_ws r2)) as [[v r3]|] eqn:Ev; [| reflexivity].
    cbv zeta.
    destruct (skip_ws r3) as [|c4 r4] eqn:E3; [reflexivity |].
    destruct (Ascii.eqb c4 ","); [| reflexivity].
    apply IH.
    apply scan_string_shorter in Ek. apply scan_value_shorter in Ev.
    pose proof (skip_ws_shorter r1) as H1. rewrite E1 in H1.
    pose proof (skip_ws_shorter r2) as H2.
    pose proof (skip_ws_shorter r3) as H3. rewrite E3 in H3.
    pose proof (skip_ws_shorter r4) as H4.
    simpl in Hlen, H1, H3. lia.
Qed.

Lemma scan_members_enough (fuel : nat) (s : string) (acc : dict) :
  (String.length s <= fuel)%nat ->
  scan_members fuel s acc = scan_members (String.length s) s acc.
Proof.
  induction fuel as [|fuel IH]; intros Hlen.
  - replace (String.length s) with 0%nat by lia. reflexivity.
  - destruct (Nat.eq_dec (String.length s) (S fuel)) as [-> | Hne]; [reflexivity |].
    rewrite <- scan_members_fuel by lia. apply IH. lia.
Qed.

(** ** Save, then load *)


(** A write that is refused leaves the file as it was, and a write cut
    short leaves a prefix of the text: [load_last_status] then answers
    with what the earlier file held, or with what the prefix decodes
    to. *)
Lemma save_refused (s : dict) (file : option string) (readable : bool) :
  load_last_status (save_last_status s file OpenDenied) readable
  = load_last_status file readable.
Proof. reflexivity. Qed.

(** In the narrow model: whatever the file held before, a completed
    [save_last_status] followed by [load_last_status] on the readable
    file gives the same keys with the same values, in the same order. *)
Lemma save_then_load (s : dict) (file : option string) :
  distinct_keys s ->
  load_last_status (save_last_status s file WriteDone) true = s.
Proof.
  intros Hnd. unfold load_last_status, save_last_status.
  now rewrite (loads_dumps s Hnd).
Qed.


(* ===================================================================== *)
(** * The status file over text in any script                            *)
(* ===================================================================== *)

Section WideStore.

#[local] Open Scope N_scope.

Lemma hex_val_digit (k : N) : k < 16 -> hex_val (hex_digit k) = Some k.
Proof.
  intros H. destruct k as [|p]; [reflexivity |].
  do 5 (destruct p as [p|p|]; try reflexivity; try (exfalso; lia)).
Qed.

Lemma hex4_text_value (n : N) :
  n < 65536 ->
  hex4 (hex_digit ((n / 4096) mod 16)) (hex_digit ((n / 256) mod 16))
       (hex_digit ((n / 16) mod 16)) (hex_digit (n mod 16)) = Some n.
Proof.
  intros H. unfold hex4.
  rewrite !hex_val_digit by (apply N.mod_lt; discriminate).
  f_equal. div_lia.
Qed.

Lemma lor_shifted (a b : N) : b < 1024 -> N.lor (N.shiftl a 10) b = a * 1024 + b.
Proof.
  intros Hb.
  assert (Hland : N.land (N.shiftl a 10) b = 0).
  { apply N.bits_inj. intros i. rewrite N.land_spec, N.bits_0.
    destruct (N.ltb_spec i 10) as [Hi | Hi].
    - now rewrite N.shiftl_spec_low.
    - destruct (N.eq_dec b 0) as [-> | Hnz]; [now rewrite N.bits_0, andb_false_r |].
      rewrite (N.bits_above_log2 b i), andb_false_r; [reflexivity |].
      apply N.log2_lt_pow2; [lia |].
      apply N.lt_le_trans with (2 ^ 10); [exact Hb |].
      apply N.pow_le_mono_r; [discriminate | exact Hi]. }
  rewrite <- N.lxor_lor, <- N.add_nocarry_lxor by exact Hland.
  now rewrite N.shiftl_mul_pow2.
Qed.

Lemma high_half (v : N) :
  v < 1048576 ->
  N.lor 0xD800 (N.land (N.shiftr v 10) 0x3FF) = 55296 + v / 1024.
Proof.
  intros Hv.
  change 0x3FF with (N.ones 10). rewrite N.land_ones, N.shiftr_div_pow2.
  change (2 ^ 10) with 1024.
  change 0xD800 with (N.shiftl 54 10).
  rewrite lor_shifted by (apply N.mod_lt; discriminate).
  change (N.shiftl 54 10) with 55296.
  div_lia.
Qed.

Lemma low_half (v : N) :
  N.lor 0xDC00 (N.land v 0x3FF) = 56320 + v mod 1024.
Proof.
  change 0x3FF with (N.ones 10). rewrite N.land_ones.
  change (2 ^ 10) with 1024.
  change 0xDC00 with (N.shiftl 55 10).
  rewrite lor_shifted by (apply N.mod_lt; discriminate).
  change (N.shiftl 55 10) with 56320.
  div_lia.
Qed.

Lemma join_halves (v : N) :
  v < 1048576 ->
  Wide.join (55296 + v / 1024) (56320 + v mod 1024) = 65536 + v.
Proof.
  intros Hv. unfold Wide.join.
  replace (55296 + v / 1024 - 0xD800) with (v / 1024) by div_lia.
  replace (56320 + v mod 1024 - 0xDC00) with (v mod 1024) by div_lia.
  rewrite lor_shifted by (apply N.mod_lt; discriminate).
  div_lia.
Qed.

(** ** Strings of any code points *)

(** An escape [\uXXXX] reads as its value, unless the value is a high
    surrogate: then what follows decides. *)
Lemma wide_scan_u (h1 h2 h3 h4 : ascii) (n : N) (t : string) :
  hex4 h1 h2 h3 h4 = Some n ->
  Wide.scan_string
    (String backslash (String "u" (String h1 (String h2 (String h3 (String h4 t))))))
  = if Wide.is_high n then
      match t with
      | String b s4 =>
          if Ascii.eqb b backslash then
            match s4 with
            | String u s5 =>
                if Ascii.eqb u "u" then
                  match s5 with
                  | String k1 (String k2 (String k3 (String k4 s6))) =>
                      match hex4 k1 k2 k3 k4 with
                      | Some m =>
                          if Wide.is_low m
                          then Wide.push (Wide.join n m) (Wide.scan_string s6)
                          else Wide.push n (Wide.scan_string t)
                      | None => None
                      end
                  | _ => None
                  end
                else Wide.push n (Wide.scan_string t)
            | EmptyString => Wide.push n (Wide.scan_string t)
            end
          else Wide.push n (Wide.scan_string t)
      | EmptyString => Wide.push n (Wide.scan_string t)
      end
    else Wide.push n (Wide.scan_string t).
Proof.
  intros Hh.
  cbn [Wide.scan_string Ascii.eqb Bool.eqb backslash dquote].
  rewrite Hh. reflexivity.
Qed.

Lemma wide_scan_uescape (n : N) (t : string) :
  n < 65536 ->
  Wide.scan_string (Wide.uescape n ++ t)
  = if Wide.is_high n then
      match t with
      | String b s4 =>
          if Ascii.eqb b backslash then
            match s4 with
            | String u s5 =>
                if Ascii.eqb u "u" then
                  match s5 with
                  | String k1 (String k2 (String k3 (String k4 s6))) =>
                      match hex4 k1 k2 k3 k4 with
                      | Some m =>
                          if Wide.is_low m
                          then Wide.push (Wide.join n m) (Wide.scan_string s6)
                          else Wide.push n (Wide.scan_string t)
                      | None => None
                      end
                  | _ => None
                  end
                else Wide.push n (Wide.scan_string t)
            | EmptyString => Wide.push n (Wide.scan_string t)
            end
          else Wide.push n (Wide.scan_string t)
      | EmptyString => Wide.push n (Wide.scan_string t)
      end
    else Wide.push n (Wide.scan_string t).
Proof.
  intros Hn. unfold Wide.uescape, Wide.hex4_text. cbn [append].
  exact (wide_scan_u _ _ _ _ n t (hex4_text_value n Hn)).
Qed.

(** A code point up to U+00FF is written as the character is. *)
Lemma wide_escape_code (c : ascii) : Wide.escape_cp (code c) = escape_char c.
Proof. destruct c as [[] [] [] [] [] [] [] []]; reflexivity. Qed.

Lemma wide_scan_escape_code (c : ascii) (t : string) :
  Wide.scan_string (Wide.escape_cp (code c) ++ t) = Wide.push (code c) (Wide.scan_string t).
Proof. destruct c as [[] [] [] [] [] [] [] []]; reflexivity. Qed.

(** From U+007F up every code point is written as one escape or as a
    pair of escapes. *)
Lemma wide_escape_cp_above (n : N) :
  127 <= n -> n < 1114112 ->
  Wide.escape_cp n
  = if n <? 65536 then Wide.uescape n
    else Wide.uescape (55296 + (n - 65536) / 1024)
         ++ Wide.uescape (56320 + (n - 65536) mod 1024).
Proof.
  intros Hn Hmax. unfold Wide.escape_cp.
  repeat match goal with
         | |- context [N.eqb n ?k] =>
             destruct (N.eqb_spec n k) as [Heq | _]; [exfalso; lia |]
         end.
  replace (n <=? 126) with false by (symmetry; apply N.leb_gt; lia).
  rewrite andb_false_r.
  change (n <? 0x10000) with (n <? 65536).
  destruct (N.ltb_spec n 65536) as [Hlt | Hge]; [reflexivity |].
  cbv zeta. change 0x10000 with 65536.
  rewrite high_half by lia. now rewrite low_half.
Qed.

Lemma wide_is_high_spec (n : N) : Wide.is_high n = true <-> 55296 <= n <= 56319.
Proof.
  unfold Wide.is_high. rewrite andb_true_iff, !N.leb_le. reflexivity.
Qed.

Lemma wide_is_low_spec (n : N) : Wide.is_low n = true <-> 56320 <= n <= 57343.
Proof.
  unfold Wide.is_low. rewrite andb_true_iff, !N.leb_le. reflexivity.
Qed.

Lemma wide_not_high (n : N) : n < 55296 \/ 56319 < n -> Wide.is_high n = false.
Proof.
  intros H. destruct (Wide.is_high n) eqn:E; [| reflexivity].
  apply wide_is_high_spec in E. lia.
Qed.

Lemma wide_not_low (n : N) : n < 56320 \/ 57343 < n -> Wide.is_low n = false.
Proof.
  intros H. destruct (Wide.is_low n) eqn:E; [| reflexivity].
  apply wide_is_low_spec in E. lia.
Qed.

(** A code point that is not a high surrogate reads back as itself,
    whatever follows. *)
Lemma wide_scan_escape_cp (n : N) (t : string) :
  n < 1114112 -> Wide.is_high n = false ->
  Wide.scan_string (Wide.escape_cp n ++ t) = Wide.push n (Wide.scan_string t).
Proof.
  intros Hmax Hhigh.
  destruct (N.lt_ge_cases n 256) as [Hsmall | Hbig].
  - rewrite <- (N_ascii_embedding n Hsmall). exact (wide_scan_escape_code _ t).
  - rewrite wide_escape_cp_above by lia.
    destruct (N.ltb_spec n 65536) as [Hlt | Hge].
    + now rewrite (wide_scan_uescape n t Hlt), Hhigh.
    + set (v := n - 65536).
      assert (Hv : v < 1048576) by (unfold v; lia).
      assert (Hq : v / 1024 < 1024) by div_lia.
      assert (Hr : v mod 1024 < 1024) by (apply N.mod_lt; discriminate).
      rewrite append_assoc.
      rewrite wide_scan_uescape by div_lia.
      replace (Wide.is_high (55296 + v / 1024)) with true
        by (symmetry; apply wide_is_high_spec; div_lia).
      unfold Wide.uescape at 1, Wide.hex4_text. cbn [append].
      change (Ascii.eqb backslash backslash) with true.
      change (Ascii.eqb "u" "u") with true. cbv iota.
      rewrite hex4_text_value by div_lia.
      replace (Wide.is_low (56320 + v mod 1024)) with true
        by (symmetry; apply wide_is_low_spec; div_lia).
      rewrite join_halves by exact Hv.
      replace (65536 + v) with n by (unfold v; lia). reflexivity.
Qed.

(** A high surrogate reads back as itself before the closing quote and
    before any code point that is not a low surrogate. *)
Lemma wide_scan_high_last (n : N) (rest : string) :
  Wide.is_high n = true ->
  Wide.scan_string (Wide.escape_cp n ++ String dquote rest)
  = Wide.push n (Wide.scan_string (String dquote rest)).
Proof.
  intros Hhigh. pose proof (proj1 (wide_is_high_spec n) Hhigh) as Hr.
  rewrite wide_escape_cp_above by lia.
  replace (n <? 65536) with true by (symmetry; apply N.ltb_lt; lia).
  rewrite wide_scan_uescape by lia. rewrite Hhigh. reflexivity.
Qed.

Lemma wide_scan_high_code (n : N) (c : ascii) (t : string) :
  n < 65536 ->
  Wide.scan_string (Wide.uescape n ++ Wide.escape_cp (code c) ++ t)
  = Wide.push n (Wide.scan_string (Wide.escape_cp (code c) ++ t)).
Proof.
  intros Hn. rewrite wide_scan_uescape by exact Hn.
  destruct (Wide.is_high n); [| reflexivity].
  destruct c as [[] [] [] [] [] [] [] []]; reflexivity.
Qed.

Lemma wide_scan_high_uescape (n m : N) (t : string) :
  n < 65536 -> m < 65536 -> Wide.is_low m = false ->
  Wide.scan_string (Wide.uescape n ++ Wide.uescape m ++ t)
  = Wide.push n (Wide.scan_string (Wide.uescape m ++ t)).
Proof.
  intros Hn Hm Hlow. rewrite wide_scan_uescape by exact Hn.
  destruct (Wide.is_high n); [| reflexivity].
  unfold Wide.uescape at 1, Wide.hex4_text. cbn [append].
  change (Ascii.eqb backslash backslash) with true.
  change (Ascii.eqb "u" "u") with true. cbv iota.
  rewrite hex4_text_value by exact Hm. rewrite Hlow. reflexivity.
Qed.

Lemma wide_scan_high_next (n m : N) (t : string) :
  Wide.is_high n = true -> m < 1114112 -> Wide.is_low m = false ->
  Wide.scan_string (Wide.escape_cp n ++ Wide.escape_cp m ++ t)
  = Wide.push n (Wide.scan_string (Wide.escape_cp m ++ t)).
Proof.
  intros Hhigh Hmax Hlow. pose proof (proj1 (wide_is_high_spec n) Hhigh) as Hr.
  rewrite (wide_escape_cp_above n) by lia.
  replace (n <? 65536) with true by (symmetry; apply N.ltb_lt; lia).
  destruct (N.lt_ge_cases m 256) as [Hsmall | Hbig].
  - rewrite <- (N_ascii_embedding m Hsmall). apply wide_scan_high_code. lia.
  - rewrite (wide_escape_cp_above m) by lia.
    destruct (N.ltb_spec m 65536) as [Hlt | Hge].
    + apply wide_scan_high_uescape; [lia | exact Hlt | exact Hlow].
    + set (v := m - 65536).
      assert (Hv : v < 1048576) by (unfold v; lia).
      assert (Hq : v / 1024 < 1024) by div_lia.
      rewrite append_assoc.
      apply wide_scan_high_uescape; [lia | div_lia |].
      apply wide_not_low. div_lia.
Qed.

(** The text [escape] wrote reads back, up to the closing quote. *)
Lemma wide_scan_string_escape (s : Wide.ustr) (rest : string) :
  Wide.well_formed s = true ->
  Wide.scan_string (Wide.escape s ++ String dquote rest) = Some (s, rest).
Proof.
  induction s as [|n s IH]; intros Hwf; [reflexivity |].
  cbn [Wide.well_formed] in Hwf.
  apply andb_true_iff in Hwf as [Hwf Hs]. apply andb_true_iff in Hwf as [Hmax Hpair].
  apply N.ltb_lt in Hmax. change 0x110000 with 1114112 in Hmax.
  specialize (IH Hs).
  cbn [Wide.escape]. rewrite append_assoc.
  destruct (Wide.is_high n) eqn:Hhigh.
  - destruct s as [|m s].
    + cbn [Wide.escape append]. rewrite (wide_scan_high_last n rest Hhigh). reflexivity.
    + cbn [andb negb] in Hpair. apply negb_true_iff in Hpair.
      cbn [Wide.well_formed] in Hs.
      apply andb_true_iff in Hs as [Hs _]. apply andb_true_iff in Hs as [Hm _].
      apply N.ltb_lt in Hm. change 0x110000 with 1114112 in Hm.
      cbn [Wide.escape] in IH |- *. rewrite append_assoc in IH |- *.
      rewrite (wide_scan_high_next n m _ Hhigh Hm Hpair), IH. reflexivity.
  - rewrite (wide_scan_escape_cp n _ Hmax Hhigh), IH. reflexivity.
Qed.

(** ** Objects over such strings *)

Lemma wide_ustr_eqb_eq (a b : Wide.ustr) : Wide.ustr_eqb a b = true <-> a = b.
Proof.
  revert b. induction a as [|x a IH]; intros [|y b]; simpl;
    try (split; [discriminate | discriminate]); [tauto |].
  rewrite andb_true_iff, N.eqb_eq, IH. split.
  - intros [-> ->]. reflexivity.
  - intros [= -> ->]. split; reflexivity.
Qed.

Lemma wide_setitem_fresh (acc : Wide.udict) (k : Wide.ustr) (v : Wide.uval) :
  ~ In k (map fst acc) -> Wide.setitem acc k v = (acc ++ [(k, v)])%list.
Proof.
  induction acc as [|[k' v'] acc IH]; simpl; intros Hnot; [reflexivity |].
  destruct (Wide.ustr_eqb k' k) eqn:E.
  - apply wide_ustr_eqb_eq in E. exfalso. auto.
  - rewrite IH; [reflexivity | auto].
Qed.

Lemma wide_scan_value_number (c : ascii) (t : string) :
  number_head c = true ->
  Wide.scan_value (String c t)
  = match scan_number (String c t) with
    | Some (n, rest) => Some (Wide.UInt n, rest)
    | None => None
    end.
Proof.
  destruct c as [[] [] [] [] [] [] [] []]; intros H; try discriminate H; reflexivity.
Qed.

Lemma wide_scan_value_dump (v : Wide.uval) (rest : string) :
  Wide.value_well_formed v = true ->
  closes rest = true ->
  Wide.scan_value (Wide.dump_value v ++ rest) = Some (v, rest).
Proof.
  intros Hwf Hc. destruct v as [|[|]|n|s]; try reflexivity.
  - simpl Wide.dump_value.
    pose proof (scan_number_str_of_int n rest Hc) as Hnum.
    destruct (str_of_int_head n) as (c & t & Hs & Hhead).
    rewrite Hs in *. simpl append in *.
    rewrite (wide_scan_value_number c _ Hhead), Hnum. reflexivity.
  - simpl in Hwf. simpl. rewrite append_assoc. simpl.
    now rewrite (wide_scan_string_escape s rest Hwf).
Qed.

Lemma wide_skip_ws_dump_value (v : Wide.uval) (rest : string) :
  skip_ws (Wide.dump_value v ++ rest) = Wide.dump_value v ++ rest.
Proof.
  destruct v as [|[|]|n|s]; try reflexivity.
  simpl Wide.dump_value. destruct (str_of_int_head n) as (c & t & -> & Hhead).
  simpl append. exact (proj2 (scan_value_number c _ Hhead)).
Qed.

Lemma wide_skip_ws_dump_items (kv : Wide.ustr * Wide.uval) (d : Wide.udict) (rest : string) :
  skip_ws (Wide.dump_items (kv :: d) ++ rest) = Wide.dump_items (kv :: d) ++ rest.
Proof. destruct d; reflexivity. Qed.

Lemma wide_scan_member (k : Wide.ustr) (v : Wide.uval) (acc : Wide.udict) (fuel : nat)
    (c : ascii) (r : string) :
  Wide.well_formed k = true ->
  Wide.value_well_formed v = true ->
  closes (String c r) = true ->
  Wide.scan_members (S fuel) (Wide.dump_item (k, v) ++ String c r) acc
  = if Ascii.eqb c "," then Wide.scan_members fuel (skip_ws r) (Wide.setitem acc k v)
    else Some (Wide.setitem acc k v, r).
Proof.
  intros Hk Hv Hc. unfold Wide.dump_item, Wide.dump_str. cbn [fst snd].
  cbn [append Wide.scan_members]. rewrite !append_assoc. cbn [append].
  rewrite Ascii.eqb_refl, (wide_scan_string_escape k _ Hk).
  change (skip_ws (String ":" ?x)) with (String ":" x). cbv iota.
  rewrite Ascii.eqb_refl, skip_ws_space, wide_skip_ws_dump_value.
  rewrite (wide_scan_value_dump v _ Hv Hc), (skip_ws_closes _ Hc).
  destruct (closes_cases _ Hc) as [t [[= -> ->] | [= -> ->]]]; reflexivity.
Qed.

Lemma wide_scan_members_dump (d : Wide.udict) :
  forall (kv : Wide.ustr * Wide.uval) (acc : Wide.udict) (rest : string) (fuel : nat),
    (length d < fuel)%nat ->
    NoDup (map fst (acc ++ kv :: d)%list) ->
    Wide.text_well_formed (kv :: d) = true ->
    Wide.scan_members fuel (Wide.dump_items (kv :: d) ++ String "}" rest) acc
    = Some ((acc ++ kv :: d)%list, rest).
Proof.
  induction d as [|kv' d IH]; intros [k v] acc rest fuel Hfuel Hnd Hwf;
    (destruct fuel as [|fuel]; [inversion Hfuel |]);
    assert (Hfresh : ~ In k (map fst acc))
      by (rewrite map_app in Hnd; apply NoDup_remove_2 in Hnd;
          intros Hin; apply Hnd; apply in_or_app; now left);
    cbn [Wide.text_well_formed forallb fst snd] in Hwf;
    apply andb_true_iff in Hwf as [Hkv Hrest];
    apply andb_true_iff in Hkv as [Hk Hv].
  - change (Wide.dump_items [(k, v)]) with (Wide.dump_item (k, v)).
    rewrite (wide_scan_member k v acc fuel "}" rest Hk Hv eq_refl).
    change (Ascii.eqb "}" ",") with false. cbv iota.
    now rewrite (wide_setitem_fresh acc k v Hfresh).
  - change (Wide.dump_items ((k, v) :: kv' :: d))
      with (Wide.dump_item (k, v) ++ ", " ++ Wide.dump_items (kv' :: d)).
    rewrite !append_assoc. cbn [append].
    rewrite (wide_scan_member k v acc fuel "," _ Hk Hv eq_refl).
    rewrite Ascii.eqb_refl, skip_ws_space, wide_skip_ws_dump_items.
    rewrite (wide_setitem_fresh acc k v Hfresh).
    rewrite (IH kv' (acc ++ [(k, v)])%list rest fuel).
    + now rewrite <- app_assoc.
    + simpl in Hfuel. lia.
    + now rewrite <- app_assoc.
    + exact Hrest.
Qed.

Lemma wide_dump_items_length (d : Wide.udict) :
  (length d <= String.length (Wide.dump_items d))%nat.
Proof.
  induction d as [|kv d IH]; [apply le_n |].
  destruct d as [|kv' d].
  - simpl. unfold Wide.dump_item, Wide.dump_str. simpl. lia.
  - change (Wide.dump_items (kv :: kv' :: d))
      with (Wide.dump_item kv ++ ", " ++ Wide.dump_items (kv' :: d)).
    rewrite !length_append. unfold Wide.dump_item, Wide.dump_str. simpl String.length.
    simpl in IH. simpl length. lia.
Qed.

(** Decoding what [Wide.dumps] wrote gives the dict back. *)
Lemma wide_loads_dumps (d : Wide.udict) :
  Wide.distinct_keys d -> Wide.text_well_formed d = true ->
  Wide.loads (Wide.dumps d) = Some d.
Proof.
  intros Hnd Hwf. destruct d as [|kv d]; [reflexivity |].
  unfold Wide.loads, Wide.dumps. cbn [append].
  change (skip_ws (String "{" ?x)) with (String "{" x).
  unfold Wide.scan_object. rewrite Ascii.eqb_refl.
  rewrite (wide_skip_ws_dump_items kv d (String "}" EmptyString)).
  assert (Hhead : exists t, Wide.dump_items (kv :: d) ++ "}" = String dquote t).
  { destruct kv as [k v]. destruct d; eexists; reflexivity. }
  destruct Hhead as [t Ht]. rewrite Ht.
  change (Ascii.eqb dquote "}") with false. cbv iota. rewrite <- Ht.
  rewrite (wide_scan_members_dump d kv [] EmptyString).
  - reflexivity.
  - rewrite length_append. pose proof (wide_dump_items_length (kv :: d)) as Hl.
    change (length (kv :: d)) with (S (length d)) in Hl.
    change (String.length "}") with 1%nat. lia.
  - exact Hnd.
  - exact Hwf.
Qed.

(** ** The two stores agree on text within U+0000..U+00FF *)

Lemma wide_escape_codes (s : string) : Wide.escape (Wide.codes s) = escape s.
Proof.
  induction s as [|c s IH]; [reflexivity |].
  cbn [Wide.codes Wide.escape escape]. now rewrite wide_escape_code, IH.
Qed.

Lemma wide_dump_item_widen (kv : string * pyval) :
  Wide.dump_item (Wide.codes (fst kv), Wide.widen_value (snd kv)) = dump_item kv.
Proof.
  destruct kv as [k v]. unfold Wide.dump_item, dump_item, Wide.dump_str, dump_str.
  cbn [fst snd]. rewrite wide_escape_codes.
  destruct v as [|[|]|n|s]; try reflexivity.
  simpl. unfold Wide.dump_str, dump_str. now rewrite wide_escape_codes.
Qed.

(** On a dict of the narrow model the wide store writes the same file. *)
Lemma wide_dumps_widen (d : dict) : Wide.dumps (Wide.widen d) = dumps d.
Proof.
  unfold Wide.dumps, dumps. f_equal. f_equal.
  induction d as [|kv d IH]; [reflexivity |].
  destruct d as [|kv' d].
  - exact (wide_dump_item_widen kv).
  - change (Wide.dump_items (Wide.widen (kv :: kv' :: d)))
      with (Wide.dump_item (Wide.codes (fst kv), Wide.widen_value (snd kv))
            ++ ", " ++ Wide.dump_items (Wide.widen (kv' :: d))).
    rewrite IH, wide_dump_item_widen. reflexivity.
Qed.

Lemma wide_save_widen (d : dict) (file : option string) (disk : disk_write) :
  Wide.save_last_status (Wide.widen d) file disk = save_last_status d file disk.
Proof. unfold Wide.save_last_status, save_last_status. now rewrite wide_dumps_widen. Qed.

(** ** What the decoder yields *)

Lemma hex_val_bound (c : ascii) (x : N) : hex_val c = Some x -> x < 16.
Proof.
  destruct c as [[] [] [] [] [] [] [] []]; simpl; intros [= <-]; reflexivity.
Qed.

Lemma hex4_bound (a b c d : ascii) (n : N) : hex4 a b c d = Some n -> n < 65536.
Proof.
  unfold hex4.
  destruct (hex_val a) as [x|] eqn:Ea; [| discriminate].
  destruct (hex_val b) as [y|] eqn:Eb; [| discriminate].
  destruct (hex_val c) as [z|] eqn:Ec; [| discriminate].
  destruct (hex_val d) as [w|] eqn:Ed; [| discriminate].
  apply hex_val_bound in Ea, Eb, Ec, Ed. intros [= <-]. lia.
Qed.

Lemma wide_join_range (n m : N) :
  Wide.is_high n = true -> Wide.is_low m = true ->
  65536 <= Wide.join n m < 1114112.
Proof.
  intros Hn Hm. apply wide_is_high_spec in Hn. apply wide_is_low_spec in Hm.
  unfold Wide.join. rewrite lor_shifted by lia. lia.
Qed.

Lemma wide_push_some (n : N) (o : option (Wide.ustr * string)) (t : Wide.ustr)
    (rest : string) :
  Wide.push n o = Some (t, rest) -> exists t0, o = Some (t0, rest) /\ t = n :: t0.
Proof.
  destruct o as [[t0 r0]|]; simpl; [| discriminate].
  intros [= <- <-]. eauto.
Qed.

(** Decoded text is well formed, and it starts with a low surrogate only
    if the literal starts with the escape of that surrogate. *)
Lemma wide_scan_string_decoded (k : nat) :
  forall (s : string) (t : Wide.ustr) (rest : string),
    (String.length s <= k)%nat ->
    Wide.scan_string s = Some (t, rest) ->
    Wide.well_formed t = true
    /\ (forall m t', t = m :: t' -> Wide.is_low m = true ->
        exists h1 h2 h3 h4 s',
          s = String backslash
                (String "u" (String h1 (String h2 (String h3 (String h4 s')))))
          /\ hex4 h1 h2 h3 h4 = Some m).
Proof.
  induction k as [|k IH]; intros s t rest Hlen Hscan.
  { destruct s; [discriminate Hscan | simpl in Hlen; lia]. }
  destruct s as [|c s1]; [discriminate Hscan |].
  simpl String.length in Hlen.
  (* a code point that cannot pair with what follows *)
  assert (Hplain : forall (n : N) (s' : string),
             (String.length s' <= k)%nat ->
             n < 1114112 ->
             (Wide.is_high n = true ->
              forall h1 h2 h3 h4 s'' m,
                s' = String backslash
                       (String "u" (String h1 (String h2 (String h3 (String h4 s'')))))
                -> hex4 h1 h2 h3 h4 = Some m -> Wide.is_low m = false) ->
             Wide.push n (Wide.scan_string s') = Some (t, rest) ->
             Wide.well_formed t = true /\ exists t0, t = n :: t0).
  { intros n s' Hl Hmax Hnext Hp.
    apply wide_push_some in Hp as (t0 & Hs & ->).
    destruct (IH s' t0 rest Hl Hs) as [Hwf Hhead].
    split; [| eauto].
    cbn [Wide.well_formed]. rewrite Hwf, andb_true_r.
    replace (n <? 0x110000) with true by (symmetry; apply N.ltb_lt; exact Hmax).
    destruct t0 as [|m t0]; [reflexivity |]. simpl.
    destruct (Wide.is_high n) eqn:Hhigh; [| reflexivity].
    destruct (Wide.is_low m) eqn:Hlow; [| reflexivity].
    destruct (Hhead m t0 eq_refl Hlow) as (h1 & h2 & h3 & h4 & s'' & Hs' & Hh).
    rewrite (Hnext eq_refl h1 h2 h3 h4 s'' m Hs' Hh) in Hlow. discriminate Hlow. }
  cbn [Wide.scan_string] in Hscan.
  destruct (Ascii.eqb c dquote) eqn:Eq.
  { injection Hscan as <- <-. split; [reflexivity | intros m t' H; discriminate H]. }
  destruct (Ascii.eqb c backslash) eqn:Eb.
  - apply Ascii.eqb_eq in Eb. subst c.
    destruct s1 as [|e s2]; [discriminate Hscan |].
    destruct (Ascii.eqb e "u") eqn:Eu.
    + apply Ascii.eqb_eq in Eu. subst e.
      destruct s2 as [|h1 [|h2 [|h3 [|h4 s3]]]]; try discriminate Hscan.
      destruct (hex4 h1 h2 h3 h4) as [n|] eqn:Hh; [| discriminate Hscan].
      pose proof (hex4_bound _ _ _ _ _ Hh) as Hn.
      simpl String.length in Hlen.
      assert (Hdone : Wide.well_formed t = true /\ (exists t0, t = n :: t0) ->
                      Wide.well_formed t = true
                      /\ (forall m t', t = m :: t' -> Wide.is_low m = true ->
                          exists k1 k2 k3 k4 s',
                            String backslash
                              (String "u" (String h1 (String h2 (String h3 (String h4 s3)))))
                            = String backslash
                                (String "u" (String k1 (String k2 (String k3 (String k4 s')))))
                            /\ hex4 k1 k2 k3 k4 = Some m)).
      { intros [Hwf [t0 ->]]. split; [exact Hwf |].
        intros m t' [= <- <-] _. exists h1, h2, h3, h4, s3. split; [reflexivity | exact Hh]. }
      destruct (Wide.is_high n) eqn:Hhigh.
      * destruct s3 as [|b s4].
        { apply Hdone, (Hplain n ""); [simpl in Hlen |- *; lia | lia | | exact Hscan].
          intros _ ? ? ? ? ? ? H; discriminate H. }
        destruct (Ascii.eqb b backslash) eqn:Ebb.
        2:{ apply Hdone, (Hplain n (String b s4)); [simpl in Hlen |- *; lia | lia | | exact Hscan].
            intros _ ? ? ? ? ? ? [= -> _]. discriminate Ebb. }
        destruct s4 as [|u s5].
        { apply Hdone, (Hplain n (String b "")); [simpl in Hlen |- *; lia | lia | | exact Hscan].
          intros _ ? ? ? ? ? ? H; discriminate H. }
        destruct (Ascii.eqb u "u") eqn:Euu.
        2:{ apply Hdone, (Hplain n (String b (String u s5))); [simpl in Hlen |- *; lia | lia | | exact Hscan].
            intros _ ? ? ? ? ? ? [= _ -> _]. discriminate Euu. }
        destruct s5 as [|k1 [|k2 [|k3 [|k4 s6]]]]; try discriminate Hscan.
        destruct (hex4 k1 k2 k3 k4) as [m|] eqn:Hk; [| discriminate Hscan].
        destruct (Wide.is_low m) eqn:Hlow.
        -- (* a pair *)
           pose proof (wide_join_range n m Hhigh Hlow) as Hj.
           destruct (Hplain (Wide.join n m) s6) as [Hwf [t0 ->]];
             [simpl in Hlen |- *; lia | lia | | exact Hscan |].
           { intros Hjh. apply wide_is_high_spec in Hjh. lia. }
           split; [exact Hwf |].
           intros m' t' [= <- <-] Hjl. apply wide_is_low_spec in Hjl. lia.
        -- apply Hdone, (Hplain n (String b (String u (String k1 (String k2
                                     (String k3 (String k4 s6))))))); 
             [simpl in Hlen |- *; lia | lia | | exact Hscan].
           intros _ ? ? ? ? ? ? [= _ _ -> -> -> -> _] Hk'.
           rewrite Hk in Hk'. injection Hk' as <-. exact Hlow.
      * apply Hdone, (Hplain n s3); [lia | lia | | exact Hscan].
        intros H. congruence.
    + destruct (unescape_simple e) as [ch|]; [| discriminate Hscan].
      pose proof (N_ascii_bounded ch) as Hch.
      destruct (Hplain (code ch) s2) as [Hwf [t0 ->]];
        [simpl in Hlen; lia | unfold code; lia | | exact Hscan |].
      { intros Hh. apply wide_is_high_spec in Hh. unfold code in Hh. lia. }
      split; [exact Hwf |].
      intros m t' [= <- <-] Hl. apply wide_is_low_spec in Hl. unfold code in Hl. lia.
  - destruct (code c <? 32); [discriminate Hscan |].
    pose proof (N_ascii_bounded c) as Hc.
    destruct (Hplain (code c) s1) as [Hwf [t0 ->]];
      [lia | unfold code; lia | | exact Hscan |].
    { intros Hh. apply wide_is_high_spec in Hh. unfold code in Hh. lia. }
    split; [exact Hwf |].
    intros m t' [= <- <-] Hl. apply wide_is_low_spec in Hl. unfold code in Hl. lia.
Qed.

(** Every string the decoder yields is text [save_last_status] can write
    and read back. *)
Lemma wide_scan_string_well_formed (s : string) (t : Wide.ustr) (rest : string) :
  Wide.scan_string s = Some (t, rest) -> Wide.well_formed t = true.
Proof.
  intros H. exact (proj1 (wide_scan_string_decoded (String.length s) s t rest (le_n _) H)).
Qed.

(** Text within U+0000..U+00FF is well formed, so that the wide store
    reads every file the narrow one writes. *)
Lemma wide_codes_inj (a b : string) : Wide.codes a = Wide.codes b -> a = b.
Proof.
  revert b. induction a as [|x a IH]; intros [|y b]; simpl; try discriminate;
    [reflexivity |].
  intros [= Hc Ht]. f_equal; [| exact (IH b Ht)].
  unfold code in Hc.
  rewrite <- (ascii_N_embedding x), <- (ascii_N_embedding y). now rewrite Hc.
Qed.

Lemma wide_codes_well_formed (s : string) : Wide.well_formed (Wide.codes s) = true.
Proof.
  induction s as [|c s IH]; [reflexivity |].
  cbn [Wide.codes Wide.well_formed]. rewrite IH, andb_true_r.
  pose proof (N_ascii_bounded c) as Hc. unfold code.
  replace (N_of_ascii c <? 0x110000) with true by (symmetry; apply N.ltb_lt; lia).
  replace (Wide.is_high (N_of_ascii c)) with false
    by (symmetry; apply wide_not_high; lia).
  destruct (Wide.codes s); reflexivity.
Qed.

Lemma wide_widen_well_formed (d : dict) : Wide.text_well_formed (Wide.widen d) = true.
Proof.
  induction d as [|[k v] d IH]; [reflexivity |].
  cbn [Wide.widen map Wide.text_well_formed forallb fst snd].
  fold (Wide.widen d). fold (Wide.text_well_formed (Wide.widen d)).
  rewrite IH, wide_codes_well_formed, andb_true_r.
  destruct v; try reflexivity. exact (wide_codes_well_formed s).
Qed.

Lemma wide_widen_distinct (d : dict) :
  distinct_keys d -> Wide.distinct_keys (Wide.widen d).
Proof.
  unfold distinct_keys, Wide.distinct_keys, Wide.widen. rewrite map_map. cbn [fst].
  rewrite <- (map_map fst Wide.codes).
  generalize (map fst d). intros keys Hnd.
  induction Hnd as [|k keys Hnot Hnd IH]; simpl; constructor; [| exact IH].
  rewrite in_map_iff. intros (k' & Hk & Hin).
  apply wide_codes_inj in Hk. subst k'. exact (Hnot Hin).
Qed.

Lemma wide_loads_narrow (d : dict) :
  distinct_keys d -> Wide.loads (dumps d) = Some (Wide.widen d).
Proof.
  intros Hnd. rewrite <- wide_dumps_widen.
  exact (wide_loads_dumps _ (wide_widen_distinct d Hnd) (wide_widen_well_formed d)).
Qed.

(** ** Save, then load, in any script *)

(** The trade mark sign takes one escape, a code point above U+FFFF a
    surrogate pair; both read back. *)
Example wide_dump_str_sample :
  Wide.escape [0x2122; 0x1F600]%N = "\u2122\ud83d\ude00"
  /\ Wide.scan_string (Wide.escape [0x2122; 0x1F600]%N ++ String dquote "}")
     = Some ([0x2122; 0x1F600]%N, "}").
Proof. split; reflexivity. Qed.

(** Two lone surrogates side by side do not read back: the decoder takes
    them for one pair. No decoder yields such text. *)
Example wide_lone_surrogates_join :
  Wide.well_formed [0xD83D; 0xDE00]%N = false
  /\ Wide.scan_string (Wide.escape [0xD83D; 0xDE00]%N ++ String dquote "")
     = Some ([0x1F600]%N, "").
Proof. split; reflexivity. Qed.

(** C8, as stated, fails when the write does not happen: the file cannot
    be opened for writing, [save_last_status] swallows the error, and
    the load that follows finds no file and gives the empty dict. *)
Lemma C8_refused_write_loses_snapshot :
  save_last_status Sample.online_dota None OpenDenied = None
  /\ load_last_status (save_last_status Sample.online_dota None OpenDenied) true = []
  /\ load_last_status (save_last_status Sample.online_dota None OpenDenied) true
     <> Sample.online_dota
  /\ Wide.load_last_status
       (Wide.save_last_status Wide.named_snapshot None OpenDenied) true = []
  /\ Wide.load_last_status
       (Wide.save_last_status Wide.named_snapshot None OpenDenied) true
     <> Wide.named_snapshot.
Proof.
  split; [reflexivity |]. split; [reflexivity |]. split; [discriminate |].
  split; [reflexivity | discriminate].
Qed.

(** C8, amended: the status file round-trips when the write completes
    and the file can be read. For every snapshot (a dict with distinct
    keys of [None], booleans, integers and strings in any script, the
    strings being text as a JSON decoder yields it), whatever the file
    held before, [save_last_status] that writes its whole text followed
    by [load_last_status] on the readable file gives the snapshot back,
    equal on every field. A save that cannot open the file leaves the
    file, and so what is loaded, as before; a file that cannot be read
    loads as the empty dict. *)
Theorem C8_save_then_load (s : Wide.udict) (file : option string) :
  Wide.distinct_keys s ->
  Wide.text_well_formed s = true ->
  Wide.load_last_status (Wide.save_last_status s file WriteDone) true = s
  /\ (forall readable : bool,
        Wide.load_last_status (Wide.save_last_status s file OpenDenied) readable
        = Wide.load_last_status file readable)
  /\ (forall disk : disk_write,
        Wide.load_last_status (Wide.save_last_status s file disk) false = []).
Proof.
  intros Hnd Hwf. split; [| split].
  - unfold Wide.load_last_status, Wide.save_last_status.
    now rewrite (wide_loads_dumps s Hnd Hwf).
  - reflexivity.
  - intros disk. unfold Wide.load_last_status.
    destruct (Wide.save_last_status s file disk); reflexivity.
Qed.

Lemma C8_save_then_load_witness :
  Wide.distinct_keys Wide.named_snapshot
  /\ Wide.text_well_formed Wide.named_snapshot = true
  /\ Wide.load_last_status
       (Wide.save_last_status Wide.named_snapshot None WriteDone) true
     = Wide.named_snapshot.
Proof.
  assert (Hnd : Wide.distinct_keys Wide.named_snapshot).
  { unfold Wide.distinct_keys. simpl.
    repeat (constructor; [simpl; intuition discriminate |]). constructor. }
  split; [exact Hnd |]. split; [reflexivity |].
  exact (proj1 (C8_save_then_load Wide.named_snapshot None Hnd eq_refl)).
Defined.

End WideStore.

(* ===================================================================== *)
(** * More on the transition detector                                    *)
(* ===================================================================== *)

(** [should_notify] in terms of the views, for any snapshots: it raises
    what [int] or [.lower()] raises, and otherwise applies the two
    rules. *)
Lemma should_notify_views (cfg : Config) (prev curr : dict) :
  should_notify cfg prev curr =
  (ps <- persona_state prev ;;
   cs <- persona_state curr ;;
   if in_game curr && list_truthy (ONLY_GAMES cfg) && negb (title_lowers curr)
   then Raise AttributeError
   else
     Ok (if (ps =? 0) && (cs >? 0) then
           if list_truthy (ONLY_GAMES cfg) && ONLY_ONLINE cfg then (false, "")
           else (true, "came online")
         else if negb (in_game prev) && in_game curr then
           if (list_truthy (ONLY_GAMES cfg)
               && str_truthy (lower (game_title curr))
               && negb (str_in (lower (game_title curr)) (ONLY_GAMES cfg)))
              || ONLY_ONLINE cfg
           then (false, "")
           else (true, "started playing")
         else (false, ""))).
Proof.
  unfold should_notify.
  rewrite prev_state_view, prev_in_game_view.
  fold (persona_state curr). fold (in_game curr).
  destruct (persona_state prev) as [ps|e]; [| reflexivity].
  destruct (persona_state curr) as [cs|e]; [| reflexivity].
  unfold bind at 1 2.
  unfold title_lowers, game_title, or_else.
  destruct (get curr "game" PNone) as [|b|n|s]; simpl.
  - destruct (in_game curr), (in_game prev), (list_truthy (ONLY_GAMES cfg)),
      (ONLY_ONLINE cfg), ((ps =? 0) && (cs >? 0)); reflexivity.
  - destruct b; simpl;
      destruct (in_game curr), (in_game prev), (list_truthy (ONLY_GAMES cfg)),
        (ONLY_ONLINE cfg), ((ps =? 0) && (cs >? 0)); reflexivity.
  - destruct (n =? 0); simpl;
      destruct (in_game curr), (in_game prev), (list_truthy (ONLY_GAMES cfg)),
        (ONLY_ONLINE cfg), ((ps =? 0) && (cs >? 0)); reflexivity.
  - destruct s as [|c s]; simpl;
      destruct (in_game curr), (in_game prev), (list_truthy (ONLY_GAMES cfg)),
        (ONLY_ONLINE cfg), ((ps =? 0) && (cs >? 0));
      try reflexivity;
      destruct (str_in (String (lower_char c) (lower s)) (ONLY_GAMES cfg)); reflexivity.
Qed.

(** X1: the detector returns, instead of raising, exactly when both
    persona states convert to integers and, if the current snapshot is in
    a game while a game filter is set, its title can be lowercased. *)
Theorem should_notify_returns_iff (cfg : Config) (prev curr : dict) :
  (exists verdict, should_notify cfg prev curr = Ok verdict)
  <-> ((exists ps, persona_state prev = Ok ps)
       /\ (exists cs, persona_state curr = Ok cs)
       /\ (in_game curr = true -> ONLY_GAMES cfg <> [] -> title_lowers curr = true)).
Proof.
  rewrite should_notify_views.
  destruct (persona_state prev) as [ps|e1]; simpl.
  2: { split; [intros [v H]; discriminate H | intros [[ps H] _]; discriminate H]. }
  destruct (persona_state curr) as [cs|e2]; simpl.
  2: { split; [intros [v H]; discriminate H | intros [_ [[cs H] _]]; discriminate H]. }
  destruct (in_game curr); simpl.
  2: { split; [intros _ | intros _; eexists; reflexivity].
       repeat split; eauto. discriminate. }
  destruct (ONLY_GAMES cfg) as [|g gs]; simpl.
  { split; [intros _ | intros _; eexists; reflexivity].
    repeat split; eauto; try (intros _ H; now contradiction H). }
  destruct (title_lowers curr); simpl.
  - split; [intros _ | intros _; eexists; reflexivity].
    repeat split; eauto.
  - split; [intros [v H]; discriminate H |].
    intros [_ [_ H]]. discriminate H; [reflexivity | discriminate].
Qed.

(** X2: whatever the detector returns is one of three verdicts: no
    notification with the empty reason, "came online" or "started
    playing". *)
Theorem should_notify_verdicts (cfg : Config) (prev curr : dict) (notify : bool)
    (reason : string) :
  should_notify cfg prev curr = Ok (notify, reason) ->
  (notify = false /\ reason = "")
  \/ (notify = true /\ (reason = "came online" \/ reason = "started playing")).
Proof.
  rewrite should_notify_views.
  destruct (persona_state prev) as [ps|e1]; simpl; [| discriminate].
  destruct (persona_state curr) as [cs|e2]; simpl; [| discriminate].
  destruct (in_game curr && list_truthy (ONLY_GAMES cfg) && negb (title_lowers curr));
    [discriminate |].
  destruct ((ps =? 0) && (cs >? 0)).
  - destruct (list_truthy (ONLY_GAMES cfg) && ONLY_ONLINE cfg); intros [= <- <-]; auto.
  - destruct (negb (in_game prev) && in_game curr); [| intros [= <- <-]; auto].
    destruct (_ || ONLY_ONLINE cfg); intros [= <- <-]; auto.
Qed.

Lemma should_notify_verdicts_witness :
  should_notify Sample.csgo_cfg Sample.offline Sample.online_dota
  = Ok (true, "came online")
  /\ ((true = false /\ "came online" = "")
      \/ (true = true
          /\ ("came online" = "came online" \/ "came online" = "started playing"))).
Proof.
  split; [reflexivity |].
  exact (should_notify_verdicts Sample.csgo_cfg Sample.offline Sample.online_dota
           true "came online" eq_refl).
Defined.

(** X3: a snapshot compared with itself never notifies: once a snapshot
    is stored as the previous one, seeing it again is no transition. *)
Theorem same_snapshot_never_notifies (cfg : Config) (d : dict) (notify : bool)
    (reason : string) :
  should_notify cfg d d = Ok (notify, reason) -> notify = false /\ reason = "".
Proof.
  rewrite should_notify_views.
  destruct (persona_state d) as [ps|e1]; simpl; [| discriminate].
  destruct (in_game d && list_truthy (ONLY_GAMES cfg) && negb (title_lowers d));
    [discriminate |].
  assert (H1 : (ps =? 0) && (ps >? 0) = false).
  { destruct (Z.eqb_spec ps 0) as [-> | _]; reflexivity. }
  rewrite H1. destruct (in_game d); simpl; intros [= <- <-]; auto.
Qed.

Lemma same_snapshot_never_notifies_witness :
  should_notify Sample.webhook_cfg Sample.online_dota Sample.online_dota = Ok (false, "")
  /\ false = false /\ "" = "".
Proof.
  split; [reflexivity |].
  exact (same_snapshot_never_notifies Sample.webhook_cfg Sample.online_dota false ""
           eq_refl).
Defined.

(** X4: while the previous snapshot is in a game with a persona state
    other than 0, nothing notifies: not another game, not another
    persona state, not leaving the game. *)
Theorem playing_prev_never_notifies (cfg : Config) (prev curr : dict) (ps : Z)
    (notify : bool) (reason : string) :
  persona_state prev = Ok ps ->
  ps <> 0 ->
  in_game prev = true ->
  should_notify cfg prev curr = Ok (notify, reason) ->
  notify = false /\ reason = "".
Proof.
  intros Hp Hps Hg. rewrite should_notify_views, Hp, Hg. simpl.
  destruct (persona_state curr) as [cs|e2]; simpl; [| discriminate].
  destruct (in_game curr && list_truthy (ONLY_GAMES cfg) && negb (title_lowers curr));
    [discriminate |].
  apply Z.eqb_neq in Hps. rewrite Hps. simpl. intros [= <- <-]. auto.
Qed.

Lemma playing_prev_never_notifies_witness :
  persona_state (Sample.playing "A") = Ok 1
  /\ 1 <> 0
  /\ in_game (Sample.playing "A") = true
  /\ should_notify Sample.webhook_cfg (Sample.playing "A") (Sample.playing "B")
     = Ok (false, "")
  /\ false = false /\ "" = "".
Proof.
  split; [reflexivity |]. split; [discriminate |]. split; [reflexivity |].
  split; [reflexivity |].
  apply (playing_prev_never_notifies Sample.webhook_cfg (Sample.playing "A")
           (Sample.playing "B") 1 false ""); try reflexivity. discriminate.
Defined.

(** X5: the filters only suppress. A notification that passes the
    filters is the one the detector gives with both filters off, with the
    same reason. *)
Theorem filters_only_suppress (cfg : Config) (prev curr : dict) (reason : string) :
  should_notify cfg prev curr = Ok (true, reason) ->
  should_notify (without_filters cfg) prev curr = Ok (true, reason).
Proof.
  rewrite !should_notify_views. simpl.
  destruct (persona_state prev) as [ps|e1]; simpl; [| discriminate].
  destruct (persona_state curr) as [cs|e2]; simpl; [| discriminate].
  destruct (in_game curr && list_truthy (ONLY_GAMES cfg) && negb (title_lowers curr));
    [discriminate |].
  rewrite !andb_false_r. simpl.
  destruct ((ps =? 0) && (cs >? 0)).
  - destruct (list_truthy (ONLY_GAMES cfg) && ONLY_ONLINE cfg); [discriminate |].
    now intros [= <-].
  - destruct (negb (in_game prev) && in_game curr); [| discriminate].
    destruct (_ || ONLY_ONLINE cfg); [discriminate |]. now intros [= <-].
Qed.

Lemma filters_only_suppress_witness :
  should_notify (Sample.filtered_cfg false ["dota 2"]) Sample.online Sample.online_dota
  = Ok (true, "started playing")
  /\ should_notify (without_filters (Sample.filtered_cfg false ["dota 2"]))
       Sample.online Sample.online_dota
     = Ok (true, "started playing").
Proof.
  split; [reflexivity |].
  exact (filters_only_suppress (Sample.filtered_cfg false ["dota 2"]) Sample.online
           Sample.online_dota "started playing" eq_refl).
Defined.

(** X6: with ONLY_ONLINE set no "started playing" is ever sent; and with
    ONLY_ONLINE set together with a non-empty ONLY_GAMES nothing is sent
    at all. *)
Theorem only_online_mutes_games (cfg : Config) (prev curr : dict) (notify : bool)
    (reason : string) :
  ONLY_ONLINE cfg = true ->
  should_notify cfg prev curr = Ok (notify, reason) ->
  reason <> "started playing" /\ (ONLY_GAMES cfg <> [] -> notify = false).
Proof.
  intros Hon. rewrite should_notify_views, Hon.
  destruct (persona_state prev) as [ps|e1]; simpl; [| discriminate].
  destruct (persona_state curr) as [cs|e2]; simpl; [| discriminate].
  destruct (in_game curr && list_truthy (ONLY_GAMES cfg) && negb (title_lowers curr));
    [discriminate |].
  rewrite orb_true_r, andb_true_r.
  destruct ((ps =? 0) && (cs >? 0)).
  - destruct (ONLY_GAMES cfg) as [|g gs]; simpl; intros [= <- <-];
      (split; [discriminate |]); [intros H; now contradiction H | reflexivity].
  - destruct (negb (in_game prev) && in_game curr); intros [= <- <-];
      (split; [discriminate | reflexivity]).
Qed.

Lemma only_online_mutes_games_witness :
  ONLY_ONLINE (Sample.filtered_cfg true ["dota 2"]) = true
  /\ should_notify (Sample.filtered_cfg true ["dota 2"]) Sample.offline Sample.online_dota
     = Ok (false, "")
  /\ "" <> "started playing"
  /\ (ONLY_GAMES (Sample.filtered_cfg true ["dota 2"]) <> [] -> false = false).
Proof.
  split; [reflexivity |]. split; [reflexivity |].
  exact (only_online_mutes_games (Sample.filtered_cfg true ["dota 2"]) Sample.offline
           Sample.online_dota false "" eq_refl eq_refl).
Defined.

(** X7: the detector reads the persona state and the in-game flag of the
    previous snapshot, and the persona state, the in-game flag and the
    title of the current one; snapshots that agree on these get the same
    answer, whatever their names, avatars or timestamps. *)
Theorem should_notify_reads_five_fields (cfg : Config) (prev prev' curr curr' : dict) :
  persona_state prev = persona_state prev' ->
  in_game prev = in_game prev' ->
  persona_state curr = persona_state curr' ->
  in_game curr = in_game curr' ->
  get curr "game" PNone = get curr' "game" PNone ->
  should_notify cfg prev curr = should_notify cfg prev' curr'.
Proof.
  intros Hps Hpg Hcs Hcg Hgame. rewrite !should_notify_views.
  unfold title_lowers, game_title.
  now rewrite Hps, Hpg, Hcs, Hcg, Hgame.
Qed.

Lemma should_notify_reads_five_fields_witness :
  should_notify Sample.csgo_cfg Sample.offline Sample.online_dota
  = should_notify Sample.csgo_cfg []
      [("game", PStr "Dota 2"); ("in_game", PBool true); ("personastate", PInt 1)].
Proof.
  exact (should_notify_reads_five_fields Sample.csgo_cfg Sample.offline []
           Sample.online_dota
           [("game", PStr "Dota 2"); ("in_game", PBool true); ("personastate", PInt 1)]
           eq_refl eq_refl eq_refl eq_refl eq_refl).
Defined.

(* ===================================================================== *)
(** * More on the configuration                                          *)
(* ===================================================================== *)

Lemma lower_char_space (c : ascii) : is_space (lower_char c) = is_space c.
Proof. destruct c as [[] [] [] [] [] [] [] []]; reflexivity. Qed.

Lemma lower_char_twice (c : ascii) : lower_char (lower_char c) = lower_char c.
Proof. destruct c as [[] [] [] [] [] [] [] []]; reflexivity. Qed.

Lemma lower_twice (s : string) : lower (lower s) = lower s.
Proof.
  induction s as [|c s IH]; simpl; [reflexivity |].
  now rewrite lower_char_twice, IH.
Qed.

Lemma lstrip_lower (s : string) : lstrip (lower s) = lower (lstrip s).
Proof.
  induction s as [|c s IH]; simpl; [reflexivity |].
  rewrite lower_char_space. destruct (is_space c); [exact IH | reflexivity].
Qed.

Lemma rstrip_lower (s : string) : rstrip (lower s) = lower (rstrip s).
Proof.
  induction s as [|c s IH]; simpl; [reflexivity |].
  rewrite IH, lower_char_space.
  destruct (rstrip s); simpl; [destruct (is_space c) |]; reflexivity.
Qed.

Lemma strip_lower (s : string) : strip (lower s) = lower (strip s).
Proof. unfold strip. now rewrite lstrip_lower, rstrip_lower. Qed.

Lemma rstrip_twice (s : string) : rstrip (rstrip s) = rstrip s.
Proof.
  induction s as [|c s IH]; simpl; [reflexivity |].
  destruct (rstrip s) as [|c' r] eqn:E.
  - destruct (is_space c) eqn:Ec; simpl; [reflexivity | now rewrite Ec].
  - simpl in IH. simpl. now rewrite IH.
Qed.

(** Trimming on the right keeps a first character that is no space. *)
Lemma rstrip_head (c : ascii) (s : string) :
  is_space c = false -> exists r, rstrip (String c s) = String c r.
Proof.
  intros Hc. simpl. destruct (rstrip s); [rewrite Hc |]; eexists; reflexivity.
Qed.

Lemma lstrip_head (s : string) :
  lstrip s = "" \/ exists c r, lstrip s = String c r /\ is_space c = false.
Proof.
  induction s as [|c s IH]; simpl; [now left |].
  destruct (is_space c) eqn:Ec; [exact IH |]. right. eauto.
Qed.

Lemma strip_twice (s : string) : strip (strip s) = strip s.
Proof.
  unfold strip.
  destruct (lstrip_head s) as [-> | (c & r & -> & Hc)]; [reflexivity |].
  destruct (rstrip_head c r Hc) as [r' Hr].
  assert (Hl : lstrip (rstrip (String c r)) = rstrip (String c r)).
  { rewrite Hr. simpl. now rewrite Hc. }
  now rewrite Hl, rstrip_twice.
Qed.

Lemma lstrip_blank (s : string) : blank s = true -> lstrip s = "".
Proof.
  induction s as [|c s IH]; simpl; [reflexivity |].
  intros H. apply andb_true_iff in H as [Hc Hs]. rewrite Hc. auto.
Qed.

Lemma strip_blank (s : string) : blank s = true -> strip s = "".
Proof. intros H. unfold strip. now rewrite (lstrip_blank s H). Qed.

(** The settings [load_config] makes of an environment it accepts. *)
Lemma load_config_fields (env : environ) (cfg : Config) :
  load_config env = Ok cfg ->
  STEAM_API_KEY cfg = strip (getenv env "STEAM_API_KEY" "")
  /\ STEAM_FRIEND_ID64 cfg = strip (getenv env "STEAM_FRIEND_ID64" "")
  /\ DISCORD_WEBHOOK_URL cfg = strip (getenv env "DISCORD_WEBHOOK_URL" "")
  /\ ONLY_GAMES cfg = parse_only_games (getenv env "ONLY_GAMES" "")
  /\ exists poll, int_of_str (getenv env "POLL_SECONDS" "60") = Ok poll
                  /\ POLL_SECONDS cfg = Z.max 15 poll.
Proof.
  unfold load_config.
  destruct (int_of_str (getenv env "POLL_SECONDS" "60")) as [poll|e]; [| discriminate].
  destruct (int_of_str (getenv env "PORT" "3000")) as [port|e]; [| discriminate].
  simpl. intros [= <-]. simpl. repeat split. eauto.
Qed.

(** X8: every entry of ONLY_GAMES is non-empty, in lower case and without
    white space at either end, whatever the environment variable
    holds. *)
Theorem only_games_normalised (env : environ) (cfg : Config) (g : string) :
  load_config env = Ok cfg ->
  In g (ONLY_GAMES cfg) ->
  g <> "" /\ lower g = g /\ strip g = g.
Proof.
  intros Hload Hin.
  destruct (load_config_fields env cfg Hload) as (_ & _ & _ & Hgames & _).
  rewrite Hgames in Hin. unfold parse_only_games in Hin.
  apply in_map_iff in Hin as (raw & <- & Hraw).
  apply filter_In in Hraw as [_ Hkeep].
  split; [| split].
  - apply str_truthy_true. now rewrite lower_truthy.
  - apply lower_twice.
  - now rewrite strip_lower, strip_twice.
Qed.

Lemma only_games_normalised_witness :
  load_config [("ONLY_GAMES", " Dota 2 ,, CSGO")]
  = Ok {| STEAM_API_KEY := ""; STEAM_FRIEND_ID64 := ""; DISCORD_WEBHOOK_URL := "";
          DISCORD_USER_ID := ""; POLL_SECONDS := 60; BOT_MODE := false;
          DISCORD_BOT_TOKEN := ""; DISCORD_CHANNEL_ID := "";
          KEEPALIVE := true; KEEPALIVE_PORT := 3000;
          ONLY_ONLINE := false; ONLY_GAMES := ["dota 2"; "csgo"] |}
  /\ "dota 2" <> "" /\ lower "dota 2" = "dota 2" /\ strip "dota 2" = "dota 2".
Proof.
  split; [reflexivity |].
  apply (only_games_normalised [("ONLY_GAMES", " Dota 2 ,, CSGO")] _ "dota 2" eq_refl).
  simpl. auto.
Defined.

(** X9: the game filter matches without regard to letter case or to
    white space around the entries of ONLY_GAMES: with ONLY_ONLINE off, a
    user who starts a game whose lowercased title equals a trimmed,
    lowercased entry of the variable is notified as "started playing". *)
Theorem listed_title_notifies (env : environ) (cfg : Config) (prev curr : dict)
    (ps cs : Z) (entry title : string) :
  load_config env = Ok cfg ->
  ONLY_ONLINE cfg = false ->
  In entry (split_comma (getenv env "ONLY_GAMES" "")) ->
  strip entry <> "" ->
  get curr "game" PNone = PStr title ->
  lower title = lower (strip entry) ->
  persona_state prev = Ok ps ->
  persona_state curr = Ok cs ->
  ~ (ps = 0 /\ cs > 0) ->
  in_game prev = false ->
  in_game curr = true ->
  should_notify cfg prev curr = Ok (true, "started playing").
Proof.
  intros Hload Hoff Hin Hentry Hgame Hlow Hp Hc Hrule1 Hpg Hcg.
  destruct (load_config_fields env cfg Hload) as (_ & _ & _ & Hgames & _).
  assert (Hlisted : str_in (lower title) (ONLY_GAMES cfg) = true).
  { apply str_in_In. rewrite Hgames, Hlow. unfold parse_only_games.
    apply (in_map (fun g => lower (strip g))). apply filter_In. split; [exact Hin |]. now apply str_truthy_true. }
  assert (Hg : game_is_text curr = true) by (unfold game_is_text; now rewrite Hgame).
  assert (Ht : game_title curr = title) by (unfold game_title; now rewrite Hgame).
  rewrite (should_notify_rules cfg prev curr ps cs Hp Hc Hg), Hpg, Hcg, Ht, Hoff, Hlisted.
  assert (H1 : (ps =? 0) && (cs >? 0) = false).
  { apply andb_false_iff.
    destruct (Z.eqb_spec ps 0) as [E|E]; [right | now left].
    destruct (Z.gtb_spec cs 0); [exfalso; apply Hrule1; split; lia | reflexivity]. }
  rewrite H1. simpl. now rewrite andb_false_r.
Qed.

Lemma listed_title_notifies_witness :
  should_notify
    {| STEAM_API_KEY := ""; STEAM_FRIEND_ID64 := ""; DISCORD_WEBHOOK_URL := "";
       DISCORD_USER_ID := ""; POLL_SECONDS := 60; BOT_MODE := false;
       DISCORD_BOT_TOKEN := ""; DISCORD_CHANNEL_ID := "";
       KEEPALIVE := true; KEEPALIVE_PORT := 3000;
       ONLY_ONLINE := false; ONLY_GAMES := ["dota 2"; "csgo"] |}
    Sample.online (Sample.playing "DOTA 2")
  = Ok (true, "started playing").
Proof.
  apply (listed_title_notifies [("ONLY_GAMES", " Dota 2 ,, CSGO")] _ Sample.online
           (Sample.playing "DOTA 2") 1 1 " Dota 2 " "DOTA 2");
    try reflexivity; try discriminate.
  - simpl. auto.
  - intros [H _]. discriminate H.
Defined.

(** X10: a Steam setting that is missing from the environment or holds
    only white space stops [main] before anything is sent, and so does a
    missing or blank webhook URL in webhook mode; with both Steam
    settings filled in, bot mode never stops at the validation. *)
Theorem blank_setting_exits (env : environ) (cfg : Config) (now : Z)
    (reply : http_reply) (file : option string) (readable : bool) :
  load_config env = Ok cfg ->
  (blank (getenv env "STEAM_API_KEY" "") || blank (getenv env "STEAM_FRIEND_ID64" "")
   = true ->
   main_startup cfg now reply file readable
   = SystemExit
       "Please set STEAM_API_KEY and STEAM_FRIEND_ID64 as env vars (or in .env locally).")
  /\ (STEAM_API_KEY cfg <> "" -> STEAM_FRIEND_ID64 cfg <> "" ->
      (BOT_MODE cfg = false ->
       blank (getenv env "DISCORD_WEBHOOK_URL" "") = true ->
       main_startup cfg now reply file readable
       = SystemExit
           "Provide DISCORD_WEBHOOK_URL (webhook mode) or set BOT_MODE=true with bot token+channel.")
      /\ (BOT_MODE cfg = true ->
          forall msg, main_startup cfg now reply file readable <> SystemExit msg)).
Proof.
  intros Hload.
  destruct (load_config_fields env cfg Hload) as (Hkey & Hid & Hurl & _).
  unfold main_startup. split.
  - intros Hblank. apply orb_true_iff in Hblank as [H|H]; apply strip_blank in H.
    + rewrite Hkey, H. reflexivity.
    + rewrite Hid, H. now rewrite andb_false_r.
  - intros Hk Hi. apply str_truthy_true in Hk, Hi. rewrite Hk, Hi. simpl. split.
    + intros Hmode Hblank. apply strip_blank in Hblank.
      rewrite Hmode, Hurl, Hblank. reflexivity.
    + intros Hmode msg. rewrite Hmode. simpl.
      destruct (send cfg (startup_message now) "is now online ✅" reply) as [evs [u|e]];
        discriminate.
Qed.

Lemma blank_setting_exits_witness :
  main_startup
    {| STEAM_API_KEY := ""; STEAM_FRIEND_ID64 := "7656";
       DISCORD_WEBHOOK_URL := "https://h"; DISCORD_USER_ID := ""; POLL_SECONDS := 60;
       BOT_MODE := false; DISCORD_BOT_TOKEN := ""; DISCORD_CHANNEL_ID := "";
       KEEPALIVE := true; KEEPALIVE_PORT := 3000;
       ONLY_ONLINE := false; ONLY_GAMES := [] |}
    0 (Response 204 "") None true
  = SystemExit
      "Please set STEAM_API_KEY and STEAM_FRIEND_ID64 as env vars (or in .env locally).".
Proof.
  apply (blank_setting_exits
           [("STEAM_API_KEY", "   "); ("STEAM_FRIEND_ID64", "7656");
            ("DISCORD_WEBHOOK_URL", "https://h")] _ 0 (Response 204 "") None true eq_refl).
  reflexivity.
Defined.

(* ===================================================================== *)
(** * More on the Steam client                                           *)
(* ===================================================================== *)

(** The label "offline" belongs to persona state 0 alone. *)
Lemma persona_label_offline (n : Z) :
  persona_label PERSONA_MAP n = "offline" <-> n = 0.
Proof.
  unfold PERSONA_MAP. cbn [persona_label].
  destruct (Z.eqb_spec 0 n) as [<- | H0]; [tauto |].
  repeat match goal with
         | |- context [if ?k =? n then _ else _] =>
             destruct (k =? n); [split; [intros H; discriminate H | congruence] |]
         end.
  split; [intros H; discriminate H | congruence].
Qed.

(** What a fetched snapshot holds, in terms of the player record. *)
Lemma fetch_fields (status : Z) (p : dict) (others : list dict) (now : Z) (curr : dict) :
  fetch_steam_status (SteamResponse status (Some (p :: others))) now = Ok curr ->
  exists ps,
    int (get p "personastate" (PInt 0)) = Ok ps
    /\ curr = [("name", get p "personaname" (PStr "Friend"));
               ("state", PStr (persona_label PERSONA_MAP ps));
               ("personastate", PInt ps);
               ("in_game", PBool (contains p "gameextrainfo"));
               ("game", get p "gameextrainfo" PNone);
               ("avatar", get p "avatarfull" PNone);
               ("profile_url", get p "profileurl" PNone);
               ("timestamp", PInt now)].
Proof.
  unfold fetch_steam_status.
  destruct ((400 <=? status) && (status <? 600)); [discriminate |].
  destruct (int (get p "personastate" (PInt 0))) as [ps|e]; simpl; [| discriminate].
  intros [= <-]. eauto.
Qed.

Lemma fetch_reply (reply : steam_reply) (now : Z) (curr : dict) :
  fetch_steam_status reply now = Ok curr ->
  exists status p others, reply = SteamResponse status (Some (p :: others)).
Proof.
  destruct reply as [|status [[|p others]|]]; simpl; try discriminate.
  - destruct ((400 <=? status) && (status <? 600)); discriminate.
  - intros _. eauto.
  - destruct ((400 <=? status) && (status <? 600)); discriminate.
Qed.

(** X11: Steam's answer becomes a snapshot exactly when the status code is
    outside 400..599, the body decodes to at least one player, and the
    persona state of the first player converts to an integer; players
    after the first are not looked at. *)
Theorem fetch_succeeds_iff (reply : steam_reply) (now : Z) :
  (exists curr, fetch_steam_status reply now = Ok curr)
  <-> (exists status p others ps,
          reply = SteamResponse status (Some (p :: others))
          /\ (status < 400 \/ 600 <= status)
          /\ int (get p "personastate" (PInt 0)) = Ok ps
          /\ fetch_steam_status reply now
             = fetch_steam_status (SteamResponse status (Some [p])) now).
Proof.
  split.
  - intros [curr Hf].
    destruct (fetch_reply reply now curr Hf) as (status & p & others & ->).
    destruct (fetch_fields status p others now curr Hf) as (ps & Hps & _).
    exists status, p, others, ps. repeat split; try assumption.
    unfold fetch_steam_status in Hf.
    destruct (Z.leb_spec 400 status); destruct (Z.ltb_spec status 600);
      simpl in Hf; try discriminate; lia.
  - intros (status & p & others & ps & -> & Hstatus & Hps & _).
    unfold fetch_steam_status. rewrite Hps.
    assert (H : (400 <=? status) && (status <? 600) = false).
    { apply andb_false_iff. destruct Hstatus; [left; apply Z.leb_gt | right; apply Z.ltb_ge];
        lia. }
    rewrite H. simpl. eauto.
Qed.

(** X12: in a fetched snapshot the state label is "offline" exactly when
    the persona state is 0. *)
Theorem fetched_offline_label (reply : steam_reply) (now : Z) (curr : dict) :
  fetch_steam_status reply now = Ok curr ->
  (persona_state curr = Ok 0 <-> get curr "state" PNone = PStr "offline").
Proof.
  intros Hf. destruct (fetch_reply reply now curr Hf) as (status & p & others & ->).
  destruct (fetch_fields status p others now curr Hf) as (ps & _ & ->).
  unfold persona_state. simpl. split.
  - intros [= ->]. reflexivity.
  - intros [= H]. apply persona_label_offline in H. now subst.
Qed.

Lemma fetched_offline_label_witness :
  (persona_state Sample.offline_dota = Ok 0
   <-> get Sample.offline_dota "state" PNone = PStr "offline")
  /\ (persona_state Sample.away = Ok 0
      <-> get Sample.away "state" PNone = PStr "offline").
Proof.
  split.
  - exact (fetched_offline_label
             (SteamResponse 200 (Some [Sample.player_offline_dota])) 1000
             Sample.offline_dota eq_refl).
  - exact (fetched_offline_label (SteamResponse 200 (Some [Sample.player_away])) 1000
             Sample.away eq_refl).
Defined.

(** X13: a fetched snapshot that has a title is in a game: the flag is the
    presence of the key gameextrainfo and the title is its value. The
    converse fails (the key can be present with an empty value). *)
Theorem fetched_title_in_game (reply : steam_reply) (now : Z) (curr : dict) :
  fetch_steam_status reply now = Ok curr ->
  truthy (get curr "game" PNone) = true ->
  in_game curr = true.
Proof.
  intros Hf. destruct (fetch_reply reply now curr Hf) as (status & p & others & ->).
  destruct (fetch_fields status p others now curr Hf) as (ps & _ & ->).
  unfold in_game, get, contains. simpl.
  destruct (lookup p "gameextrainfo"); [reflexivity | discriminate].
Qed.

Lemma fetched_title_in_game_witness :
  truthy (get Sample.online_dota "game" PNone) = true
  /\ in_game Sample.online_dota = true.
Proof.
  split; [reflexivity |].
  exact (fetched_title_in_game (SteamResponse 200 (Some [Sample.player_online_dota]))
           1000 Sample.online_dota eq_refl eq_refl).
Defined.

(** The persona state of a fetched snapshot is an integer. *)
Lemma fetched_persona_state (reply : steam_reply) (now : Z) (curr : dict) :
  fetch_steam_status reply now = Ok curr -> exists ps, persona_state curr = Ok ps.
Proof.
  intros Hf. destruct (fetch_reply reply now curr Hf) as (status & p & others & ->).
  destruct (fetch_fields status p others now curr Hf) as (ps & _ & ->).
  exists ps. reflexivity.
Qed.

(** X14: on what the loop feeds it, the detector does not raise: for a
    previous snapshot that is absent or was fetched, and a fetched
    current snapshot whose title is a string or missing, it returns a
    verdict. *)
Theorem fetched_detector_returns (cfg : Config) (reply0 reply : steam_reply)
    (now0 now : Z) (prev curr : dict) :
  prev = [] \/ fetch_steam_status reply0 now0 = Ok prev ->
  fetch_steam_status reply now = Ok curr ->
  game_is_text curr = true ->
  exists notify reason, should_notify cfg prev curr = Ok (notify, reason).
Proof.
  intros Hprev Hcurr Hg.
  assert (Hp : exists ps, persona_state prev = Ok ps).
  { destruct Hprev as [-> | Hp]; [exists 0; reflexivity |].
    exact (fetched_persona_state reply0 now0 prev Hp). }
  destruct Hp as [ps Hp].
  destruct (fetched_persona_state reply now curr Hcurr) as [cs Hc].
  rewrite (should_notify_rules cfg prev curr ps cs Hp Hc Hg).
  match goal with |- exists _ _, Ok ?v = _ => destruct v as [b r] end.
  exists b, r. reflexivity.
Qed.

Lemma fetched_detector_returns_witness :
  exists notify reason,
    should_notify Sample.csgo_cfg Sample.away Sample.online_dota = Ok (notify, reason).
Proof.
  apply (fetched_detector_returns Sample.csgo_cfg
           (SteamResponse 200 (Some [Sample.player_away]))
           (SteamResponse 200 (Some [Sample.player_online_dota])) 1000 1000).
  - right. reflexivity.
  - reflexivity.
  - reflexivity.
Defined.

(* ===================================================================== *)
(** * More on the back-ends                                              *)
(* ===================================================================== *)

(** X15: building the message needs the keys name, state and in_game, read
    in this order: the first one missing is the [KeyError] raised, and
    with all three present the message is built, whatever the other keys
    hold. Both back-ends behave so. *)
Theorem payload_key_errors (cfg : Config) (curr : dict) (reason : string) :
  match lookup curr "name", lookup curr "state", lookup curr "in_game" with
  | None, _, _ =>
      webhook_payload cfg curr reason = Raise (KeyError "name")
      /\ bot_payload cfg curr reason = Raise (KeyError "name")
  | Some _, None, _ =>
      webhook_payload cfg curr reason = Raise (KeyError "state")
      /\ bot_payload cfg curr reason = Raise (KeyError "state")
  | Some _, Some _, None =>
      webhook_payload cfg curr reason = Raise (KeyError "in_game")
      /\ bot_payload cfg curr reason = Raise (KeyError "in_game")
  | Some _, Some _, Some _ =>
      exists body, webhook_payload cfg curr reason = Ok body
                   /\ bot_payload cfg curr reason = Ok body
  end.
Proof.
  change (bot_payload cfg curr reason) with (webhook_payload cfg curr reason).
  destruct (lookup curr "name") as [name|] eqn:En.
  2: { unfold webhook_payload, subscript. rewrite En. split; reflexivity. }
  destruct (lookup curr "state") as [label|] eqn:Es.
  2: { unfold webhook_payload, subscript. rewrite En, Es. split; reflexivity. }
  destruct (lookup curr "in_game") as [flag|] eqn:Ei.
  2: { unfold webhook_payload, subscript. rewrite En, Es, Ei. split; reflexivity. }
  eexists. split; exact (webhook_payload_described cfg curr reason name label flag En Es Ei).
Qed.

(** The requests a back-end makes and how it ends, by the readiness of
    the transport, the payload and the reply. *)
Lemma send_cases (cfg : Config) (curr : dict) (reason : string) (reply : http_reply) :
  send cfg curr reason reply =
  if transport_ready cfg then
    match webhook_payload cfg curr reason with
    | Raise e => ([], Raise e)
    | Ok body =>
        match reply with
        | NoResponse => ([request_for cfg body], Raise RequestException)
        | Response status text =>
            if status >=? 300
            then ([request_for cfg body; Print (failure_line cfg status text)], Ok tt)
            else ([request_for cfg body], Ok tt)
        end
    end
  else
    ([Print (if BOT_MODE cfg
             then "[warn] BOT_MODE enabled but token/channel missing; skipping notify."
             else "[warn] No DISCORD_WEBHOOK_URL provided; skipping notify.")],
     Ok tt).
Proof.
  unfold send, transport_ready, request_for, failure_line,
    send_discord_bot, send_discord_webhook.
  change (bot_payload cfg curr reason) with (webhook_payload cfg curr reason).
  destruct (BOT_MODE cfg).
  - destruct (str_truthy (DISCORD_BOT_TOKEN cfg) && str_truthy (DISCORD_CHANNEL_ID cfg));
      simpl; [| reflexivity].
    destruct (webhook_payload cfg curr reason); [| reflexivity].
    destruct reply as [|status text]; [reflexivity |].
    destruct (status >=? 300); reflexivity.
  - destruct (str_truthy (DISCORD_WEBHOOK_URL cfg)); simpl; [| reflexivity].
    destruct (webhook_payload cfg curr reason); [| reflexivity].
    destruct reply as [|status text]; [reflexivity |].
    destruct (status >=? 300); reflexivity.
Qed.

Lemma request_is_post (cfg : Config) (body : json) :
  is_post (request_for cfg body) = true.
Proof. unfold request_for. destruct (BOT_MODE cfg); reflexivity. Qed.

(** The requests among the events of a send. *)
Lemma send_posts (cfg : Config) (curr : dict) (reason : string) (reply : http_reply) :
  filter is_post (fst (send cfg curr reason reply))
  = if transport_ready cfg then
      match webhook_payload cfg curr reason with
      | Ok body => [request_for cfg body]
      | Raise _ => []
      end
    else [].
Proof.
  rewrite send_cases.
  destruct (transport_ready cfg); [| reflexivity].
  destruct (webhook_payload cfg curr reason) as [body|e]; [| reflexivity].
  destruct reply as [|status text]; simpl; [now rewrite request_is_post |].
  destruct (status >=? 300); simpl; now rewrite request_is_post.
Qed.

(** X16: a send makes at most one request, and only through the selected
    transport: the webhook URL without headers in webhook mode, the
    channel's messages endpoint with the header Authorization: Bot
    <token> in bot mode. A transport that lacks its settings makes no
    request at all, and neither does a snapshot whose message cannot be
    built. *)
Theorem send_requests (cfg : Config) (curr : dict) (reason : string)
    (reply : http_reply) :
  (length (filter is_post (fst (send cfg curr reason reply))) <= 1)%nat
  /\ (forall url headers body,
        In (HttpPost url headers body) (fst (send cfg curr reason reply)) ->
        transport_ready cfg = true
        /\ webhook_payload cfg curr reason = Ok body
        /\ (BOT_MODE cfg = false ->
            url = DISCORD_WEBHOOK_URL cfg /\ headers = [])
        /\ (BOT_MODE cfg = true ->
            url = "https://discord.com/api/v10/channels/" ++ DISCORD_CHANNEL_ID cfg
                  ++ "/messages"
            /\ headers = [("Authorization", "Bot " ++ DISCORD_BOT_TOKEN cfg)]))
  /\ (transport_ready cfg = true ->
      forall body, webhook_payload cfg curr reason = Ok body ->
                   In (request_for cfg body) (fst (send cfg curr reason reply))).
Proof.
  split; [| split].
  - rewrite send_posts. destruct (transport_ready cfg); simpl; try lia.
    destruct (webhook_payload cfg curr reason); simpl; lia.
  - intros url headers body Hin.
    assert (Hpost : In (HttpPost url headers body)
                      (filter is_post (fst (send cfg curr reason reply))))
      by (apply filter_In; split; [exact Hin | reflexivity]).
    rewrite send_posts in Hpost.
    destruct (transport_ready cfg); [| contradiction].
    destruct (webhook_payload cfg curr reason) as [body'|e]; [| contradiction].
    destruct Hpost as [Heq | []]. unfold request_for in Heq.
    destruct (BOT_MODE cfg); injection Heq as <- <- <-;
      repeat split; try discriminate; reflexivity.
  - intros Hready body Hbody.
    assert (Hpost : In (request_for cfg body)
                      (filter is_post (fst (send cfg curr reason reply)))).
    { rewrite send_posts, Hready, Hbody. now left. }
    now apply filter_In in Hpost.
Qed.

(** X17: a send raises in two cases only: the snapshot lacks a key the
    message needs, or a ready transport gets no response. Every response,
    whatever its status code, and every send through a transport that
    lacks its settings, returns normally. *)
Theorem send_outcome (cfg : Config) (curr : dict) (reason : string)
    (reply : http_reply) :
  snd (send cfg curr reason reply)
  = if transport_ready cfg then
      match webhook_payload cfg curr reason, reply with
      | Raise e, _ => Raise e
      | Ok _, NoResponse => Raise RequestException
      | Ok _, Response _ _ => Ok tt
      end
    else Ok tt.
Proof.
  rewrite send_cases.
  destruct (transport_ready cfg); [| reflexivity].
  destruct (webhook_payload cfg curr reason) as [body|e]; [| reflexivity].
  destruct reply as [|status text]; [reflexivity |].
  destruct (status >=? 300); reflexivity.
Qed.

(* ===================================================================== *)
(** * More on the supervisor loop                                        *)
(* ===================================================================== *)

Lemma filter_post_app (a b : list event) :
  filter is_post (a ++ b) = (filter is_post a ++ filter is_post b)%list.
Proof. apply filter_app. Qed.

(** The events of a tick: the request to Steam, then what the send did
    on a positive decision, then the line of the [except] clause if
    something raised. *)
Lemma tick_trace (cfg : Config) (env : tick_env) (w : world) :
  snd (tick cfg env w) =
  (HttpGet STEAM_SUMMARIES_URL
     [("key", STEAM_API_KEY cfg); ("steamids", STEAM_FRIEND_ID64 cfg)]
   :: match fetch_steam_status (steam env) (clock env) with
      | Raise e => [handler e]
      | Ok curr =>
          match should_notify cfg (state w) curr with
          | Raise e => [handler e]
          | Ok (true, reason) =>
              fst (send cfg curr reason (discord env))
              ++ match snd (send cfg curr reason (discord env)) with
                 | Raise e => [handler e]
                 | Ok _ => []
                 end
          | Ok (false, _) => []
          end
      end)%list.
Proof.
  unfold tick.
  destruct (fetch_steam_status (steam env) (clock env)) as [curr|e]; [| reflexivity].
  destruct (should_notify cfg (state w) curr) as [[[|] reason]|e]; try reflexivity.
  destruct (send cfg curr reason (discord env)) as [evs [u|e]]; simpl;
    [now rewrite List.app_nil_r | reflexivity].
Qed.

Lemma handler_kind (e : exn) :
  is_post (handler e) = false /\ is_get (handler e) = false
  /\ is_sleep (handler e) = false.
Proof. destruct e; repeat split. Qed.

Lemma send_kinds (cfg : Config) (curr : dict) (reason : string) (reply : http_reply) :
  filter is_get (fst (send cfg curr reason reply)) = []
  /\ filter is_sleep (fst (send cfg curr reason reply)) = [].
Proof.
  rewrite send_cases. unfold request_for.
  destruct (transport_ready cfg); [| split; reflexivity].
  destruct (webhook_payload cfg curr reason) as [body|e]; [| split; reflexivity].
  destruct reply as [|status text]; [destruct (BOT_MODE cfg); split; reflexivity |].
  destruct (status >=? 300); destruct (BOT_MODE cfg); split; reflexivity.
Qed.

(** The requests a tick posts: those of its send, on a positive
    decision. *)
Lemma tick_posts (cfg : Config) (env : tick_env) (w : world) :
  filter is_post (snd (tick cfg env w)) =
  match decision cfg env w with
  | Some (curr, (true, reason)) =>
      if transport_ready cfg then
        match webhook_payload cfg curr reason with
        | Ok body => [request_for cfg body]
        | Raise _ => []
        end
      else []
  | _ => []
  end.
Proof.
  rewrite tick_trace. unfold decision. simpl.
  destruct (fetch_steam_status (steam env) (clock env)) as [curr|e];
    [| simpl; now rewrite (proj1 (handler_kind e))].
  destruct (should_notify cfg (state w) curr) as [[[|] reason]|e];
    [| reflexivity | simpl; now rewrite (proj1 (handler_kind e))].
  rewrite filter_post_app, send_posts.
  destruct (snd (send cfg curr reason (discord env))) as [u|e]; simpl.
  - now rewrite List.app_nil_r.
  - rewrite (proj1 (handler_kind e)). now rewrite List.app_nil_r.
Qed.

(** A tick asks Steam once. *)
Lemma tick_gets (cfg : Config) (env : tick_env) (w : world) :
  filter is_get (snd (tick cfg env w))
  = [HttpGet STEAM_SUMMARIES_URL
       [("key", STEAM_API_KEY cfg); ("steamids", STEAM_FRIEND_ID64 cfg)]].
Proof.
  rewrite tick_trace. simpl. f_equal.
  destruct (fetch_steam_status (steam env) (clock env)) as [curr|e];
    [| simpl; now rewrite (proj1 (proj2 (handler_kind e)))].
  destruct (should_notify cfg (state w) curr) as [[[|] reason]|e];
    [| reflexivity | simpl; now rewrite (proj1 (proj2 (handler_kind e)))].
  rewrite filter_app, (proj1 (send_kinds cfg curr reason (discord env))).
  destruct (snd (send cfg curr reason (discord env))) as [u|e]; simpl;
    [reflexivity | now rewrite (proj1 (proj2 (handler_kind e)))].
Qed.

(** A tick posts at most once. *)
Lemma tick_posts_bound (cfg : Config) (env : tick_env) (w : world) :
  (length (filter is_post (snd (tick cfg env w))) <= 1)%nat.
Proof.
  rewrite tick_posts.
  destruct (decision cfg env w) as [[curr [[|] reason]]|]; simpl; try lia.
  destruct (transport_ready cfg); simpl; try lia.
  destruct (webhook_payload cfg curr reason); simpl; lia.
Qed.

(** X18: a tick asks Steam once, with the configured key and id, and posts
    to Discord at most once; it posts only when the detector answered
    true, and then the body is the message built from the snapshot just
    fetched and the detector's reason. A user who comes online and starts
    a game in the same tick gets one message. *)
Theorem tick_requests (cfg : Config) (env : tick_env) (w : world) :
  filter is_get (snd (tick cfg env w))
  = [HttpGet STEAM_SUMMARIES_URL
       [("key", STEAM_API_KEY cfg); ("steamids", STEAM_FRIEND_ID64 cfg)]]
  /\ (length (filter is_post (snd (tick cfg env w))) <= 1)%nat
  /\ (forall url headers body,
        In (HttpPost url headers body) (snd (tick cfg env w)) ->
        exists curr reason,
          decision cfg env w = Some (curr, (true, reason))
          /\ webhook_payload cfg curr reason = Ok body
          /\ HttpPost url headers body = request_for cfg body).
Proof.
  split; [apply tick_gets | split; [apply tick_posts_bound |]].
  - intros url headers body Hin.
    assert (Hpost : In (HttpPost url headers body) (filter is_post (snd (tick cfg env w))))
      by (apply filter_In; split; [exact Hin | reflexivity]).
    rewrite tick_posts in Hpost.
    destruct (decision cfg env w) as [[curr [[|] reason]]|]; try contradiction.
    destruct (transport_ready cfg); try contradiction.
    destruct (webhook_payload cfg curr reason) as [body'|e] eqn:Eb; try contradiction.
    destruct Hpost as [Heq | []]. exists curr, reason.
    assert (body' = body).
    { unfold request_for in Heq. destruct (BOT_MODE cfg); now injection Heq. }
    subst body'. repeat split; [exact Eb | now symmetry].
Qed.

(** The block that lowercases the title did not raise if the detector
    returned. *)
Lemma returned_title_lowers (cfg : Config) (prev curr : dict) (verdict : bool * string) :
  should_notify cfg prev curr = Ok verdict ->
  in_game curr && list_truthy (ONLY_GAMES cfg) && negb (title_lowers curr) = false.
Proof.
  rewrite should_notify_views.
  destruct (persona_state prev); simpl; [| discriminate].
  destruct (persona_state curr); simpl; [| discriminate].
  destruct (in_game curr && list_truthy (ONLY_GAMES cfg) && negb (title_lowers curr));
    [discriminate | reflexivity].
Qed.

(** X19: no notification is repeated: after a tick that notified and
    stored the snapshot, a tick on which Steam gives the same answer
    posts nothing and leaves the state and the status file as they
    are, whatever the clock and whatever Discord would have replied. *)
Theorem unchanged_player_not_renotified (cfg : Config) (env1 env2 : tick_env) (w : world)
    (curr : dict) (reason : string) :
  decision cfg env1 w = Some (curr, (true, reason)) ->
  snd (send cfg curr reason (discord env1)) = Ok tt ->
  steam env2 = steam env1 ->
  filter is_post (snd (tick cfg env2 (fst (tick cfg env1 w)))) = []
  /\ fst (tick cfg env2 (fst (tick cfg env1 w))) = fst (tick cfg env1 w).
Proof.
  intros Hd Hsend Hsame.
  assert (Hw1 : fst (tick cfg env1 w) = advanced curr env1 w)
    by (rewrite tick_world, Hd, Hsend; reflexivity).
  rewrite Hw1.
  assert (Hf1 : fetch_steam_status (steam env1) (clock env1) = Ok curr)
    by exact (decision_fetched _ _ _ _ _ Hd).
  destruct (fetch_reply _ _ _ Hf1) as (status & p & others & Hreply).
  rewrite Hreply in Hf1.
  destruct (fetch_fields status p others _ curr Hf1) as (ps & Hps & Hcurr).
  assert (Hf2 : exists curr2,
             fetch_steam_status (steam env2) (clock env2) = Ok curr2
             /\ persona_state curr2 = persona_state curr
             /\ in_game curr2 = in_game curr
             /\ get curr2 "game" PNone = get curr "game" PNone).
  { rewrite Hsame, Hreply. unfold fetch_steam_status in *.
    destruct ((400 <=? status) && (status <? 600)); [discriminate |].
    rewrite Hps. simpl. eexists. split; [reflexivity |]. subst curr. repeat split. }
  destruct Hf2 as (curr2 & Hfetch2 & Hs2 & Hg2 & Ht2).
  assert (Hblock : in_game curr && list_truthy (ONLY_GAMES cfg)
                   && negb (title_lowers curr) = false).
  { unfold decision in Hd. rewrite Hreply, Hf1 in Hd.
    destruct (should_notify cfg (state w) curr) as [v|e] eqn:Ev; [| discriminate].
    exact (returned_title_lowers cfg (state w) curr v Ev). }
  assert (Hquiet : should_notify cfg curr curr2 = Ok (false, "")).
  { rewrite should_notify_views, Hs2.
    assert (Hc : persona_state curr = Ok ps) by (subst curr; reflexivity).
    rewrite Hc. simpl.
    unfold title_lowers, game_title. rewrite Hg2, Ht2.
    fold (title_lowers curr). rewrite Hblock.
    assert (H1 : (ps =? 0) && (ps >? 0) = false)
      by (destruct (Z.eqb_spec ps 0) as [-> | _]; reflexivity).
    rewrite H1. destruct (in_game curr); reflexivity. }
  assert (Hd2 : decision cfg env2 (advanced curr env1 w) = Some (curr2, (false, ""))).
  { unfold decision. rewrite Hfetch2. simpl. now rewrite Hquiet. }
  split.
  - now rewrite tick_posts, Hd2.
  - now rewrite tick_world, Hd2.
Qed.

Lemma unchanged_player_not_renotified_witness :
  filter is_post
    (snd (tick Sample.webhook_cfg (Sample.away_tick NoResponse)
            (fst (tick Sample.webhook_cfg (Sample.away_tick (Response 204 ""))
                    Sample.fresh)))) = []
  /\ fst (tick Sample.webhook_cfg (Sample.away_tick NoResponse)
            (fst (tick Sample.webhook_cfg (Sample.away_tick (Response 204 ""))
                    Sample.fresh)))
     = fst (tick Sample.webhook_cfg (Sample.away_tick (Response 204 "")) Sample.fresh).
Proof.
  exact (unchanged_player_not_renotified Sample.webhook_cfg
           (Sample.away_tick (Response 204 "")) (Sample.away_tick NoResponse)
           Sample.fresh Sample.away "came online" eq_refl eq_refl eq_refl).
Defined.

Lemma run_cons (cfg : Config) (env : tick_env) (envs : list tick_env) (w : world) :
  run cfg (env :: envs) w
  = (fst (run cfg envs (fst (tick cfg env w))),
     (snd (tick cfg env w)
      ++ Sleep (POLL_SECONDS cfg) :: snd (run cfg envs (fst (tick cfg env w))))%list).
Proof.
  simpl. destruct (tick cfg env w) as [w1 evs1]. simpl.
  destruct (run cfg envs w1) as [w2 evs2]. reflexivity.
Qed.

Lemma tick_sleeps (cfg : Config) (env : tick_env) (w : world) :
  filter is_sleep (snd (tick cfg env w)) = [].
Proof.
  rewrite tick_trace. simpl.
  destruct (fetch_steam_status (steam env) (clock env)) as [curr|e];
    [| simpl; now rewrite (proj2 (proj2 (handler_kind e)))].
  destruct (should_notify cfg (state w) curr) as [[[|] reason]|e];
    [| reflexivity | simpl; now rewrite (proj2 (proj2 (handler_kind e)))].
  rewrite filter_app, (proj2 (send_kinds cfg curr reason (discord env))).
  destruct (snd (send cfg curr reason (discord env))) as [u|e]; simpl;
    [reflexivity | now rewrite (proj2 (proj2 (handler_kind e)))].
Qed.

(** X20: the loop is paced: over any number of iterations it asks Steam
    once per iteration, sleeps POLL_SECONDS after every iteration, also
    after one that failed, and posts at most one message per iteration;
    and for a configuration read from the environment each sleep is at
    least 15 seconds. *)
Theorem run_paced (cfg : Config) (envs : list tick_env) (w : world) :
  length (filter is_get (snd (run cfg envs w))) = length envs
  /\ filter is_sleep (snd (run cfg envs w))
     = repeat (Sleep (POLL_SECONDS cfg)) (length envs)
  /\ (length (filter is_post (snd (run cfg envs w))) <= length envs)%nat
  /\ (forall env, load_config env = Ok cfg -> 15 <= POLL_SECONDS cfg).
Proof.
  split; [| split; [| split]].
  - revert w. induction envs as [|env envs IH]; intros w; [reflexivity |].
    rewrite run_cons. cbn [snd]. rewrite filter_app. cbn [filter is_get].
    rewrite length_app, (tick_gets cfg env w), IH. reflexivity.
  - revert w. induction envs as [|env envs IH]; intros w; [reflexivity |].
    rewrite run_cons. cbn [snd]. rewrite filter_app. cbn [filter is_sleep].
    rewrite tick_sleeps, IH. reflexivity.
  - revert w. induction envs as [|env envs IH]; intros w; [apply le_n |].
    rewrite run_cons. cbn [snd]. rewrite filter_app. cbn [filter is_post].
    rewrite length_app.
    pose proof (tick_posts_bound cfg env w) as H1.
    pose proof (IH (fst (tick cfg env w))) as H2. simpl length. lia.
  - intros env Hload.
    destruct (load_config_fields env cfg Hload) as (_ & _ & _ & _ & poll & _ & ->). lia.
Qed.

(** X21: while Steam cannot be fetched (no answer, an error status, an
    undecodable body or no player) the loop keeps running and stays
    quiet: nothing is posted, the state and the status file stay as they
    are, and one error line is printed per iteration. *)
Theorem steam_outage_is_quiet (cfg : Config) (envs : list tick_env) (w : world) :
  (forall env, In env envs ->
               exists e, fetch_steam_status (steam env) (clock env) = Raise e) ->
  fst (run cfg envs w) = w
  /\ filter is_post (snd (run cfg envs w)) = []
  /\ length (filter (fun ev => match ev with PrintError _ _ => true | _ => false end)
               (snd (run cfg envs w))) = length envs.
Proof.
  revert w. induction envs as [|env envs IH]; intros w Hout; [repeat split |].
  destruct (Hout env (or_introl eq_refl)) as [e He].
  assert (Hw : fst (tick cfg env w) = w).
  { rewrite tick_world. unfold decision. now rewrite He. }
  assert (Hevs : snd (tick cfg env w)
                 = [HttpGet STEAM_SUMMARIES_URL
                      [("key", STEAM_API_KEY cfg); ("steamids", STEAM_FRIEND_ID64 cfg)];
                    handler e]).
  { rewrite tick_trace, He. reflexivity. }
  destruct (IH w (fun env0 Hin => Hout env0 (or_intror Hin))) as (IHw & IHp & IHe).
  rewrite run_cons, Hw, Hevs. cbn [fst snd]. split; [exact IHw |]. split.
  - simpl. rewrite (proj1 (handler_kind e)). exact IHp.
  - simpl. destruct e; simpl; now rewrite IHe.
Qed.

Lemma steam_outage_is_quiet_witness :
  fst (run Sample.webhook_cfg
         [{| steam := SteamNoResponse; clock := 1; discord := NoResponse;
             disk := WriteDone |};
          {| steam := SteamResponse 503 None; clock := 2; discord := NoResponse;
             disk := WriteDone |};
          {| steam := SteamResponse 200 (Some []); clock := 3; discord := NoResponse;
             disk := WriteDone |}]
         Sample.online_world)
  = Sample.online_world.
Proof.
  apply (steam_outage_is_quiet Sample.webhook_cfg).
  intros env [<- | [<- | [<- | []]]]; eexists; reflexivity.
Defined.



(* ===================================================================== *)
(** * More on start-up and shutdown                                      *)
(* ===================================================================== *)

(** X23: the start-up notification does not pass through the filters:
    whatever ONLY_ONLINE and ONLY_GAMES hold, a ready transport that gets
    a response posts exactly one message at start-up, the one for the
    name "Bot" with the state "startup" and the reason "is now online",
    and the supervisor then starts from what the status file holds. *)
Theorem startup_announcement (cfg : Config) (only_online : bool)
    (only_games : list string) (now status : Z) (text : string)
    (file : option string) (readable : bool) :
  STEAM_API_KEY cfg <> "" ->
  STEAM_FRIEND_ID64 cfg <> "" ->
  transport_ready cfg = true ->
  exists evs,
    main_startup (with_filters cfg only_online only_games) now (Response status text)
      file readable
    = Running evs {| state := load_last_status file readable; status_file := file |}
    /\ filter is_post evs
       = [request_for cfg
            (described_message (DISCORD_USER_ID cfg) (PStr "Bot") (PStr "startup")
               false PNone (PStr "") (PStr "") "is now online ✅")].
Proof.
  intros Hkey Hid Hready. apply str_truthy_true in Hkey, Hid.
  unfold main_startup. cbn [STEAM_API_KEY STEAM_FRIEND_ID64 with_filters BOT_MODE
                              DISCORD_WEBHOOK_URL KEEPALIVE KEEPALIVE_PORT POLL_SECONDS].
  rewrite Hkey, Hid. cbn [andb negb].
  assert (Hurl : negb (BOT_MODE cfg) && negb (str_truthy (DISCORD_WEBHOOK_URL cfg)) = false).
  { unfold transport_ready in Hready. destruct (BOT_MODE cfg); [reflexivity |].
    now rewrite Hready. }
  rewrite Hurl.
  assert (Hsend : send (with_filters cfg only_online only_games) (startup_message now)
                    "is now online ✅" (Response status text)
                  = send cfg (startup_message now) "is now online ✅"
                      (Response status text)) by reflexivity.
  rewrite Hsend, send_cases, Hready.
  rewrite (webhook_payload_described cfg (startup_message now) "is now online ✅"
             (PStr "Bot") (PStr "startup") (PBool false) eq_refl eq_refl eq_refl).
  assert (Hp : forall body, is_post (request_for cfg body) = true)
    by (intros body; unfold request_for; destruct (BOT_MODE cfg); reflexivity).
  destruct (status >=? 300); eexists; (split; [reflexivity |]);
    rewrite !filter_app; destruct (KEEPALIVE cfg); simpl; rewrite Hp; reflexivity.
Qed.

Lemma startup_announcement_witness :
  exists evs,
    main_startup (with_filters Sample.both_cfg true ["csgo"]) 0 (Response 200 "{}")
      None true
    = Running evs {| state := []; status_file := None |}
    /\ filter is_post evs
       = [request_for Sample.both_cfg
            (described_message "42" (PStr "Bot") (PStr "startup")
               false PNone (PStr "") (PStr "") "is now online ✅")].
Proof.
  apply (startup_announcement Sample.both_cfg true ["csgo"] 0 200 "{}" None true);
    [discriminate | discriminate | reflexivity].
Defined.

(** X24: the start-up notification is sent outside the loop's [try]: when
    a ready transport gets no response at start-up, the exception leaves
    [main], so the status file is not read and no iteration runs. The
    same failure inside the loop is printed and the loop goes on. *)
Theorem startup_without_response_crashes (cfg : Config) (now : Z)
    (file : option string) (readable : bool) (envs : list tick_env) :
  STEAM_API_KEY cfg <> "" ->
  STEAM_FRIEND_ID64 cfg <> "" ->
  transport_ready cfg = true ->
  exists evs,
    main cfg now NoResponse file readable envs = Crashed evs RequestException
    /\ filter is_get evs = [].
Proof.
  intros Hkey Hid Hready. apply str_truthy_true in Hkey, Hid.
  unfold main, main_startup. rewrite Hkey, Hid. cbn [andb negb].
  assert (Hurl : negb (BOT_MODE cfg) && negb (str_truthy (DISCORD_WEBHOOK_URL cfg)) = false).
  { unfold transport_ready in Hready. destruct (BOT_MODE cfg); [reflexivity |].
    now rewrite Hready. }
  rewrite Hurl, send_cases, Hready.
  rewrite (webhook_payload_described cfg (startup_message now) "is now online ✅"
             (PStr "Bot") (PStr "startup") (PBool false) eq_refl eq_refl eq_refl).
  eexists. split; [reflexivity |].
  unfold request_for. destruct (KEEPALIVE cfg), (BOT_MODE cfg); reflexivity.
Qed.

Lemma startup_without_response_crashes_witness :
  exists evs,
    main Sample.webhook_cfg 0 NoResponse None true [Sample.away_tick (Response 204 "")]
    = Crashed evs RequestException
    /\ filter is_get evs = [].
Proof.
  apply (startup_without_response_crashes Sample.webhook_cfg 0 None true
           [Sample.away_tick (Response 204 "")]);
    [discriminate | discriminate | reflexivity].
Defined.

(** X25: a signal stops the loop at the next test of the flag: the
    iteration during which SIGTERM or SIGINT arrives is completed, with
    its sleep, and no later iteration runs; a signal that arrived before
    the loop keeps it from running at all. *)
Theorem supervise_until_signal (cfg : Config) (iterations : list (tick_env * bool))
    (w : world) :
  supervise cfg false iterations w = run cfg (until_signal iterations) w
  /\ supervise cfg true iterations w = (w, [])
  /\ (forall env,
        supervise cfg false ((env, true) :: iterations) w
        = (fst (tick cfg env w),
           (snd (tick cfg env w) ++ [Sleep (POLL_SECONDS cfg)])%list)).
Proof.
  split; [| split].
  3: { intros env. cbn [supervise]. destruct (tick cfg env w) as [w1 evs1].
       unfold _handle_sigterm. destruct iterations as [|[env' s'] its']; reflexivity. }
  - revert w. induction iterations as [|[env signalled] its IH]; intros w;
      [reflexivity |].
    cbn [supervise until_signal]. destruct signalled.
    + cbn [run]. destruct (tick cfg env w) as [w1 evs1].
      unfold _handle_sigterm. destruct its as [|[env' s'] its']; reflexivity.
    + cbn [run]. destruct (tick cfg env w) as [w1 evs1]. now rewrite IH.
  - destruct iterations as [|[env signalled] its]; reflexivity.
Qed.

(* ===================================================================== *)
(** * More on the status file                                            *)
(* ===================================================================== *)

(** ** A write cut short *)




















(* ===================================================================== *)
(** * What a notification presupposes, and where the loop falls silent   *)
(* ===================================================================== *)

(** X28: every notification stands for a transition against the stored
    snapshot: "came online" is answered only if the stored persona state
    is 0 and the current one is positive, and "started playing" only if
    the stored snapshot is not in a game, the current one is, rule 1
    does not apply and ONLY_ONLINE is off. *)
Theorem notification_needs_transition (cfg : Config) (prev curr : dict)
    (reason : string) :
  should_notify cfg prev curr = Ok (true, reason) ->
  exists ps cs,
    persona_state prev = Ok ps /\ persona_state curr = Ok cs
    /\ ((reason = "came online" /\ ps = 0 /\ cs > 0)
        \/ (reason = "started playing" /\ ~ (ps = 0 /\ cs > 0)
            /\ in_game prev = false /\ in_game curr = true
            /\ ONLY_ONLINE cfg = false)).
Proof.
  rewrite should_notify_views.
  destruct (persona_state prev) as [ps|e1]; simpl; [| discriminate].
  destruct (persona_state curr) as [cs|e2]; simpl; [| discriminate].
  destruct (in_game curr && list_truthy (ONLY_GAMES cfg) && negb (title_lowers curr));
    [discriminate |].
  intros H. exists ps, cs. split; [reflexivity |]. split; [reflexivity |].
  destruct (Z.eqb_spec ps 0) as [Hps | Hps]; destruct (Z.gtb_spec cs 0) as [Hcs | Hcs];
    simpl in H.
  - left. destruct (list_truthy (ONLY_GAMES cfg) && ONLY_ONLINE cfg); [discriminate |].
    injection H as <-. repeat split; [exact Hps | lia].
  - right. destruct (in_game prev), (in_game curr); simpl in H; try discriminate.
    destruct (ONLY_ONLINE cfg); [now rewrite orb_true_r in H |].
    destruct (_ || false); [discriminate |]. injection H as <-.
    repeat split. intros [_ Hc]. lia.
  - right. destruct (in_game prev), (in_game curr); simpl in H; try discriminate.
    destruct (ONLY_ONLINE cfg); [now rewrite orb_true_r in H |].
    destruct (_ || false); [discriminate |]. injection H as <-.
    repeat split. intros [Hp _]. contradiction.
  - right. destruct (in_game prev), (in_game curr); simpl in H; try discriminate.
    destruct (ONLY_ONLINE cfg); [now rewrite orb_true_r in H |].
    destruct (_ || false); [discriminate |]. injection H as <-.
    repeat split. intros [Hp _]. contradiction.
Qed.

Lemma notification_needs_transition_witness :
  exists ps cs,
    persona_state Sample.online = Ok ps /\ persona_state Sample.online_dota = Ok cs
    /\ (("started playing" = "came online" /\ ps = 0 /\ cs > 0)
        \/ ("started playing" = "started playing" /\ ~ (ps = 0 /\ cs > 0)
            /\ in_game Sample.online = false /\ in_game Sample.online_dota = true
            /\ ONLY_ONLINE Sample.webhook_cfg = false)).
Proof.
  exact (notification_needs_transition Sample.webhook_cfg Sample.online
           Sample.online_dota "started playing" eq_refl).
Defined.

(** With a stored snapshot that is in a game and not offline, no tick
    decides to notify. *)
Lemma playing_world_quiet (cfg : Config) (env : tick_env) (w : world) (ps : Z) :
  persona_state (state w) = Ok ps -> ps <> 0 -> in_game (state w) = true ->
  forall curr reason, decision cfg env w <> Some (curr, (true, reason)).
Proof.
  intros Hp Hps Hg curr reason. unfold decision.
  destruct (fetch_steam_status (steam env) (clock env)) as [c|e]; [| discriminate].
  rewrite should_notify_views, Hp, Hg. simpl.
  destruct (persona_state c) as [cs|e2]; simpl; [| discriminate].
  destruct (in_game c && list_truthy (ONLY_GAMES cfg) && negb (title_lowers c));
    [discriminate |].
  apply Z.eqb_neq in Hps. rewrite Hps. simpl. discriminate.
Qed.

(** X29: the loop can fall silent for good. The stored snapshot is
    replaced only when a notification goes out; once it is a snapshot
    that is in a game with a persona state other than 0, neither rule can
    apply again, so over any number of iterations, whatever Steam
    reports, nothing is posted and the state and the status file never
    change. *)
Theorem silent_once_playing (cfg : Config) (envs : list tick_env) (w : world) (ps : Z) :
  persona_state (state w) = Ok ps ->
  ps <> 0 ->
  in_game (state w) = true ->
  fst (run cfg envs w) = w /\ filter is_post (snd (run cfg envs w)) = [].
Proof.
  intros Hp Hps Hg. induction envs as [|env envs [IHw IHp]]; [split; reflexivity |].
  pose proof (playing_world_quiet cfg env w ps Hp Hps Hg) as Hq.
  assert (Hw : fst (tick cfg env w) = w).
  { rewrite tick_world.
    destruct (decision cfg env w) as [[curr [[|] reason]]|]; try reflexivity.
    now contradiction (Hq curr reason). }
  assert (Hposts : filter is_post (snd (tick cfg env w)) = []).
  { rewrite tick_posts.
    destruct (decision cfg env w) as [[curr [[|] reason]]|]; try reflexivity.
    now contradiction (Hq curr reason). }
  rewrite run_cons, Hw. cbn [fst snd]. split; [exact IHw |].
  rewrite filter_app, Hposts. simpl. exact IHp.
Qed.

Lemma silent_once_playing_witness :
  fst (run Sample.webhook_cfg
         [Sample.away_tick (Response 204 "");
          {| steam := SteamResponse 200 (Some [Sample.player_offline_dota]);
             clock := 2000; discord := Response 204 ""; disk := WriteDone |};
          Sample.dota_tick]
         {| state := Sample.playing "A"; status_file := None |})
  = {| state := Sample.playing "A"; status_file := None |}
  /\ filter is_post
       (snd (run Sample.webhook_cfg
               [Sample.away_tick (Response 204 "");
                {| steam := SteamResponse 200 (Some [Sample.player_offline_dota]);
                   clock := 2000; discord := Response 204 ""; disk := WriteDone |};
                Sample.dota_tick]
               {| state := Sample.playing "A"; status_file := None |})) = [].
Proof.
  apply (silent_once_playing Sample.webhook_cfg _
           {| state := Sample.playing "A"; status_file := None |} 1);
    [reflexivity | discriminate | reflexivity].
Defined.
